(** * Inventory fulfilment core of the distribution back end

    A shallow embedding of the request lifecycle (the dealer-request
    routes, [src/unnamed/part_004]), the lot ledger ([models/DealerStock.js],
    [models/StockAllocation.js], [models/DealerRequest.js],
    [models/Product.js]) and the FIFO allocation engine (the
    stock-allocation routes, [src/unnamed/part_008]), with the properties the
    specification states about them.

    Conventions of the embedding.
    - A JavaScript [Number] is an exact rational ([Q]).  On whole numbers
      of magnitude below 2^53 ([safe_integer]) the sums, differences and
      comparisons of IEEE doubles are exact, and the program computes what
      the model computes; statements that depend on the value of a sum or a
      difference say so in their hypotheses.  On fractional quantities the
      doubles of the program round, which the module [Binary64] at the end of
      the definitions replays for the allocation loop.
    - A string is a list of characters; the schema paths declared with
      [trim: true] store their text with the blanks around it removed, a
      value of the request body that Mongoose cannot cast to a string makes
      the [save] of the document fail.
    - A MongoDB collection is a list of documents in insertion order; a
      document is a record; [_id] is a natural number drawn from a counter
      kept in the store.
    - [doc.save()] runs the schema validators first and the schema's
      [pre('save')] hook next, as Mongoose does; a failed validator or hook
      is an exception, which the handlers' [catch] turns into a 500 reply
      while everything saved before it stays saved.
    - A handler is a function from the store and its inputs to the store
      after the call and the HTTP reply. *)

From Stdlib Require Import List Bool Arith PeanoNat NArith ZArith QArith Qminmax.
From Stdlib Require Import Lia Lqa Ascii String Permutation Sorting.Sorted.
From Stdlib Require PrimFloat Uint63.
Import ListNotations.
Local Open Scope Q_scope.

(** ** JavaScript values that reach the validation code *)

Inductive jsval : Type :=
| JUndefined
| JNull
| JBool (b : bool)
| JNum (q : Q)
| JStr (s : string)
| JObj.

(** [!v] is [negb (truthy v)]. *)
Definition truthy (v : jsval) : bool :=
  match v with
  | JUndefined | JNull => false
  | JBool b => b
  | JNum q => negb (Qeq_bool q 0)
  | JStr s => match s with EmptyString => false | _ => true end
  | JObj => true
  end.

Definition Qltb (x y : Q) : bool := negb (Qle_bool y x).

(** The numbers on which the arithmetic of doubles is exact: the whole numbers
    of magnitude at most 2^53 - 1 ([Number.isSafeInteger]). *)
Definition safe_integer (q : Q) : Prop :=
  exists n : Z, q == inject_Z n /\ (Z.abs n <= 9007199254740991)%Z.

(** [typeof strips !== 'number' || strips < 1], the quantity check shared by
    [POST /] (part_004:108) and [POST /allocate] (part_008:162).  It returns
    the number when the check lets the request through. *)
Definition strips_number (strips : jsval) : option Q :=
  match strips with
  | JNum q => if Qltb q 1 then None else Some q
  | _ => None
  end.

(** ** Identifiers, roles and callers *)

Definition oid := nat.

(** An id taken from the request: absent (falsy); present but rejected by
    [mongoose.Types.ObjectId.isValid]; a valid ObjectId; or a value that
    [isValid] accepts but a query cannot cast to an ObjectId (a number in a
    JSON body), so that the query throws. *)
Inductive idParam : Type :=
| IdAbsent
| IdInvalid
| IdValid (i : oid)
| IdUncastable.

Inductive Role : Type := Admin | Dealer | Dellear | Salesman | Stalkist.

Definition Role_eqb (a b : Role) : bool :=
  match a, b with
  | Admin, Admin | Dealer, Dealer | Dellear, Dellear
  | Salesman, Salesman | Stalkist, Stalkist => true
  | _, _ => false
  end.

Record User : Type := mkUser {
  u_id : oid;
  u_name : string;
  u_role : Role;
  u_createdBy : option oid
}.

(** ** Documents *)

Record Product : Type := mkProduct {
  p_id : oid;
  p_stock : Q
}.

Inductive Status : Type := Pending | Approved | Cancelled.

Inductive PaymentStatus : Type := PayPending | Paid | Verified | Rejected.

Definition Status_eqb (a b : Status) : bool :=
  match a, b with
  | Pending, Pending | Approved, Approved | Cancelled, Cancelled => true
  | _, _ => false
  end.

Definition PaymentStatus_eqb (a b : PaymentStatus) : bool :=
  match a, b with
  | PayPending, PayPending | Paid, Paid
  | Verified, Verified | Rejected, Rejected => true
  | _, _ => false
  end.

(** models/DealerRequest.js *)
Record DealerRequest : Type := mkRequest {
  r_id : oid;
  r_dealer : oid;
  r_product : oid;
  r_strips : Q;
  r_status : Status;
  r_paymentStatus : PaymentStatus;
  r_receiptImage : option string;
  r_paymentVerifiedBy : option oid;
  r_paymentVerifiedAt : option nat;
  r_paymentNotes : string;
  r_processedBy : option oid;
  r_processedAt : option nat;
  r_notes : string
}.

(** models/DealerStock.js: one lot. *)
Record DealerStock : Type := mkStock {
  s_id : oid;
  s_dealer : oid;
  s_product : oid;
  totalStrips : Q;
  allocatedStrips : Q;
  availableStrips : Q;
  sourceRequest : oid;
  s_createdAt : nat
}.

(** models/StockAllocation.js *)
Record StockAllocation : Type := mkAllocation {
  a_id : oid;
  a_dealer : oid;
  a_salesman : oid;
  a_product : oid;
  a_strips : Q;
  a_dealerStock : oid;
  a_notes : string
}.

(** The store: the five collections and the ObjectId counter. *)
Record DB : Type := mkDB {
  users : list User;
  products : list Product;
  requests : list DealerRequest;
  stocks : list DealerStock;
  allocations : list StockAllocation;
  nextId : nat
}.

(** ** Replies *)

Inductive Msg : Type :=
| MsgNoToken
| MsgAccessDenied
| MsgMissingFields
| MsgStripsNotPositive
| MsgInvalidId
| MsgSalesmanNotFound
| MsgProductNotFound
| MsgRequestNotFound
| MsgInsufficientStock (available requested : Q)
| MsgInsufficientToApprove
| MsgAlready (s : Status)
| MsgCannotUpload (s : Status)
| MsgNoReceipt
| MsgPaymentStatusIs (p : PaymentStatus)
| MsgPaymentNotVerified (p : PaymentStatus)
| MsgAllocated (first : StockAllocation) (totalAllocated : Q)
| MsgRequest (r : DealerRequest)
| MsgServerError.

Record response : Type := mkResponse {
  code : nat;
  message : Msg
}.

Definition reply (c : nat) (m : Msg) : response := mkResponse c m.

(** ** Notes of a call *)

(** A string is a sequence of code units below 256.  The schemas declare
    [notes], [paymentNotes] and [receiptImage] with [trim: true]: what is
    assigned to them goes through [String.prototype.trim], which drops the
    white space and line terminators at both ends (tab, line feed, vertical
    tab, form feed, carriage return, space, no-break space). *)
Definition is_space (c : ascii) : bool :=
  match N_of_ascii c with
  | 9 | 10 | 11 | 12 | 13 | 32 | 160 => true
  | _ => false
  end%N.

Fixpoint trim_start (s : string) : string :=
  match s with
  | EmptyString => EmptyString
  | String c rest => if is_space c then trim_start rest else s
  end.

Fixpoint trim_end (s : string) : string :=
  match s with
  | EmptyString => EmptyString
  | String c rest =>
      match trim_end rest with
      | EmptyString => if is_space c then EmptyString else String c EmptyString
      | kept => String c kept
      end
  end.

Definition trim (s : string) : string := trim_end (trim_start s).

(** [req.body.notes] as the handlers and the String cast of the schemas see
    it: a falsy value (absent, [null], [false], [0], the empty string); a
    value the cast accepts, given by the text the cast yields (a string is
    its own text, a number or a boolean is printed); or a value the cast
    rejects (an object or an array), which makes [save()] reject. *)
Inductive bodyNotes : Type :=
| NotesFalsy
| NotesText (text : string)
| NotesUncastable.

Definition notes_castable (notes : bodyNotes) : bool :=
  match notes with
  | NotesUncastable => false
  | _ => true
  end.

(** [req.body.notes || ''], as a castable value is stored: trimmed. *)
Definition notes_or_empty (notes : bodyNotes) : string :=
  match notes with
  | NotesText text => trim text
  | _ => EmptyString
  end.

(** ** Queries and writes on the collections *)

Definition findProduct (db : DB) (i : oid) : option Product :=
  find (fun p => Nat.eqb (p_id p) i) (products db).

Definition findRequest (db : DB) (i : oid) : option DealerRequest :=
  find (fun r => Nat.eqb (r_id r) i) (requests db).

Definition findStock (db : DB) (i : oid) : option DealerStock :=
  find (fun s => Nat.eqb (s_id s) i) (stocks db).

(** Replace the stored document that carries the id of [d]. *)
Definition replace_by {A : Type} (key : A -> oid) (d : A) (l : list A) : list A :=
  map (fun x => if Nat.eqb (key x) (key d) then d else x) l.

Definition set_products (db : DB) (l : list Product) : DB :=
  mkDB (users db) l (requests db) (stocks db) (allocations db) (nextId db).

Definition set_requests (db : DB) (l : list DealerRequest) : DB :=
  mkDB (users db) (products db) l (stocks db) (allocations db) (nextId db).

Definition set_stocks (db : DB) (l : list DealerStock) : DB :=
  mkDB (users db) (products db) (requests db) l (allocations db) (nextId db).

Definition set_allocations (db : DB) (l : list StockAllocation) : DB :=
  mkDB (users db) (products db) (requests db) (stocks db) l (nextId db).

Definition bump (db : DB) : DB :=
  mkDB (users db) (products db) (requests db) (stocks db) (allocations db)
       (S (nextId db)).

(** ** models/DealerStock.js: validators and the pre-save hook *)

(** The three [min: [0, ...]] validators of the schema. *)
Definition stock_validate (s : DealerStock) : bool :=
  Qle_bool 0 (totalStrips s) && Qle_bool 0 (allocatedStrips s)
  && Qle_bool 0 (availableStrips s).

Definition with_counts (s : DealerStock) (total allocated available : Q)
  : DealerStock :=
  mkStock (s_id s) (s_dealer s) (s_product s) total allocated available
          (sourceRequest s) (s_createdAt s).

(** [dealerStockSchema.pre('save')]: recompute [availableStrips]; refuse the
    save when it is negative. *)
Definition stock_pre_save (s : DealerStock) : option DealerStock :=
  let available := totalStrips s - allocatedStrips s in
  if Qltb available 0 then None
  else Some (with_counts s (totalStrips s) (allocatedStrips s) available).

(** What [stock.save()] writes, or [None] when it throws. *)
Definition stock_document (s : DealerStock) : option DealerStock :=
  if stock_validate s then stock_pre_save s else None.

(** [save()] of a lot already in the collection. *)
Definition stock_save (db : DB) (s : DealerStock) : option (DB * DealerStock) :=
  match stock_document s with
  | Some d => Some (set_stocks db (replace_by s_id d (stocks db)), d)
  | None => None
  end.

(** [save()] of a lot built with [new DealerStock(...)]. *)
Definition stock_insert (db : DB) (s : DealerStock) : option (DB * DealerStock) :=
  match stock_document s with
  | Some d => Some (set_stocks db (stocks db ++ [d]), d)
  | None => None
  end.

(** models/StockAllocation.js: [strips] has [min: 1]. *)
Definition allocation_validate (a : StockAllocation) : bool :=
  Qle_bool 1 (a_strips a).

Definition allocation_insert (db : DB) (a : StockAllocation) : option DB :=
  if allocation_validate a
  then Some (set_allocations db (allocations db ++ [a]))
  else None.

(** models/DealerRequest.js: [strips] has [min: 1]. *)
Definition request_validate (r : DealerRequest) : bool :=
  Qle_bool 1 (r_strips r).

Definition request_insert (db : DB) (r : DealerRequest) : option DB :=
  if request_validate r
  then Some (set_requests db (requests db ++ [r]))
  else None.

Definition request_save (db : DB) (r : DealerRequest) : option DB :=
  if request_validate r
  then Some (set_requests db (replace_by r_id r (requests db)))
  else None.

(** models/Product.js: [stock] has [min: 0]. *)
Definition product_validate (p : Product) : bool := Qle_bool 0 (p_stock p).

Definition product_save (db : DB) (p : Product) : option DB :=
  if product_validate p
  then Some (set_products db (replace_by p_id p (products db)))
  else None.

(** ** Middleware (part_004:63-94, part_008:43-63) *)

Definition verifyAdmin (u : User) : bool := Role_eqb (u_role u) Admin.

Definition verifyDealer (u : User) : bool :=
  Role_eqb (u_role u) Dealer || Role_eqb (u_role u) Dellear.

(** [verifyToken] followed by a role check: [caller] is the user the token
    resolves to, [None] when there is no usable token. *)
Definition guarded (check : User -> bool) (caller : option User) (db : DB)
  (handler : User -> DB * response) : DB * response :=
  match caller with
  | None => (db, reply 401 MsgNoToken)
  | Some u => if check u then handler u else (db, reply 403 MsgAccessDenied)
  end.

(** ** The allocation engine: [POST /allocate] (part_008:151-273) *)

(** [.sort({ createdAt: 1 })]: a stable sort on the creation time. *)
Fixpoint insert_by_createdAt (s : DealerStock) (l : list DealerStock)
  : list DealerStock :=
  match l with
  | [] => [s]
  | x :: rest =>
      if Nat.leb (s_createdAt s) (s_createdAt x) then s :: x :: rest
      else x :: insert_by_createdAt s rest
  end.

Definition sort_by_createdAt (l : list DealerStock) : list DealerStock :=
  fold_right insert_by_createdAt [] l.

(** [DealerStock.find({ dealer, product }).sort({ createdAt: 1 })] *)
Definition dealerStocks_of (db : DB) (dealer product : oid) : list DealerStock :=
  sort_by_createdAt
    (filter (fun s => Nat.eqb (s_dealer s) dealer && Nat.eqb (s_product s) product)
            (stocks db)).

(** [User.findOne({ _id: salesmanId, createdBy: req.user._id, role: 'salesman' })] *)
Definition findSalesman (db : DB) (salesmanId dealer : oid) : option User :=
  find (fun u => Nat.eqb (u_id u) salesmanId
                 && match u_createdBy u with
                    | Some c => Nat.eqb c dealer
                    | None => false
                    end
                 && Role_eqb (u_role u) Salesman)
       (users db).

(** The local variables of the walk. *)
Record walk_state : Type := mkWalk {
  w_db : DB;
  remainingToAllocate : Q;
  w_allocations : list StockAllocation;
  updatedStocks : list DealerStock
}.

(** The [for (const stock of dealerStocks)] loop (part_008:210-237).  The
    right injection is the store at the moment a [save()] threw. *)
Fixpoint walk (dealer salesmanId productId : oid) (notes : bodyNotes)
  (dealerStocks : list DealerStock) (st : walk_state) : walk_state + DB :=
  match dealerStocks with
  | [] => inl st
  | stock :: rest =>
      if Qle_bool (remainingToAllocate st) 0 then inl st
      else
        let available := availableStrips stock in
        if Qltb 0 available then
          let toAllocate := Qmin available (remainingToAllocate st) in
          let db := w_db st in
          let allocation :=
            mkAllocation (nextId db) dealer salesmanId productId toAllocate
                         (s_id stock) (notes_or_empty notes) in
          match (if notes_castable notes
                 then allocation_insert (bump db) allocation else None) with
          | None => inr db
          | Some db1 =>
              let allocated := allocatedStrips stock + toAllocate in
              let stock' :=
                with_counts stock (totalStrips stock) allocated
                            (totalStrips stock - allocated) in
              match stock_save db1 stock' with
              | None => inr db1
              | Some (db2, saved) =>
                  walk dealer salesmanId productId notes rest
                       (mkWalk db2 (remainingToAllocate st - toAllocate)
                               (w_allocations st ++ [allocation])
                               (updatedStocks st ++ [saved]))
              end
          end
        else walk dealer salesmanId productId notes rest st
  end.

(** [StockAllocation.deleteMany({ _id: { $in: ids } })] *)
Definition deleteMany (db : DB) (ids : list oid) : DB :=
  set_allocations db
    (filter (fun a => negb (existsb (Nat.eqb (a_id a)) ids)) (allocations db)).

(** The rollback loop (part_008:242-246): every lot of [updatedStocks] is
    decreased by the same [amount]. *)
Fixpoint rollback (db : DB) (updated : list DealerStock) (amount : Q) : DB + DB :=
  match updated with
  | [] => inl db
  | stock :: rest =>
      let allocated := allocatedStrips stock - amount in
      let stock' :=
        with_counts stock (totalStrips stock) allocated
                    (totalStrips stock - allocated) in
      match stock_save db stock' with
      | None => inr db
      | Some (db', _) => rollback db' rest amount
      end
  end.

(** The handler, after the middleware. *)
Definition allocate_handler (db : DB) (salesmanId productId : idParam)
  (strips : jsval) (notes : bodyNotes) (caller : User) : DB * response :=
  match salesmanId, productId, truthy strips with
  | IdAbsent, _, _ | _, IdAbsent, _ | _, _, false =>
      (db, reply 400 MsgMissingFields)
  | _, _, true =>
      match strips_number strips with
      | None => (db, reply 400 MsgStripsNotPositive)
      | Some strips =>
          match salesmanId, productId with
          | IdValid sid, IdValid pid =>
              match findSalesman db sid (u_id caller) with
              | None => (db, reply 404 MsgSalesmanNotFound)
              | Some salesman =>
                  match findProduct db pid with
                  | None => (db, reply 404 MsgProductNotFound)
                  | Some _ =>
                      let dealerStocks := dealerStocks_of db (u_id caller) pid in
                      match walk (u_id caller) sid pid notes dealerStocks
                                 (mkWalk db strips [] []) with
                      | inr db' => (db', reply 500 MsgServerError)
                      | inl st =>
                          if Qltb 0 (remainingToAllocate st) then
                            let db1 :=
                              deleteMany (w_db st)
                                         (map a_id (w_allocations st)) in
                            let amount := strips - remainingToAllocate st in
                            match rollback db1 (updatedStocks st) amount with
                            | inr db' => (db', reply 500 MsgServerError)
                            | inl db' =>
                                (db', reply 400 (MsgInsufficientStock amount strips))
                            end
                          else
                            match w_allocations st with
                            | [] => (w_db st, reply 500 MsgServerError)
                            | first :: _ =>
                                (w_db st, reply 201 (MsgAllocated first strips))
                            end
                      end
                  end
              end
          | IdValid sid, IdUncastable =>
              (db, match findSalesman db sid (u_id caller) with
                   | None => reply 404 MsgSalesmanNotFound
                   | Some _ => reply 500 MsgServerError
                   end)
          | IdUncastable, (IdValid _ | IdUncastable) =>
              (db, reply 500 MsgServerError)
          | _, _ => (db, reply 400 MsgInvalidId)
          end
      end
  end.

Definition allocate (db : DB) (caller : option User)
  (salesmanId productId : idParam) (strips : jsval) (notes : bodyNotes)
  : DB * response :=
  guarded verifyDealer caller db
          (allocate_handler db salesmanId productId strips notes).

(** ** The request lifecycle (part_004) *)

Definition with_status (r : DealerRequest) (s : Status) (by_ : oid) (now : nat)
  (notes : string) : DealerRequest :=
  mkRequest (r_id r) (r_dealer r) (r_product r) (r_strips r) s
            (r_paymentStatus r) (r_receiptImage r) (r_paymentVerifiedBy r)
            (r_paymentVerifiedAt r) (r_paymentNotes r) (Some by_) (Some now)
            notes.

Definition with_payment (r : DealerRequest) (p : PaymentStatus)
  (receipt : option string) (verifiedBy : option oid) (verifiedAt : option nat)
  (paymentNotes : string) : DealerRequest :=
  mkRequest (r_id r) (r_dealer r) (r_product r) (r_strips r) (r_status r) p
            receipt verifiedBy verifiedAt paymentNotes (r_processedBy r)
            (r_processedAt r) (r_notes r).

(** [new DealerRequest({ dealer, product, strips, status: 'pending' })] with
    the schema defaults. *)
Definition new_request (i dealer product : oid) (strips : Q) : DealerRequest :=
  mkRequest i dealer product strips Pending PayPending None None None
            EmptyString None None EmptyString.

(** [POST /] (part_004:97-172).  [productId] goes to [findById] unchecked, so
    a malformed id is a cast error. *)
Definition submit_handler (db : DB) (productId : idParam) (strips : jsval)
  (caller : User) : DB * response :=
  match productId, truthy strips with
  | IdAbsent, _ | _, false => (db, reply 400 MsgMissingFields)
  | _, true =>
      match strips_number strips with
      | None => (db, reply 400 MsgStripsNotPositive)
      | Some strips =>
          match productId with
          | IdValid pid =>
              match findProduct db pid with
              | None => (db, reply 404 MsgProductNotFound)
              | Some product =>
                  if Qltb (p_stock product) strips then
                    (db, reply 400 (MsgInsufficientStock (p_stock product) strips))
                  else
                    let request :=
                      new_request (nextId db) (u_id caller) pid strips in
                    match request_insert (bump db) request with
                    | None => (db, reply 500 MsgServerError)
                    | Some db' => (db', reply 201 (MsgRequest request))
                    end
              end
          | _ => (db, reply 500 MsgServerError)
          end
      end
  end.

Definition submit (db : DB) (caller : option User) (productId : idParam)
  (strips : jsval) : DB * response :=
  guarded verifyDealer caller db (submit_handler db productId strips).

(** What became of the uploaded file: none was sent; [upload.single] refused
    it (not an image, over the size limit, a wrong field name), which makes
    the route answer 500 before the handler runs; the image host failed; or
    the image host stored it under [secure_url]. *)
Inductive receiptUpload : Type :=
| NoFile
| FileRefused
| UploadFails
| Uploaded (secure_url : string).

(** [PUT /:id/upload-receipt] (part_004:357-430) *)
Definition uploadReceipt_handler (db : DB) (id : idParam) (file : receiptUpload)
  (caller : User) : DB * response :=
  match file, id with
  | FileRefused, _ => (db, reply 500 MsgServerError)
  | _, IdValid i =>
      match findRequest db i with
      | None => (db, reply 404 MsgRequestNotFound)
      | Some request =>
          if negb (Nat.eqb (r_dealer request) (u_id caller)) then
            (db, reply 403 MsgAccessDenied)
          else if negb (Status_eqb (r_status request) Pending) then
            (db, reply 400 (MsgCannotUpload (r_status request)))
          else
            match file with
            | NoFile => (db, reply 400 MsgNoReceipt)
            | FileRefused | UploadFails => (db, reply 500 MsgServerError)
            | Uploaded secure_url =>
                let request' :=
                  with_payment request Paid (Some (trim secure_url))
                               (r_paymentVerifiedBy request)
                               (r_paymentVerifiedAt request)
                               (r_paymentNotes request) in
                match request_save db request' with
                | None => (db, reply 500 MsgServerError)
                | Some db' => (db', reply 200 (MsgRequest request'))
                end
            end
      end
  | _, IdUncastable => (db, reply 500 MsgServerError)
  | _, _ => (db, reply 400 MsgInvalidId)
  end.

Definition uploadReceipt (db : DB) (caller : option User) (id : idParam)
  (file : receiptUpload) : DB * response :=
  guarded verifyDealer caller db (uploadReceipt_handler db id file).

(** [PUT /:id/verify-payment] (part_004:433-484) *)
Definition verifyPayment_handler (db : DB) (id : idParam) (notes : bodyNotes)
  (now : nat) (caller : User) : DB * response :=
  match id with
  | IdValid i =>
      match findRequest db i with
      | None => (db, reply 404 MsgRequestNotFound)
      | Some request =>
          if negb (PaymentStatus_eqb (r_paymentStatus request) Paid) then
            (db, reply 400 (MsgPaymentStatusIs (r_paymentStatus request)))
          else
            let request' :=
              with_payment request Verified (r_receiptImage request)
                           (Some (u_id caller)) (Some now)
                           (notes_or_empty notes) in
            match (if notes_castable notes then request_save db request'
                   else None) with
            | None => (db, reply 500 MsgServerError)
            | Some db' => (db', reply 200 (MsgRequest request'))
            end
      end
  | IdUncastable => (db, reply 500 MsgServerError)
  | _ => (db, reply 400 MsgInvalidId)
  end.

Definition verifyPayment (db : DB) (caller : option User) (id : idParam)
  (notes : bodyNotes) (now : nat) : DB * response :=
  guarded verifyAdmin caller db (verifyPayment_handler db id notes now).

(** [req.body.notes || 'Receipt rejected. Please upload a valid receipt.'],
    as a castable value is stored: trimmed, so that a note of blanks is
    stored as the empty string. *)
Definition rejection_notes (notes : bodyNotes) : string :=
  match notes with
  | NotesText (String c s) => trim (String c s)
  | _ => "Receipt rejected. Please upload a valid receipt."%string
  end.

(** [PUT /:id/reject-payment] (part_004:487-539) *)
Definition rejectPayment_handler (db : DB) (id : idParam) (notes : bodyNotes)
  (now : nat) (caller : User) : DB * response :=
  match id with
  | IdValid i =>
      match findRequest db i with
      | None => (db, reply 404 MsgRequestNotFound)
      | Some request =>
          if negb (PaymentStatus_eqb (r_paymentStatus request) Paid) then
            (db, reply 400 (MsgPaymentStatusIs (r_paymentStatus request)))
          else
            let request' :=
              with_payment request Rejected None (Some (u_id caller))
                           (Some now) (rejection_notes notes) in
            match (if notes_castable notes then request_save db request'
                   else None) with
            | None => (db, reply 500 MsgServerError)
            | Some db' => (db', reply 200 (MsgRequest request'))
            end
      end
  | IdUncastable => (db, reply 500 MsgServerError)
  | _ => (db, reply 400 MsgInvalidId)
  end.

Definition rejectPayment (db : DB) (caller : option User) (id : idParam)
  (notes : bodyNotes) (now : nat) : DB * response :=
  guarded verifyAdmin caller db (rejectPayment_handler db id notes now).

(** The lot step of approval, [// Create or update dealer stock]
    (part_004:596-619); the specification calls it [openLot].  [None] is a
    [save()] that threw. *)
Definition openLot (db : DB) (dealer product : oid) (strips : Q)
  (request : oid) (now : nat) : option (DB * DealerStock) :=
  match find (fun s => Nat.eqb (s_dealer s) dealer
                       && Nat.eqb (s_product s) product
                       && Nat.eqb (sourceRequest s) request)
             (stocks db) with
  | Some dealerStock =>
      let total := totalStrips dealerStock + strips in
      stock_save db
        (with_counts dealerStock total (allocatedStrips dealerStock)
                     (total - allocatedStrips dealerStock))
  | None =>
      stock_insert (bump db)
        (mkStock (nextId db) dealer product strips 0 strips request now)
  end.

(** [PUT /:id/approve] (part_004:542-639).  The request is loaded with its
    product populated; a request whose product is gone makes
    [request.product.stock] throw. *)
Definition approve_handler (db : DB) (id : idParam) (notes : bodyNotes)
  (now : nat) (caller : User) : DB * response :=
  match id with
  | IdValid i =>
      match findRequest db i with
      | None => (db, reply 404 MsgRequestNotFound)
      | Some request =>
          if negb (Status_eqb (r_status request) Pending) then
            (db, reply 400 (MsgAlready (r_status request)))
          else if negb (PaymentStatus_eqb (r_paymentStatus request) Verified) then
            (db, reply 400 (MsgPaymentNotVerified (r_paymentStatus request)))
          else
            match findProduct db (r_product request) with
            | None => (db, reply 500 MsgServerError)
            | Some product =>
                if Qltb (p_stock product) (r_strips request) then
                  (db, reply 400 MsgInsufficientToApprove)
                else
                  let product' :=
                    mkProduct (p_id product)
                              (p_stock product - r_strips request) in
                  match product_save db product' with
                  | None => (db, reply 500 MsgServerError)
                  | Some db1 =>
                      let request' :=
                        with_status request Approved (u_id caller) now
                                    (notes_or_empty notes) in
                      match (if notes_castable notes
                             then request_save db1 request' else None) with
                      | None => (db1, reply 500 MsgServerError)
                      | Some db2 =>
                          match openLot db2 (r_dealer request) (p_id product)
                                        (r_strips request) (r_id request) now with
                          | None => (db2, reply 500 MsgServerError)
                          | Some (db3, _) => (db3, reply 200 (MsgRequest request'))
                          end
                      end
                  end
            end
      end
  | IdUncastable => (db, reply 500 MsgServerError)
  | _ => (db, reply 400 MsgInvalidId)
  end.

Definition approve (db : DB) (caller : option User) (id : idParam)
  (notes : bodyNotes) (now : nat) : DB * response :=
  guarded verifyAdmin caller db (approve_handler db id notes now).

(** *** The approval route, one database operation at a time

    The body of the route suspends at every [await], and between two of them
    another call may run.  [approval] is where one call stands, with the
    documents it holds in memory; [approve_move] is its next database
    operation together with the code up to the following [await]. *)
Inductive approval : Type :=
| Arrived
| Checked (request : DealerRequest) (product : Product)
| StockSaved (request : DealerRequest) (product : Product)
| RequestSaved (request' : DealerRequest) (product : Product)
| LotLooked (request' : DealerRequest) (product : Product)
            (dealerStock : option DealerStock)
| Answered (r : response).

Definition approve_move (id : idParam) (notes : bodyNotes) (now : nat)
  (caller : User) (db : DB) (a : approval) : DB * approval :=
  match a with
  | Arrived =>
      (* findById(...).populate('product'), then the checks (552-583) *)
      (db,
       match id with
       | IdValid i =>
           match findRequest db i with
           | None => Answered (reply 404 MsgRequestNotFound)
           | Some request =>
               if negb (Status_eqb (r_status request) Pending) then
                 Answered (reply 400 (MsgAlready (r_status request)))
               else if negb (PaymentStatus_eqb (r_paymentStatus request)
                                               Verified) then
                 Answered (reply 400 (MsgPaymentNotVerified
                                        (r_paymentStatus request)))
               else
                 match findProduct db (r_product request) with
                 | None => Answered (reply 500 MsgServerError)
                 | Some product =>
                     if Qltb (p_stock product) (r_strips request) then
                       Answered (reply 400 MsgInsufficientToApprove)
                     else Checked request product
                 end
           end
       | IdUncastable => Answered (reply 500 MsgServerError)
       | _ => Answered (reply 400 MsgInvalidId)
       end)
  | Checked request product =>
      (* request.product.stock -= request.strips; request.product.save() *)
      match product_save db (mkProduct (p_id product)
                                       (p_stock product - r_strips request)) with
      | None => (db, Answered (reply 500 MsgServerError))
      | Some db1 => (db1, StockSaved request product)
      end
  | StockSaved request product =>
      (* request.status = 'approved'; ...; request.save() *)
      let request' :=
        with_status request Approved (u_id caller) now (notes_or_empty notes) in
      match (if notes_castable notes then request_save db request'
             else None) with
      | None => (db, Answered (reply 500 MsgServerError))
      | Some db2 => (db2, RequestSaved request' product)
      end
  | RequestSaved request' product =>
      (* DealerStock.findOne({ dealer, product, sourceRequest }) *)
      (db,
       LotLooked request' product
         (find (fun s => Nat.eqb (s_dealer s) (r_dealer request')
                         && Nat.eqb (s_product s) (p_id product)
                         && Nat.eqb (sourceRequest s) (r_id request'))
               (stocks db)))
  | LotLooked request' product dealerStock =>
      (* dealerStock.save(), of the lot found or of a new one *)
      match
        match dealerStock with
        | Some dealerStock =>
            let total := totalStrips dealerStock + r_strips request' in
            stock_save db
              (with_counts dealerStock total (allocatedStrips dealerStock)
                           (total - allocatedStrips dealerStock))
        | None =>
            stock_insert (bump db)
              (mkStock (nextId db) (r_dealer request') (p_id product)
                       (r_strips request') 0 (r_strips request')
                       (r_id request') now)
        end
      with
      | None => (db, Answered (reply 500 MsgServerError))
      | Some (db3, _) => (db3, Answered (reply 200 (MsgRequest request')))
      end
  | Answered r => (db, Answered r)
  end.

(** A call that runs alone: its moves one after the other. *)
Fixpoint approve_moves (n : nat) (id : idParam) (notes : bodyNotes) (now : nat)
  (caller : User) (db : DB) (a : approval) : DB * approval :=
  match n with
  | O => (db, a)
  | S n' =>
      let (db', a') := approve_move id notes now caller db a in
      approve_moves n' id notes now caller db' a'
  end.


(** [PUT /:id/cancel] (part_004:642-692) *)
Definition cancel_handler (db : DB) (id : idParam) (notes : bodyNotes)
  (now : nat) (caller : User) : DB * response :=
  match id with
  | IdValid i =>
      match findRequest db i with
      | None => (db, reply 404 MsgRequestNotFound)
      | Some request =>
          if negb (Status_eqb (r_status request) Pending) then
            (db, reply 400 (MsgAlready (r_status request)))
          else
            let request' :=
              with_status request Cancelled (u_id caller) now
                          (notes_or_empty notes) in
            match (if notes_castable notes then request_save db request'
                   else None) with
            | None => (db, reply 500 MsgServerError)
            | Some db' => (db', reply 200 (MsgRequest request'))
            end
      end
  | IdUncastable => (db, reply 500 MsgServerError)
  | _ => (db, reply 400 MsgInvalidId)
  end.

Definition cancel (db : DB) (caller : option User) (id : idParam)
  (notes : bodyNotes) (now : nat) : DB * response :=
  guarded verifyAdmin caller db (cancel_handler db id notes now).

(** ** Runs of the core *)

(** One call of the API.  [Catalog] stands for the product and user
    management routes, which lie outside the core and may rewrite those two
    collections in any way. *)
Inductive op : Type :=
| Submit (caller : option User) (productId : idParam) (strips : jsval)
| UploadReceipt (caller : option User) (id : idParam) (file : receiptUpload)
| VerifyPayment (caller : option User) (id : idParam) (notes : bodyNotes)
                (now : nat)
| RejectPayment (caller : option User) (id : idParam) (notes : bodyNotes)
                (now : nat)
| Approve (caller : option User) (id : idParam) (notes : bodyNotes)
          (now : nat)
| Cancel (caller : option User) (id : idParam) (notes : bodyNotes)
         (now : nat)
| Allocate (caller : option User) (salesmanId productId : idParam)
           (strips : jsval) (notes : bodyNotes)
| Catalog (us : list User) (ps : list Product).

Definition step (db : DB) (o : op) : DB :=
  match o with
  | Submit c p q => fst (submit db c p q)
  | UploadReceipt c i f => fst (uploadReceipt db c i f)
  | VerifyPayment c i n t => fst (verifyPayment db c i n t)
  | RejectPayment c i n t => fst (rejectPayment db c i n t)
  | Approve c i n t => fst (approve db c i n t)
  | Cancel c i n t => fst (cancel db c i n t)
  | Allocate c s p q n => fst (allocate db c s p q n)
  | Catalog us ps =>
      mkDB us ps (requests db) (stocks db) (allocations db) (nextId db)
  end.

Definition exec (db : DB) (ops : list op) : DB := fold_left step ops db.

(** A store whose ledger is still empty. *)
Definition empty_ledger (db : DB) : Prop :=
  requests db = [] /\ stocks db = [] /\ allocations db = [].

Definition reachable (db : DB) : Prop :=
  exists db0 ops, empty_ledger db0 /\ exec db0 ops = db.

(** ** Ledger predicates *)

(** The lot invariant of the specification. *)
Definition lot_inv (s : DealerStock) : Prop :=
  availableStrips s == totalStrips s - allocatedStrips s
  /\ 0 <= allocatedStrips s /\ allocatedStrips s <= totalStrips s.

(** Total of [strips] over a list of allocation records. *)
Definition sum_strips (l : list StockAllocation) : Q :=
  fold_right Qplus 0 (map a_strips l).

(** Sum of [strips] over the allocation records that reference lot [i]. *)
Definition allocated_to (db : DB) (i : oid) : Q :=
  sum_strips (filter (fun a => Nat.eqb (a_dealerStock a) i) (allocations db)).

(** The conservation invariant of the specification. *)
Definition conserved (db : DB) : Prop :=
  forall s, In s (stocks db) -> allocated_to db (s_id s) == allocatedStrips s.

(** Lots in creation order, oldest first. *)
Definition oldest_first (l : list DealerStock) : Prop :=
  StronglySorted (fun a b => (s_createdAt a <= s_createdAt b)%nat) l.

(** The walk as the specification words it: go through the lots in order;
    stop once nothing remains; skip a lot with nothing available; from any
    other lot take the smaller of what it has and what remains, recording
    one allocation for it. *)
Inductive fifo_drain : list DealerStock -> Q -> list StockAllocation -> Prop :=
| drain_stop : forall lots remaining,
    remaining <= 0 -> fifo_drain lots remaining []
| drain_end : forall remaining, fifo_drain [] remaining []
| drain_skip : forall lot lots remaining records,
    0 < remaining -> availableStrips lot <= 0 ->
    fifo_drain lots remaining records ->
    fifo_drain (lot :: lots) remaining records
| drain_take : forall lot lots remaining record records,
    0 < remaining -> 0 < availableStrips lot ->
    a_dealerStock record = s_id lot ->
    a_strips record = Qmin (availableStrips lot) remaining ->
    fifo_drain lots (remaining - a_strips record) records ->
    fifo_drain (lot :: lots) remaining (record :: records).

(** The request a lot came from is an approved one. *)
Definition src_approved (reqs : list DealerRequest) (s : DealerStock) : Prop :=
  exists r, find (fun r => Nat.eqb (r_id r) (sourceRequest s)) reqs = Some r
            /\ r_status r = Approved.

(** Well-formed lots: each satisfies the lot invariant, ids are distinct and
    below the counter [n], and each lot comes from an approved request. *)
Definition stocks_ok (reqs : list DealerRequest) (n : nat)
  (l : list DealerStock) : Prop :=
  Forall lot_inv l
  /\ NoDup (map s_id l)
  /\ Forall (fun s => (s_id s < n)%nat) l
  /\ Forall (src_approved reqs) l.

(** Well-formed stores: what every run from an empty ledger maintains. *)
Definition wf_db (db : DB) : Prop :=
  Forall (fun r => 1 <= r_strips r) (requests db)
  /\ stocks_ok (requests db) (nextId db) (stocks db).

(** ** The request state machine, as the routes implement it *)

(** The five ways a call rewrites a stored request. *)
Inductive transition : DealerRequest -> DealerRequest -> Prop :=
| t_upload : forall r url,
    r_status r = Pending ->
    transition r (with_payment r Paid (Some url) (r_paymentVerifiedBy r)
                               (r_paymentVerifiedAt r) (r_paymentNotes r))
| t_verify : forall r admin now notes,
    r_paymentStatus r = Paid ->
    transition r (with_payment r Verified (r_receiptImage r) (Some admin)
                               (Some now) notes)
| t_reject : forall r admin now notes,
    r_paymentStatus r = Paid ->
    transition r (with_payment r Rejected None (Some admin) (Some now) notes)
| t_approve : forall r admin now notes,
    r_status r = Pending -> r_paymentStatus r = Verified ->
    transition r (with_status r Approved admin now notes)
| t_cancel : forall r admin now notes,
    r_status r = Pending ->
    transition r (with_status r Cancelled admin now notes).

(** What holds of every stored request: an approved request has its payment
    verified, and a receipt reference is stored exactly while the payment
    status is paid or verified. *)
Definition request_consistent (r : DealerRequest) : Prop :=
  (r_status r = Approved -> r_paymentStatus r = Verified)
  /\ match r_paymentStatus r with
     | Paid | Verified => r_receiptImage r <> None
     | PayPending | Rejected => r_receiptImage r = None
     end.


(** ** Totals over lots *)

(** What a list of lots still has available. *)
Definition total_available (lots : list DealerStock) : Q :=
  fold_right Qplus 0 (map availableStrips lots).

(** Two versions of one lot: everything but the allocated and available
    counts is the same. *)
Definition same_lot (s s' : DealerStock) : Prop :=
  s_id s' = s_id s /\ s_dealer s' = s_dealer s /\ s_product s' = s_product s
  /\ totalStrips s' = totalStrips s /\ sourceRequest s' = sourceRequest s
  /\ s_createdAt s' = s_createdAt s.

(** The in-memory documents of a handler are versions of stored lots. *)
Definition in_sync (db : DB) (docs : list DealerStock) : Prop :=
  Forall (fun m => exists x, findStock db (s_id m) = Some x /\ same_lot x m)
         docs.

(** Strips of product [pid] held in lots, whoever owns them. *)
Definition lots_total (db : DB) (pid : oid) : Q :=
  fold_right Qplus 0
    (map totalStrips
         (filter (fun s => Nat.eqb (s_product s) pid) (stocks db))).

(** Central stock of product [pid]; nothing when the product is unknown. *)
Definition central_stock (db : DB) (pid : oid) : Q :=
  match findProduct db pid with
  | Some p => p_stock p
  | None => 0
  end.

(** Every strip of product [pid] the core knows of. *)
Definition units (db : DB) (pid : oid) : Q :=
  central_stock db pid + lots_total db pid.

(** The calls of the core proper, the catalog routes left out. *)
Definition core_call (o : op) : Prop :=
  match o with
  | Catalog _ _ => False
  | _ => True
  end.

(** The calls whose approval notes can be stored as text: every call but an
    approval with notes that Mongoose cannot cast to a string. *)
Definition approval_notes_castable (o : op) : Prop :=
  match o with
  | Approve _ _ notes _ => notes_castable notes = true
  | _ => True
  end.

(** A lot whose three counts are whole numbers. *)
Definition safe_lot (s : DealerStock) : Prop :=
  safe_integer (totalStrips s) /\ safe_integer (allocatedStrips s)
  /\ safe_integer (availableStrips s).

(** The numbers an allocation call of [caller] computes with are whole: the
    quantity of the body, and the counts of every lot of the caller. *)
Definition whole_quantities (db : DB) (caller : User) (strips : jsval) : Prop :=
  (forall q, strips = JNum q -> safe_integer q)
  /\ forall s, In s (stocks db) -> s_dealer s = u_id caller -> safe_lot s.

(** A store all of whose quantities are whole, and a call whose quantity
    is. *)
Definition whole_store (db : DB) : Prop :=
  Forall (fun p => safe_integer (p_stock p)) (products db)
  /\ Forall (fun r => safe_integer (r_strips r)) (requests db)
  /\ Forall safe_lot (stocks db).

Definition whole_call (o : op) : Prop :=
  match o with
  | Submit _ _ (JNum q) | Allocate _ _ _ (JNum q) _ => safe_integer q
  | _ => True
  end.

(** Ids of the stored allocation records lie below the id counter. *)
Definition allocations_fresh (db : DB) : Prop :=
  Forall (fun a => (a_id a < nextId db)%nat) (allocations db).

(** ** The read routes of the allocation router (part_008:66-119, 276-385) *)


(** [User.findById], as [populate] uses it. *)
Definition findUser (db : DB) (i : oid) : option User :=
  find (fun u => Nat.eqb (u_id u) i) (users db).

(** A read route behind [verifyToken] and a role check: the status and, on
    200, the [data] of the body.  A handler that returns [None] has thrown,
    which the route's [catch] answers with 500. *)
Definition guarded_read {A : Type} (check : User -> bool)
  (caller : option User) (handler : User -> option A) : nat * option A :=
  match caller with
  | None => (401%nat, None)
  | Some u =>
      if check u then
        match handler u with
        | Some data => (200%nat, Some data)
        | None => (500%nat, None)
        end
      else (403%nat, None)
  end.

(** A JavaScript object used as a map from id strings to groups, kept as its
    entries in the order their keys were first set.  [upsert key init update]
    is [if (!o[key]) o[key] = init; o[key] = update(o[key])]. *)
Fixpoint upsert {G : Type} (key : oid) (init : G) (update : G -> G)
  (object : list (oid * G)) : list (oid * G) :=
  match object with
  | [] => [(key, update init)]
  | (k, g) :: rest =>
      if Nat.eqb k key then (k, update g) :: rest
      else (k, g) :: upsert key init update rest
  end.


(** [Object.values(o)] *)
Definition values {G : Type} (object : list (oid * G)) : list G :=
  map snd object.

(** The grouping loops ([docs.forEach(doc => ...)]).  [entry doc] is what the
    body does with one document: the key it files the document under, the
    group it creates when the key is new, and how it updates the group;
    [None] when the body throws because a populated reference is [null]. *)
Fixpoint group_by {X G : Type} (entry : X -> option (oid * G * (G -> G)))
  (docs : list X) (object : list (oid * G)) : option (list (oid * G)) :=
  match docs with
  | [] => Some object
  | doc :: rest =>
      match entry doc with
      | None => None
      | Some (key, init, update) =>
          group_by entry rest (upsert key init update object)
      end
  end.


(** Sum of a numeric field over a list of documents. *)
Definition total_of {X : Type} (field : X -> Q) (l : list X) : Q :=
  fold_right Qplus 0 (map field l).

(** *** [GET /dealer/stock] (part_008:66-119) *)

(** [.sort({ createdAt: -1 })] on lots: a stable sort, newest first. *)
Fixpoint insert_newest_first (s : DealerStock) (l : list DealerStock)
  : list DealerStock :=
  match l with
  | [] => [s]
  | x :: rest =>
      if Nat.leb (s_createdAt x) (s_createdAt s) then s :: x :: rest
      else x :: insert_newest_first s rest
  end.

Definition sort_newest_first (l : list DealerStock) : list DealerStock :=
  fold_right insert_newest_first [] l.

(** One entry of a group's [sources]. *)
Record StockSource : Type := mkSource {
  src_id : oid;
  src_strips : Q;
  src_allocated : Q;
  src_available : Q;
  src_sourceRequest : option DealerRequest;
  src_createdAt : nat
}.

(** One element of [data.stocks]; of the product the id is kept. *)
Record ProductStock : Type := mkProductStock {
  ps_product : oid;
  ps_totalStrips : Q;
  ps_allocatedStrips : Q;
  ps_availableStrips : Q;
  ps_sources : list StockSource
}.

Definition source_of (db : DB) (stock : DealerStock) : StockSource :=
  mkSource (s_id stock) (totalStrips stock) (allocatedStrips stock)
           (availableStrips stock) (findRequest db (sourceRequest stock))
           (s_createdAt stock).

(** Lines 92-102: the three sums and the push. *)
Definition add_stock (db : DB) (stock : DealerStock) (g : ProductStock)
  : ProductStock :=
  mkProductStock (ps_product g)
                 (ps_totalStrips g + totalStrips stock)
                 (ps_allocatedStrips g + allocatedStrips stock)
                 (ps_availableStrips g + availableStrips stock)
                 (ps_sources g ++ [source_of db stock]).

(** The loop body; [stock.product] is the populated product, [null] when the
    product is no longer stored. *)
Definition stock_entry (db : DB) (stock : DealerStock)
  : option (oid * ProductStock * (ProductStock -> ProductStock)) :=
  match findProduct db (s_product stock) with
  | None => None
  | Some product =>
      Some (p_id product, mkProductStock (p_id product) 0 0 0 [],
            add_stock db stock)
  end.

(** [DealerStock.find({ dealer: req.user._id }).sort({ createdAt: -1 })] *)
Definition dealerStocks_newest_first (db : DB) (dealer : oid)
  : list DealerStock :=
  sort_newest_first
    (filter (fun s => Nat.eqb (s_dealer s) dealer) (stocks db)).

Definition dealerStock_handler (db : DB) (caller : User)
  : option (list ProductStock) :=
  let dealerStocks := dealerStocks_newest_first db (u_id caller) in
  option_map values (group_by (stock_entry db) dealerStocks []).

Definition dealerStock (db : DB) (caller : option User)
  : nat * option (list ProductStock) :=
  guarded_read verifyDealer caller (dealerStock_handler db).

(** *** [GET /dealer/allocations] and [GET /salesman/stock]
    (part_008:276-385) *)









Section AllocationQueries.

(** The order [.sort({ createdAt: -1 })] returns allocation records in.  The
    records carry no timestamp in this embedding, so the order is left open:
    the properties below assume only that it permutes its argument. *)
Variable newest_first : list StockAllocation -> list StockAllocation.







End AllocationQueries.




(** ** The read routes of the request router (part_004:175-232, 287-354) *)

(** [User.find({ createdBy: req.user._id, role: { $in: ['dealer', 'dellear'] } })],
    the ids. *)
Definition dealersCreatedBy (db : DB) (creator : oid) : list oid :=
  map u_id
      (filter (fun u => match u_createdBy u with
                        | Some c => Nat.eqb c creator
                        | None => false
                        end
                        && verifyDealer u)
              (users db)).

(** The [query] of [GET /] (lines 178-187): a dealer's own requests, a
    stalkist's dealers' requests, everything for any other role. *)
Definition requests_query (db : DB) (caller : User) (r : DealerRequest) : bool :=
  if verifyDealer caller then Nat.eqb (r_dealer r) (u_id caller)
  else if Role_eqb (u_role caller) Stalkist
       then existsb (Nat.eqb (r_dealer r)) (dealersCreatedBy db (u_id caller))
       else true.

Section RequestQueries.

(** The order [.sort({ createdAt: -1 })] returns requests in; requests carry
    no creation time in this embedding, so the order is left open. *)
Variable newest_first : list DealerRequest -> list DealerRequest.

(** [GET /]: the populated references are guarded against [null], so nothing
    throws. *)
Definition listRequests (db : DB) (caller : option User)
  : nat * option (list DealerRequest) :=
  guarded_read (fun _ => true) caller
    (fun u => Some (newest_first (filter (requests_query db u) (requests db)))).

End RequestQueries.

(** [GET /:id]: the status and, on 200, the request.  The ownership check
    reads [request.dealer._id] of the populated dealer, which throws when
    that user is no longer stored. *)
Definition getRequest (db : DB) (caller : option User) (id : idParam)
  : nat * option DealerRequest :=
  match caller with
  | None => (401%nat, None)
  | Some u =>
      match id with
      | IdValid i =>
          match findRequest db i with
          | None => (404%nat, None)
          | Some request =>
              if verifyDealer u then
                match findUser db (r_dealer request) with
                | None => (500%nat, None)
                | Some dealer =>
                    if negb (Nat.eqb (u_id dealer) (u_id u))
                    then (403%nat, None)
                    else (200%nat, Some request)
                end
              else (200%nat, Some request)
          end
      | _ => (400%nat, None)
      end
  end.

(** ** [GET /dealer/salesmen] (part_008:122-148) *)

Section SalesmenQuery.

(** The order [.sort({ name: 1 })] returns users in; the collation of names
    is left open. *)
Variable by_name : list User -> list User.

(** [User.find({ createdBy: req.user._id, role: 'salesman' }).sort({ name: 1 })] *)
Definition dealerSalesmen (db : DB) (caller : option User)
  : nat * option (list User) :=
  guarded_read verifyDealer caller
    (fun u =>
       Some (by_name
               (filter (fun s => match u_createdBy s with
                                 | Some c => Nat.eqb c (u_id u)
                                 | None => false
                                 end
                                 && Role_eqb (u_role s) Salesman)
                       (users db)))).

End SalesmenQuery.

(** ** The two ledgers side by side *)

(** Ids of the stored requests are distinct and lie below the id counter. *)
Definition requests_fresh (db : DB) : Prop :=
  NoDup (map r_id (requests db))
  /\ Forall (fun r => (r_id r < nextId db)%nat) (requests db).

(** An approved request of [dealer] for [product]. *)
Definition approved_for (dealer product : oid) (r : DealerRequest) : bool :=
  Status_eqb (r_status r) Approved
  && Nat.eqb (r_dealer r) dealer && Nat.eqb (r_product r) product.

(** A lot of [dealer] of [product]. *)
Definition lot_of (dealer product : oid) (s : DealerStock) : bool :=
  Nat.eqb (s_dealer s) dealer && Nat.eqb (s_product s) product.

(** Strips the approved requests of a dealer for a product add up to. *)
Definition approved_strips (db : DB) (dealer product : oid) : Q :=
  total_of r_strips (filter (approved_for dealer product) (requests db)).

(** Strips a dealer has received of a product: the sizes of their lots. *)
Definition lot_strips (db : DB) (dealer product : oid) : Q :=
  total_of totalStrips (filter (lot_of dealer product) (stocks db)).

(** ** A worked scenario *)

Definition the_admin : User := mkUser 1%nat "admin" Admin None.
Definition the_dealer : User := mkUser 2%nat "dealer" Dealer (Some 1%nat).
Definition the_salesman : User := mkUser 3%nat "salesman" Salesman (Some 2%nat).

(** One product with 1000 strips of central stock, nothing requested yet. *)
Definition fresh_db : DB :=
  mkDB [the_admin; the_dealer; the_salesman] [mkProduct 10%nat 1000] [] [] [] 100%nat.

(** A request taken from submission to approval. *)
Definition fulfil (i : oid) (q : Q) (now : nat) : list op :=
  [ Submit (Some the_dealer) (IdValid 10%nat) (JNum q);
    UploadReceipt (Some the_dealer) (IdValid i) (Uploaded "receipt");
    VerifyPayment (Some the_admin) (IdValid i) NotesFalsy now;
    Approve (Some the_admin) (IdValid i) NotesFalsy now ].

(** The dealer owns two lots, of 10 and of 25 strips, the older one first. *)
Definition two_lots_db : DB :=
  exec fresh_db (fulfil 100%nat 10 1%nat ++ fulfil 102%nat 25 2%nat).

(** Request 100 submitted and its receipt uploaded: pending, paid. *)
Definition paid_db : DB :=
  exec fresh_db
       [ Submit (Some the_dealer) (IdValid 10%nat) (JNum 10);
         UploadReceipt (Some the_dealer) (IdValid 100%nat) (Uploaded "receipt") ].

Definition paid_request : DealerRequest :=
  mkRequest 100%nat 2%nat 10%nat 10 Pending Paid (Some "receipt"%string) None
            None EmptyString None None EmptyString.

(** The same request once the admin has verified the payment. *)
Definition verified_db : DB :=
  exec paid_db [ VerifyPayment (Some the_admin) (IdValid 100%nat) NotesFalsy 1%nat ].

Definition verified_request : DealerRequest :=
  mkRequest 100%nat 2%nat 10%nat 10 Pending Verified (Some "receipt"%string)
            (Some 1%nat) (Some 1%nat) EmptyString None None EmptyString.

(** The same request approved: one lot of 10 strips. *)
Definition approved_db : DB := exec fresh_db (fulfil 100%nat 10 1%nat).

(** The two lots enlarged to 100 strips each and both partly allocated, 90
    strips out of 100, as a store may hold them. *)
Definition partial_lots_db : DB :=
  set_stocks two_lots_db
    [ mkStock 101%nat 2%nat 10%nat 100 90 10 100%nat 1%nat;
      mkStock 103%nat 2%nat 10%nat 100 90 10 102%nat 2%nat ].

(** A request for two strips and a half, approved. *)
Definition fractional_db : DB := exec fresh_db (fulfil 100%nat (5 # 2) 1%nat).

Definition allocate_strips (db : DB) (q : Q) : DB * response :=
  allocate db (Some the_dealer) (IdValid 3%nat) (IdValid 10%nat) (JNum q) NotesFalsy.

(** ** The allocation loop on doubles

    The arithmetic of [POST /allocate] (part_008:206-251) and of the lot's
    [save] (models/DealerStock.js:14-70) once more, on IEEE binary64 numbers
    as the program has them.  These are [stock_document], [walk], [rollback]
    and the end of [allocate_handler] again, kept to what depends on the
    numbers: the collection is the dealer's lots for the product, oldest
    first, and a record is the lot it draws on and its strips.  The numbers
    are not NaN, and the quantity has passed the validation. *)
Module Binary64.

(** The double that a JSON body carries for the decimal [n / d]. *)
Definition decimal (n d : Z) : PrimFloat.float :=
  PrimFloat.div (PrimFloat.of_uint63 (Uint63.of_Z n))
                (PrimFloat.of_uint63 (Uint63.of_Z d)).

Record lot64 : Type := mkLot64 {
  id64 : oid;
  total64 : PrimFloat.float;
  allocated64 : PrimFloat.float;
  available64 : PrimFloat.float
}.

(** [Math.min]. *)
Definition min64 (x y : PrimFloat.float) : PrimFloat.float :=
  if PrimFloat.ltb x y then x else y.

(** What [stock.save()] writes, or [None] when it throws: the validators
    ([min: 0] on the three counts), then the [pre('save')] hook. *)
Definition stock_document64 (s : lot64) : option lot64 :=
  if PrimFloat.leb PrimFloat.zero (total64 s)
     && PrimFloat.leb PrimFloat.zero (allocated64 s)
     && PrimFloat.leb PrimFloat.zero (available64 s)
  then
    let available := PrimFloat.sub (total64 s) (allocated64 s) in
    if PrimFloat.ltb available PrimFloat.zero then None
    else Some (mkLot64 (id64 s) (total64 s) (allocated64 s) available)
  else None.

Definition stock_save64 (lots : list lot64) (s : lot64)
  : option (list lot64 * lot64) :=
  match stock_document64 s with
  | Some d =>
      Some (map (fun x => if Nat.eqb (id64 x) (id64 d) then d else x) lots, d)
  | None => None
  end.

Record walk_state64 : Type := mkWalk64 {
  lots64 : list lot64;
  remainingToAllocate64 : PrimFloat.float;
  allocations64 : list (oid * PrimFloat.float);
  updatedStocks64 : list lot64
}.

(** The loop (part_008:210-237); [None] when a [save] throws. *)
Fixpoint walk64 (dealerStocks : list lot64) (st : walk_state64)
  : option walk_state64 :=
  match dealerStocks with
  | [] => Some st
  | stock :: rest =>
      if PrimFloat.leb (remainingToAllocate64 st) PrimFloat.zero then Some st
      else
        let available := available64 stock in
        if PrimFloat.ltb PrimFloat.zero available then
          let toAllocate := min64 available (remainingToAllocate64 st) in
          (* allocation.save(): [strips] has [min: 1] *)
          if PrimFloat.leb PrimFloat.one toAllocate then
            let allocated := PrimFloat.add (allocated64 stock) toAllocate in
            match stock_save64 (lots64 st)
                    (mkLot64 (id64 stock) (total64 stock) allocated
                             (PrimFloat.sub (total64 stock) allocated)) with
            | None => None
            | Some (lots, saved) =>
                walk64 rest
                  (mkWalk64 lots
                     (PrimFloat.sub (remainingToAllocate64 st) toAllocate)
                     (allocations64 st ++ [(id64 stock, toAllocate)])
                     (updatedStocks64 st ++ [saved]))
            end
          else None
        else walk64 rest st
  end.

(** The rollback loop (part_008:242-246). *)
Fixpoint rollback64 (lots updated : list lot64) (amount : PrimFloat.float)
  : option (list lot64) :=
  match updated with
  | [] => Some lots
  | stock :: rest =>
      let allocated := PrimFloat.sub (allocated64 stock) amount in
      match stock_save64 lots
              (mkLot64 (id64 stock) (total64 stock) allocated
                       (PrimFloat.sub (total64 stock) allocated)) with
      | None => None
      | Some (lots', _) => rollback64 lots' rest amount
      end
  end.

(** The replies: 201 with the records written and the lots as stored; 400
    with the amount reported and the lots as stored; 500. *)
Inductive outcome64 : Type :=
| Created64 (records : list (oid * PrimFloat.float)) (lots : list lot64)
| Insufficient64 (available : PrimFloat.float) (lots : list lot64)
| ServerError64.

Definition allocate64 (dealerStocks : list lot64) (strips : PrimFloat.float)
  : outcome64 :=
  match walk64 dealerStocks (mkWalk64 dealerStocks strips [] []) with
  | None => ServerError64
  | Some st =>
      if PrimFloat.ltb PrimFloat.zero (remainingToAllocate64 st) then
        let amount := PrimFloat.sub strips (remainingToAllocate64 st) in
        match rollback64 (lots64 st) (updatedStocks64 st) amount with
        | None => ServerError64
        | Some lots => Insufficient64 amount lots
        end
      else
        match allocations64 st with
        | [] => ServerError64
        | _ :: _ => Created64 (allocations64 st) (lots64 st)
        end
  end.

(** Two lots as approval stores them, of 3.4 strips (the older) and of 10. *)
Definition fractional_lots : list lot64 :=
  [ mkLot64 101%nat (decimal 34 10) PrimFloat.zero (decimal 34 10);
    mkLot64 103%nat (decimal 10 1) PrimFloat.zero (decimal 10 1) ].

End Binary64.

(** * Properties *)

(** ** Comparisons and collection lemmas *)

Lemma Qltb_lt (x y : Q) : Qltb x y = true <-> x < y.
Proof.
  unfold Qltb. rewrite negb_true_iff. split; intro H.
  - apply Qnot_le_lt. intro Hle. apply Qle_bool_iff in Hle. congruence.
  - destruct (Qle_bool y x) eqn:E; [|reflexivity].
    apply Qle_bool_iff in E. exfalso. apply (Qlt_not_le _ _ H E).
Qed.

Lemma Qltb_ge (x y : Q) : Qltb x y = false <-> y <= x.
Proof.
  unfold Qltb. rewrite negb_false_iff. apply Qle_bool_iff.
Qed.

Lemma Qle_bool_false (x y : Q) : Qle_bool x y = false <-> y < x.
Proof.
  rewrite <- Qltb_lt. unfold Qltb. rewrite negb_true_iff. reflexivity.
Qed.

Lemma Qmin_cases (x y : Q) :
  (x <= y /\ Qmin x y = x) \/ (y < x /\ Qmin x y = y).
Proof.
  unfold Qmin, GenericMinMax.gmin.
  destruct (x ?= y) eqn:E.
  - left. split; [|reflexivity]. apply Qeq_alt in E. rewrite E. apply Qle_refl.
  - left. split; [|reflexivity]. apply Qlt_alt in E. apply Qlt_le_weak, E.
  - right. split; [|reflexivity]. apply Qgt_alt in E. exact E.
Qed.

Lemma Status_eqb_eq (a b : Status) : Status_eqb a b = true <-> a = b.
Proof. destruct a, b; simpl; split; congruence. Qed.

Lemma PaymentStatus_eqb_eq (a b : PaymentStatus) :
  PaymentStatus_eqb a b = true <-> a = b.
Proof. destruct a, b; simpl; split; congruence. Qed.

Lemma PaymentStatus_eqb_neq (a b : PaymentStatus) :
  PaymentStatus_eqb a b = false <-> a <> b.
Proof. destruct a, b; simpl; split; congruence. Qed.

Lemma find_key_eq {A : Type} (key : A -> oid) (i : oid) (l : list A) (x : A) :
  find (fun y => Nat.eqb (key y) i) l = Some x -> key x = i.
Proof.
  intro H. apply find_some in H. destruct H as [_ H].
  apply Nat.eqb_eq in H. exact H.
Qed.

(** Looking a document up after [replace_by]: the replaced id now yields the
    new document, every other id what it yielded before. *)
Lemma find_replace_by {A : Type} (key : A -> oid) (d : A) (i : oid) (l : list A) :
  find (fun y => Nat.eqb (key y) i) (replace_by key d l) =
  if Nat.eqb (key d) i
  then match find (fun y => Nat.eqb (key y) i) l with
       | Some _ => Some d
       | None => None
       end
  else find (fun y => Nat.eqb (key y) i) l.
Proof.
  unfold replace_by.
  induction l as [|x l IH]; simpl.
  - destruct (Nat.eqb (key d) i); reflexivity.
  - destruct (Nat.eqb (key x) (key d)) eqn:Exd; simpl.
    + apply Nat.eqb_eq in Exd. rewrite Exd.
      destruct (Nat.eqb (key d) i) eqn:Edi; [reflexivity|].
      rewrite IH. reflexivity.
    + destruct (Nat.eqb (key x) i) eqn:Exi.
      * destruct (Nat.eqb (key d) i) eqn:Edi; [|reflexivity].
        apply Nat.eqb_eq in Exi, Edi. apply Nat.eqb_neq in Exd. congruence.
      * exact IH.
Qed.

Lemma replace_by_length {A : Type} (key : A -> oid) (d : A) (l : list A) :
  List.length (replace_by key d l) = List.length l.
Proof. apply length_map. Qed.

Lemma replace_by_keys {A : Type} (key : A -> oid) (d : A) (l : list A) :
  map key (replace_by key d l) = map key l.
Proof.
  unfold replace_by. rewrite map_map. apply map_ext_in. intros x _.
  destruct (Nat.eqb (key x) (key d)) eqn:E; [|reflexivity].
  apply Nat.eqb_eq in E. congruence.
Qed.

(** ** Approval and cancellation: the guarded failures *)

(** C7.  A pending request whose payment is not verified cannot be approved:
    the call answers 400 with the "payment must be verified first" message
    (the specification's StateError), whatever the central stock is, and the
    store, hence the request, the central stock and the ledger, is left as it
    was. *)
Theorem approve_requires_verified_payment :
  forall (db : DB) (admin : User) (i : oid) (r : DealerRequest)
         (notes : bodyNotes) (now : nat),
    verifyAdmin admin = true ->
    findRequest db i = Some r ->
    r_status r = Pending ->
    r_paymentStatus r <> Verified ->
    approve db (Some admin) (IdValid i) notes now
    = (db, reply 400 (MsgPaymentNotVerified (r_paymentStatus r))).
Proof.
  intros db admin i r notes now Hadmin Hfind Hst Hpay.
  unfold approve, guarded. rewrite Hadmin.
  unfold approve_handler. rewrite Hfind, Hst. simpl.
  apply PaymentStatus_eqb_neq in Hpay. rewrite Hpay. reflexivity.
Qed.

Lemma approve_requires_verified_payment_witness :
  findRequest paid_db 100%nat = Some paid_request
  /\ approve paid_db (Some the_admin) (IdValid 100%nat) NotesFalsy 5%nat
     = (paid_db, reply 400 (MsgPaymentNotVerified Paid)).
Proof.
  split; [vm_compute; reflexivity|].
  apply (approve_requires_verified_payment paid_db the_admin 100%nat
           paid_request NotesFalsy 5%nat).
  - reflexivity.
  - vm_compute; reflexivity.
  - reflexivity.
  - simpl; discriminate.
Defined.

(** ** Well-formedness is kept by every call *)

Lemma stock_document_spec (s d : DealerStock) :
  stock_document s = Some d ->
  d = with_counts s (totalStrips s) (allocatedStrips s)
                  (totalStrips s - allocatedStrips s)
  /\ 0 <= totalStrips s /\ 0 <= allocatedStrips s
  /\ allocatedStrips s <= totalStrips s.
Proof.
  unfold stock_document, stock_validate, stock_pre_save.
  destruct (Qle_bool 0 (totalStrips s)) eqn:Et; simpl; [|discriminate].
  destruct (Qle_bool 0 (allocatedStrips s)) eqn:Ea; simpl; [|discriminate].
  destruct (Qle_bool 0 (availableStrips s)) eqn:Ev; simpl; [|discriminate].
  destruct (Qltb (totalStrips s - allocatedStrips s) 0) eqn:Eh; [discriminate|].
  intro H. injection H as <-.
  apply Qle_bool_iff in Et, Ea. apply Qltb_ge in Eh.
  repeat split; try assumption. lra.
Qed.

Lemma stock_document_inv (s d : DealerStock) :
  stock_document s = Some d -> lot_inv d.
Proof.
  intro H. apply stock_document_spec in H.
  destruct H as (-> & Ht & Ha & Hle).
  unfold lot_inv; simpl. split; [apply Qeq_refl|]. split; assumption.
Qed.

Lemma stock_document_fields (s d : DealerStock) :
  stock_document s = Some d ->
  s_id d = s_id s /\ s_dealer d = s_dealer s /\ s_product d = s_product s
  /\ sourceRequest d = sourceRequest s /\ s_createdAt d = s_createdAt s.
Proof.
  intro H. apply stock_document_spec in H. destruct H as (-> & _).
  simpl. repeat split.
Qed.

Lemma src_approved_same_source (reqs : list DealerRequest) (s d : DealerStock) :
  sourceRequest d = sourceRequest s -> src_approved reqs s -> src_approved reqs d.
Proof. unfold src_approved. intros ->. exact (fun H => H). Qed.

Lemma Forall_replace_by {A : Type} (key : A -> oid) (P : A -> Prop) (d : A)
  (l : list A) :
  Forall P l -> (In (key d) (map key l) -> P d) -> Forall P (replace_by key d l).
Proof.
  intros Hl Hd. unfold replace_by. apply Forall_forall. intros y Hy.
  apply in_map_iff in Hy. destruct Hy as (x & <- & Hx).
  destruct (Nat.eqb (key x) (key d)) eqn:E.
  - apply Hd. apply Nat.eqb_eq in E. rewrite <- E. apply in_map, Hx.
  - rewrite Forall_forall in Hl. apply Hl, Hx.
Qed.

Lemma stocks_ok_replace (reqs : list DealerRequest) (n : nat)
  (l : list DealerStock) (s d : DealerStock) :
  stocks_ok reqs n l -> stock_document s = Some d -> src_approved reqs s ->
  stocks_ok reqs n (replace_by s_id d l).
Proof.
  intros (Hinv & Hnd & Hlt & Hsrc) Hd Hs.
  pose proof (stock_document_fields _ _ Hd) as (Hid & _ & _ & Hsr & _).
  repeat split.
  - apply Forall_replace_by; [assumption|]. intros _.
    apply (stock_document_inv _ _ Hd).
  - rewrite replace_by_keys. assumption.
  - apply Forall_replace_by; [assumption|]. intro Hin.
    apply in_map_iff in Hin. destruct Hin as (x & Hx & Hin).
    rewrite Forall_forall in Hlt. rewrite <- Hx. apply Hlt, Hin.
  - apply Forall_replace_by; [assumption|]. intros _.
    apply (src_approved_same_source reqs s d Hsr Hs).
Qed.

Lemma stocks_ok_mono (reqs : list DealerRequest) (n m : nat)
  (l : list DealerStock) :
  (n <= m)%nat -> stocks_ok reqs n l -> stocks_ok reqs m l.
Proof.
  intros Hnm (Hinv & Hnd & Hlt & Hsrc). repeat split; try assumption.
  eapply Forall_impl; [|exact Hlt]. simpl. intros a Ha. lia.
Qed.

Lemma stocks_ok_insert (reqs : list DealerRequest) (n : nat)
  (l : list DealerStock) (s d : DealerStock) :
  stocks_ok reqs n l -> stock_document s = Some d -> s_id s = n ->
  src_approved reqs s -> stocks_ok reqs (S n) (l ++ [d]).
Proof.
  intros (Hinv & Hnd & Hlt & Hsrc) Hd Hn Hs.
  pose proof (stock_document_fields _ _ Hd) as (Hid & _ & _ & Hsr & _).
  repeat split.
  - apply Forall_app. split; [assumption|]. constructor; [|constructor].
    apply (stock_document_inv _ _ Hd).
  - rewrite map_app. simpl. apply NoDup_app; [assumption | | ].
    + constructor; [intros []|constructor].
    + intros a Ha [<- | []]. apply in_map_iff in Ha.
      destruct Ha as (x & Hx & Hin). rewrite Forall_forall in Hlt.
      apply Hlt in Hin. lia.
  - apply Forall_app. split.
    + eapply Forall_impl; [|exact Hlt]. simpl. intros a Ha. lia.
    + constructor; [lia|constructor].
  - apply Forall_app. split; [assumption|]. constructor; [|constructor].
    apply (src_approved_same_source reqs s d Hsr Hs).
Qed.

Lemma stocks_ok_requests (reqs reqs' : list DealerRequest) (n : nat)
  (l : list DealerStock) :
  (forall s, In s l -> src_approved reqs s -> src_approved reqs' s) ->
  stocks_ok reqs n l -> stocks_ok reqs' n l.
Proof.
  intros H (Hinv & Hnd & Hlt & Hsrc). repeat split; try assumption.
  rewrite Forall_forall in *. intros s Hs. apply H; [assumption|]. apply Hsrc, Hs.
Qed.

Lemma wf_db_stock_save (db db' : DB) (s d : DealerStock) :
  wf_db db -> src_approved (requests db) s -> stock_save db s = Some (db', d) ->
  wf_db db' /\ requests db' = requests db /\ src_approved (requests db) d.
Proof.
  intros (Hr & Hs) Hsrc Hsave. unfold stock_save in Hsave.
  destruct (stock_document s) as [d'|] eqn:Hd; [|discriminate].
  injection Hsave as <- <-. split; [split; simpl|split; [reflexivity|]].
  - assumption.
  - apply (stocks_ok_replace _ _ _ s d'); assumption.
  - pose proof (stock_document_fields _ _ Hd) as (_ & _ & _ & Hsr & _).
    apply (src_approved_same_source _ s d' Hsr Hsrc).
Qed.

Lemma wf_db_allocation_insert (db db1 : DB) (a : StockAllocation) :
  wf_db db -> allocation_insert (bump db) a = Some db1 ->
  wf_db db1 /\ requests db1 = requests db.
Proof.
  intros (Hr & Hs) Hins. unfold allocation_insert in Hins.
  destruct (allocation_validate a); [|discriminate].
  injection Hins as <-. split; [split; simpl|reflexivity].
  - assumption.
  - apply (stocks_ok_mono _ (nextId db)); [lia | assumption].
Qed.

Lemma walk_wf (dealer sid pid : oid) (notes : bodyNotes)
  (lots : list DealerStock) :
  forall st : walk_state,
    wf_db (w_db st) ->
    Forall (src_approved (requests (w_db st))) lots ->
    Forall (src_approved (requests (w_db st))) (updatedStocks st) ->
    match walk dealer sid pid notes lots st with
    | inl st' =>
        wf_db (w_db st') /\ requests (w_db st') = requests (w_db st)
        /\ Forall (src_approved (requests (w_db st))) (updatedStocks st')
    | inr db' => wf_db db'
    end.
Proof.
  induction lots as [|stock rest IH]; intros st Hwf Hlots Hupd; simpl.
  - split; [assumption | split; [reflexivity | assumption]].
  - destruct (Qle_bool (remainingToAllocate st) 0);
      [split; [assumption | split; [reflexivity | assumption]]|].
    inversion Hlots as [|? ? Hstock Hrest]; subst.
    destruct (Qltb 0 (availableStrips stock)); [|apply IH; assumption].
    destruct (notes_castable notes); [|assumption].
    destruct (allocation_insert _ _) as [db1|] eqn:Hins; [|assumption].
    destruct (wf_db_allocation_insert _ _ _ Hwf Hins) as (Hwf1 & Hreq1).
    destruct (stock_save db1 _) as [[db2 saved]|] eqn:Hsave; [|assumption].
    rewrite <- Hreq1 in Hstock.
    pose proof (fun Hs => wf_db_stock_save db1 db2 _ saved Hwf1 Hs Hsave) as Hs2.
    destruct (Hs2 (src_approved_same_source _ stock _ eq_refl Hstock))
      as (Hwf2 & Hreq2 & Hsaved). clear Hs2.
    assert (Hreq : requests db2 = requests (w_db st)) by congruence.
    specialize (IH (mkWalk db2 (remainingToAllocate st
                                - Qmin (availableStrips stock)
                                       (remainingToAllocate st))
                           (w_allocations st ++ [mkAllocation
                              (nextId (w_db st)) dealer sid pid
                              (Qmin (availableStrips stock)
                                    (remainingToAllocate st))
                              (s_id stock) (notes_or_empty notes)])
                           (updatedStocks st ++ [saved]))).
    simpl in IH. rewrite Hreq in IH.
    specialize (IH Hwf2 Hrest).
    assert (Hupd' : Forall (src_approved (requests (w_db st)))
                           (updatedStocks st ++ [saved])).
    { apply Forall_app. split; [assumption|]. constructor; [|constructor].
      rewrite <- Hreq1. exact Hsaved. }
    specialize (IH Hupd').
    destruct (walk dealer sid pid notes rest _) as [st'|db'];
      [|assumption].
    destruct IH as (H1 & H2 & H3).
    split; [assumption | split; [congruence | assumption]].
Qed.

Lemma rollback_wf (amount : Q) (updated : list DealerStock) :
  forall db : DB,
    wf_db db -> Forall (src_approved (requests db)) updated ->
    match rollback db updated amount with
    | inl db' | inr db' => wf_db db'
    end.
Proof.
  induction updated as [|stock rest IH]; intros db Hwf Hupd; simpl.
  - assumption.
  - inversion Hupd as [|? ? Hstock Hrest]; subst.
    destruct (stock_save db _) as [[db' d]|] eqn:Hsave; [|assumption].
    pose proof (fun Hs => wf_db_stock_save db db' _ d Hwf Hs Hsave) as Hs2.
    destruct (Hs2 (src_approved_same_source _ stock _ eq_refl Hstock))
      as (Hwf' & Hreq & _). clear Hs2.
    apply IH; [assumption|]. rewrite Hreq. assumption.
Qed.

Lemma insert_by_createdAt_perm (s : DealerStock) (l : list DealerStock) :
  Permutation (insert_by_createdAt s l) (s :: l).
Proof.
  induction l as [|x l IH]; simpl.
  - apply Permutation_refl.
  - destruct (Nat.leb (s_createdAt s) (s_createdAt x)).
    + apply Permutation_refl.
    + eapply perm_trans; [apply perm_skip, IH | apply perm_swap].
Qed.

Lemma sort_by_createdAt_perm (l : list DealerStock) :
  Permutation (sort_by_createdAt l) l.
Proof.
  induction l as [|x l IH]; simpl.
  - apply perm_nil.
  - eapply perm_trans; [apply insert_by_createdAt_perm | apply perm_skip, IH].
Qed.

Lemma dealerStocks_of_In (db : DB) (dealer product : oid) (s : DealerStock) :
  In s (dealerStocks_of db dealer product) <->
  In s (stocks db) /\ s_dealer s = dealer /\ s_product s = product.
Proof.
  unfold dealerStocks_of. split.
  - intro H. apply (Permutation_in _ (sort_by_createdAt_perm _)) in H.
    apply filter_In in H. destruct H as (Hin & Hb).
    apply andb_true_iff in Hb. destruct Hb as (Hd & Hp).
    apply Nat.eqb_eq in Hd, Hp. auto.
  - intros (Hin & Hd & Hp).
    apply (Permutation_in _ (Permutation_sym (sort_by_createdAt_perm _))).
    apply filter_In. split; [assumption|].
    apply andb_true_iff. split; apply Nat.eqb_eq; assumption.
Qed.

Lemma allocate_handler_wf (db : DB) (sid pid : idParam) (strips : jsval)
  (notes : bodyNotes) (caller : User) :
  wf_db db -> wf_db (fst (allocate_handler db sid pid strips notes caller)).
Proof.
  intro Hwf. unfold allocate_handler.
  destruct sid as [| |s|]; destruct pid as [| |p|]; destruct (truthy strips);
    simpl; try assumption;
    destruct (strips_number strips) as [q|]; simpl; try assumption.
  destruct (findSalesman db s (u_id caller)); simpl; [|assumption].
  destruct (findProduct db p); simpl; [|assumption].
  pose proof (walk_wf (u_id caller) s p notes
                      (dealerStocks_of db (u_id caller) p)
                      (mkWalk db q [] []) Hwf) as Hwalk.
  simpl in Hwalk.
  assert (Hlots : Forall (src_approved (requests db))
                         (dealerStocks_of db (u_id caller) p)).
  { apply Forall_forall. intros x Hx. apply dealerStocks_of_In in Hx.
    destruct Hx as (Hx & _). destruct Hwf as (_ & _ & _ & _ & Hsrc).
    rewrite Forall_forall in Hsrc. apply Hsrc, Hx. }
  specialize (Hwalk Hlots (Forall_nil _)).
  destruct (walk _ _ _ _ _ _) as [st|db']; simpl; [|assumption].
  destruct Hwalk as (Hwf' & Hreq & Hupd).
  destruct (Qltb 0 (remainingToAllocate st)).
  - assert (Hdel : wf_db (deleteMany (w_db st) (map a_id (w_allocations st)))).
    { destruct Hwf' as (H1 & H2). split; simpl; assumption. }
    pose proof (rollback_wf (q - remainingToAllocate st) (updatedStocks st)
                            _ Hdel) as Hrb.
    simpl in Hrb. rewrite Hreq in Hrb. specialize (Hrb Hupd).
    destruct (rollback _ _ _); simpl; assumption.
  - destruct (w_allocations st); simpl; assumption.
Qed.

Lemma find_app_l {A : Type} (f : A -> bool) (l l' : list A) (x : A) :
  find f l = Some x -> find f (l ++ l') = Some x.
Proof.
  induction l as [|y l IH]; simpl; [discriminate|].
  destruct (f y); [exact (fun H => H) | exact IH].
Qed.

Lemma wf_db_request_insert (db db' : DB) (r : DealerRequest) :
  wf_db db -> request_insert (bump db) r = Some db' -> wf_db db'.
Proof.
  intros (Hr & Hs) Hins. unfold request_insert in Hins.
  destruct (request_validate r) eqn:Hv; [|discriminate].
  injection Hins as <-. split; simpl.
  - apply Forall_app. split; [assumption|]. constructor; [|constructor].
    apply Qle_bool_iff, Hv.
  - apply (stocks_ok_mono _ (nextId db)); [lia|].
    apply (stocks_ok_requests (requests db)); [|assumption].
    intros s _ (r0 & Hfind & Hst). exists r0. split; [|assumption].
    apply find_app_l, Hfind.
Qed.

Lemma wf_db_request_save (db db' : DB) (i : oid) (r r' : DealerRequest) :
  wf_db db -> findRequest db i = Some r ->
  r_id r' = r_id r -> r_strips r' = r_strips r ->
  (r_status r = Approved -> r_status r' = Approved) ->
  request_save db r' = Some db' -> wf_db db'.
Proof.
  intros (Hr & Hs) Hfind Hid Hstrips Hst Hsave. unfold request_save in Hsave.
  destruct (request_validate r') eqn:Hv; [|discriminate].
  injection Hsave as <-. split; simpl.
  - apply Forall_replace_by; [assumption|]. intros _. apply Qle_bool_iff, Hv.
  - apply (stocks_ok_requests (requests db)); [|assumption].
    intros s _ (r0 & Hfind0 & Hst0). unfold src_approved.
    rewrite find_replace_by, Hfind0.
    destruct (Nat.eqb (r_id r') (sourceRequest s)) eqn:E.
    + exists r'. split; [reflexivity|]. apply Hst.
      apply Nat.eqb_eq in E. pose proof (find_key_eq _ _ _ _ Hfind) as Hi.
      unfold findRequest in Hfind.
      assert (Hsame : sourceRequest s = i) by congruence.
      rewrite Hsame in Hfind0. congruence.
    + exists r0. split; [reflexivity | assumption].
Qed.

Lemma wf_db_product_save (db db' : DB) (p : Product) :
  wf_db db -> product_save db p = Some db' ->
  wf_db db' /\ requests db' = requests db /\ stocks db' = stocks db
  /\ nextId db' = nextId db.
Proof.
  intros Hwf Hsave. unfold product_save in Hsave.
  destruct (product_validate p); [|discriminate].
  injection Hsave as <-. simpl. repeat split; apply Hwf.
Qed.

Lemma wf_db_openLot (db db' : DB) (dealer product i : oid) (strips : Q)
  (now : nat) (lot : DealerStock) :
  wf_db db ->
  (exists r, findRequest db i = Some r /\ r_status r = Approved) ->
  openLot db dealer product strips i now = Some (db', lot) -> wf_db db'.
Proof.
  intros Hwf Hsrc Hopen. unfold openLot in Hopen.
  destruct (find _ (stocks db)) as [dealerStock|] eqn:Hfind.
  - pose proof (fun Hs => wf_db_stock_save db db' _ lot Hwf Hs Hopen) as H.
    apply H. apply find_some in Hfind. destruct Hfind as (Hin & _).
    destruct Hwf as (_ & _ & _ & _ & Hall). rewrite Forall_forall in Hall.
    apply (src_approved_same_source _ dealerStock _ eq_refl).
    apply Hall, Hin.
  - unfold stock_insert in Hopen.
    destruct (stock_document _) as [d|] eqn:Hd; [|discriminate].
    injection Hopen as <- <-. destruct Hwf as (Hr & Hs). split; simpl.
    + assumption.
    + eapply stocks_ok_insert; [exact Hs | exact Hd | reflexivity | exact Hsrc].
Qed.

Lemma approve_handler_wf (db : DB) (id : idParam) (notes : bodyNotes)
  (now : nat) (caller : User) :
  wf_db db -> wf_db (fst (approve_handler db id notes now caller)).
Proof.
  intro Hwf. unfold approve_handler.
  destruct id as [| |i|]; simpl; try assumption.
  destruct (findRequest db i) as [r|] eqn:Hfind; simpl; [|assumption].
  destruct (negb (Status_eqb (r_status r) Pending)); simpl; [assumption|].
  destruct (negb (PaymentStatus_eqb (r_paymentStatus r) Verified)); simpl;
    [assumption|].
  destruct (findProduct db (r_product r)) as [p|]; simpl; [|assumption].
  destruct (Qltb (p_stock p) (r_strips r)); simpl; [assumption|].
  destruct (product_save db _) as [db1|] eqn:Hp; simpl; [|assumption].
  destruct (wf_db_product_save _ _ _ Hwf Hp) as (Hwf1 & Hreq1 & _).
  assert (Hfind1 : findRequest db1 i = Some r).
  { unfold findRequest. rewrite Hreq1. exact Hfind. }
  destruct (notes_castable notes); simpl; [|assumption].
  destruct (request_save db1 _) as [db2|] eqn:Hr; simpl; [|assumption].
  assert (Hwf2 : wf_db db2).
  { eapply (wf_db_request_save db1 db2 i r); try eassumption; reflexivity. }
  destruct (openLot db2 _ _ _ _ _) as [[db3 lot]|] eqn:Ho; simpl; [|assumption].
  eapply wf_db_openLot; [exact Hwf2 | | exact Ho].
  unfold request_save in Hr. destruct (request_validate _); [|discriminate].
  injection Hr as <-. unfold findRequest. simpl.
  rewrite find_replace_by. simpl. rewrite (find_key_eq _ _ _ _ Hfind).
  rewrite Nat.eqb_refl. fold (findRequest db1 i). rewrite Hfind1.
  eexists. split; reflexivity.
Qed.

Lemma payment_handlers_wf (db : DB) (id : idParam) (notes : bodyNotes)
  (now : nat) (caller : User) :
  wf_db db ->
  wf_db (fst (verifyPayment_handler db id notes now caller))
  /\ wf_db (fst (rejectPayment_handler db id notes now caller))
  /\ wf_db (fst (cancel_handler db id notes now caller)).
Proof.
  intro Hwf. unfold verifyPayment_handler, rejectPayment_handler, cancel_handler.
  destruct id as [| |i|]; simpl; try (split; [|split]; assumption).
  destruct (findRequest db i) as [r|] eqn:Hfind; simpl;
    [|split; [|split]; assumption].
  split; [|split].
  - destruct (negb (PaymentStatus_eqb (r_paymentStatus r) Paid)); simpl;
      [assumption|].
    destruct (notes_castable notes); simpl; [|assumption].
    destruct (request_save db _) as [db'|] eqn:Hr; simpl; [|assumption].
    eapply (wf_db_request_save db db' i r); try eassumption; auto.
  - destruct (negb (PaymentStatus_eqb (r_paymentStatus r) Paid)); simpl;
      [assumption|].
    destruct (notes_castable notes); simpl; [|assumption].
    destruct (request_save db _) as [db'|] eqn:Hr; simpl; [|assumption].
    eapply (wf_db_request_save db db' i r); try eassumption; auto.
  - destruct (Status_eqb (r_status r) Pending) eqn:Hst; simpl; [|assumption].
    destruct (notes_castable notes); simpl; [|assumption].
    destruct (request_save db _) as [db'|] eqn:Hr; simpl; [|assumption].
    apply Status_eqb_eq in Hst.
    eapply (wf_db_request_save db db' i r); try eassumption; auto.
    intro Happ. congruence.
Qed.

Lemma uploadReceipt_handler_wf (db : DB) (id : idParam) (file : receiptUpload)
  (caller : User) :
  wf_db db -> wf_db (fst (uploadReceipt_handler db id file caller)).
Proof.
  intro Hwf. unfold uploadReceipt_handler.
  destruct file as [| | |url]; destruct id as [| |i|]; simpl; try assumption;
    (destruct (findRequest db i) as [r|] eqn:Hfind; simpl; [|assumption]);
    (destruct (negb (Nat.eqb (r_dealer r) (u_id caller))); simpl;
     [assumption|]);
    (destruct (negb (Status_eqb (r_status r) Pending)); simpl; [assumption|]);
    try assumption.
  destruct (request_save db _) as [db'|] eqn:Hr; simpl; [|assumption].
  eapply (wf_db_request_save db db' i r); try eassumption; auto.
Qed.

Lemma submit_handler_wf (db : DB) (pid : idParam) (strips : jsval)
  (caller : User) :
  wf_db db -> wf_db (fst (submit_handler db pid strips caller)).
Proof.
  intro Hwf. unfold submit_handler.
  destruct pid as [| |p|]; destruct (truthy strips); simpl; try assumption;
    destruct (strips_number strips) as [q|]; simpl; try assumption.
  destruct (findProduct db p) as [product|]; simpl; [|assumption].
  destruct (Qltb (p_stock product) q); simpl; [assumption|].
  destruct (request_insert _ _) as [db'|] eqn:Hr; simpl; [|assumption].
  eapply wf_db_request_insert; eassumption.
Qed.

Lemma guarded_wf (check : User -> bool) (caller : option User) (db : DB)
  (handler : User -> DB * response) :
  wf_db db -> (forall u, wf_db (fst (handler u))) ->
  wf_db (fst (guarded check caller db handler)).
Proof.
  intros Hwf Hh. unfold guarded. destruct caller as [u|]; simpl; [|assumption].
  destruct (check u); simpl; [apply Hh | assumption].
Qed.

Lemma step_wf (db : DB) (o : op) : wf_db db -> wf_db (step db o).
Proof.
  intro Hwf. destruct o; simpl.
  - apply guarded_wf; [assumption|]. intro u. apply submit_handler_wf, Hwf.
  - apply guarded_wf; [assumption|]. intro u.
    apply uploadReceipt_handler_wf, Hwf.
  - apply guarded_wf; [assumption|]. intro u.
    apply (payment_handlers_wf db id notes now u Hwf).
  - apply guarded_wf; [assumption|]. intro u.
    apply (payment_handlers_wf db id notes now u Hwf).
  - apply guarded_wf; [assumption|]. intro u. apply approve_handler_wf, Hwf.
  - apply guarded_wf; [assumption|]. intro u.
    apply (payment_handlers_wf db id notes now u Hwf).
  - apply guarded_wf; [assumption|]. intro u. apply allocate_handler_wf, Hwf.
  - exact Hwf.
Qed.

Lemma exec_wf (ops : list op) : forall db, wf_db db -> wf_db (exec db ops).
Proof.
  unfold exec. induction ops as [|o ops IH]; intros db Hwf; simpl.
  - assumption.
  - apply IH, step_wf, Hwf.
Qed.

Lemma empty_ledger_wf (db : DB) : empty_ledger db -> wf_db db.
Proof.
  intros (Hr & Hs & _). unfold wf_db, stocks_ok. rewrite Hr, Hs. simpl.
  repeat split; constructor.
Qed.

Lemma reachable_wf (db : DB) : reachable db -> wf_db db.
Proof.
  intros (db0 & ops & Hinit & <-). apply exec_wf, empty_ledger_wf, Hinit.
Qed.

Lemma scenario_reachable (ops : list op) : reachable (exec fresh_db ops).
Proof.
  exists fresh_db, ops. split; [|reflexivity].
  unfold empty_ledger. simpl. auto.
Qed.

(** ** The lot invariant *)



(** ** Cancellation *)

(** C9.  A well-formed cancellation (an admin, notes absent or castable to
    text) of a pending request answers 200 and rewrites that request only:
    its status becomes cancelled and the admin, the time and the trimmed
    notes of the call are recorded on it, while its id, dealer, product,
    quantity and payment fields, every other request, the central stock, the
    lots, the allocation records and the users stay as they were.  With notes
    that cannot be cast to text the call answers 500 and changes nothing at
    all.  Cancelling a request that is not pending answers 400
    "already <status>" (the specification's StateError) and changes
    nothing. *)
Theorem cancel_only_touches_the_request :
  forall (db : DB) (admin : User) (i : oid) (r : DealerRequest)
         (notes : bodyNotes) (now : nat),
    reachable db ->
    verifyAdmin admin = true ->
    findRequest db i = Some r ->
    (r_status r = Pending -> notes_castable notes = true ->
     exists (db' : DB) (r' : DealerRequest),
       cancel db (Some admin) (IdValid i) notes now
       = (db', reply 200 (MsgRequest r'))
       /\ findRequest db' i = Some r'
       /\ r_status r' = Cancelled
       /\ r_processedBy r' = Some (u_id admin)
       /\ r_processedAt r' = Some now
       /\ r_notes r' = notes_or_empty notes
       /\ r_id r' = r_id r /\ r_dealer r' = r_dealer r
       /\ r_product r' = r_product r /\ r_strips r' = r_strips r
       /\ r_paymentStatus r' = r_paymentStatus r
       /\ r_receiptImage r' = r_receiptImage r
       /\ r_paymentVerifiedBy r' = r_paymentVerifiedBy r
       /\ r_paymentVerifiedAt r' = r_paymentVerifiedAt r
       /\ r_paymentNotes r' = r_paymentNotes r
       /\ (forall j, j <> i -> findRequest db' j = findRequest db j)
       /\ List.length (requests db') = List.length (requests db)
       /\ products db' = products db
       /\ stocks db' = stocks db
       /\ allocations db' = allocations db
       /\ users db' = users db)
    /\ (r_status r = Pending -> notes_castable notes = false ->
        cancel db (Some admin) (IdValid i) notes now
        = (db, reply 500 MsgServerError))
    /\ (r_status r <> Pending ->
        cancel db (Some admin) (IdValid i) notes now
        = (db, reply 400 (MsgAlready (r_status r)))).
Proof.
  intros db admin i r notes now Hreach Hadmin Hfind.
  unfold cancel, guarded. rewrite Hadmin. unfold cancel_handler. rewrite Hfind.
  split; [|split].
  - intros Hst Hcast. rewrite Hst, Hcast. simpl.
    assert (Hv : request_validate
                   (with_status r Cancelled (u_id admin) now
                                (notes_or_empty notes)) = true).
    { unfold request_validate. simpl. apply Qle_bool_iff.
      apply reachable_wf in Hreach. destruct Hreach as (Hr & _).
      rewrite Forall_forall in Hr. apply Hr.
      apply find_some in Hfind. apply Hfind. }
    unfold request_save. rewrite Hv.
    eexists. eexists. split; [reflexivity|].
    pose proof (find_key_eq _ _ _ _ Hfind) as Hi.
    split.
    { unfold findRequest in *. simpl. rewrite find_replace_by. simpl.
      rewrite Hi, Nat.eqb_refl, Hfind. reflexivity. }
    do 13 (split; [reflexivity|]).
    split.
    { intros j Hj. unfold findRequest. simpl. rewrite find_replace_by. simpl.
      rewrite Hi. apply Nat.eqb_neq in Hj. rewrite Nat.eqb_sym in Hj.
      rewrite Hj. reflexivity. }
    split; [simpl; apply replace_by_length|]. repeat split.
  - intros Hst Hcast. rewrite Hst, Hcast. reflexivity.
  - intro Hst. destruct (Status_eqb (r_status r) Pending) eqn:E.
    + apply Status_eqb_eq in E. contradiction.
    + reflexivity.
Qed.

Lemma cancel_only_touches_the_request_witness :
  exists (db' : DB) (r' : DealerRequest),
    cancel paid_db (Some the_admin) (IdValid 100%nat)
           (NotesText "  out of stock "%string) 7%nat
    = (db', reply 200 (MsgRequest r'))
    /\ r_status r' = Cancelled
    /\ r_notes r' = "out of stock"%string
    /\ stocks db' = stocks paid_db /\ products db' = products paid_db.
Proof.
  assert (Hreach : reachable paid_db)
    by (unfold paid_db; apply scenario_reachable).
  assert (Hfind : findRequest paid_db 100%nat = Some paid_request)
    by (vm_compute; reflexivity).
  destruct (cancel_only_touches_the_request paid_db the_admin 100%nat
              paid_request (NotesText "  out of stock "%string) 7%nat
              Hreach eq_refl Hfind) as (Hpending & _).
  destruct (Hpending eq_refl eq_refl)
    as (db' & r' & Hrun & _ & Hst & _ & _ & Hnotes & _ & _ & _ & _ & _ & _ & _
        & _ & _ & _ & _ & Hp & Hs & _).
  exists db', r'. split; [exact Hrun|]. split; [exact Hst|].
  split; [rewrite Hnotes; vm_compute; reflexivity|]. split; assumption.
Defined.

(** ** Approval *)

Lemma no_lot_for_pending (db : DB) (i : oid) (r : DealerRequest)
  (f : DealerStock -> bool) :
  wf_db db -> findRequest db i = Some r -> r_status r = Pending ->
  (forall s, f s = true -> sourceRequest s = i) ->
  find f (stocks db) = None.
Proof.
  intros (_ & _ & _ & _ & Hsrc) Hfind Hst Hf.
  destruct (find f (stocks db)) as [s|] eqn:E; [|reflexivity].
  apply find_some in E. destruct E as (Hin & Hfs).
  rewrite Forall_forall in Hsrc. destruct (Hsrc s Hin) as (r0 & Hr0 & Hst0).
  rewrite (Hf s Hfs) in Hr0. unfold findRequest in Hfind. congruence.
Qed.

Lemma reachable_exec (db : DB) (ops : list op) :
  reachable db -> reachable (exec db ops).
Proof.
  intros (db0 & ops0 & Hinit & <-). exists db0, (ops0 ++ ops).
  split; [assumption|]. unfold exec. apply fold_left_app.
Qed.

(** A call of the route that no other call interrupts is the handler. *)
Lemma approve_handler_alone (db : DB) (id : idParam) (notes : bodyNotes)
  (now : nat) (caller : User) :
  approve_moves 5 id notes now caller db Arrived
  = (fst (approve_handler db id notes now caller),
     Answered (snd (approve_handler db id notes now caller))).
Proof.
  unfold approve_handler, openLot. cbn [approve_moves approve_move].
  destruct id as [| |i|]; try reflexivity.
  destruct (findRequest db i) as [r|]; [|reflexivity].
  destruct (negb (Status_eqb (r_status r) Pending)); [reflexivity|].
  destruct (negb (PaymentStatus_eqb (r_paymentStatus r) Verified));
    [reflexivity|].
  destruct (findProduct db (r_product r)) as [p|]; [|reflexivity].
  destruct (Qltb (p_stock p) (r_strips r)); [reflexivity|].
  cbn [approve_moves approve_move].
  destruct (product_save db _) as [db1|]; [|reflexivity].
  cbn [approve_moves approve_move].
  destruct (notes_castable notes); [|reflexivity].
  destruct (request_save db1 _) as [db2|]; [|reflexivity].
  cbn [approve_moves approve_move r_dealer r_id r_strips with_status].
  destruct (find _ (stocks db2)) as [lot|].
  - destruct (stock_save db2 _) as [[db3 d]|]; reflexivity.
  - destruct (stock_insert _ _) as [[db3 d]|]; reflexivity.
Qed.




(** ** The rollback of a failed allocation *)

(** C1 (the code departs from the claim).  The dealer owns two untouched lots
    of 10 and 25 strips and asks for 1000.  The walk takes 10 and 25; the
    rollback deletes both allocation records and then subtracts the whole 35
    from the first lot, which the schema refuses ([allocatedStrips] would be
    -25): the call answers 500, not the 400 that reports 35 strips, and both
    lots stay fully allocated although no allocation record is left. *)
Theorem failed_allocation_is_not_rolled_back :
  map allocatedStrips (stocks two_lots_db) = [0; 0]
  /\ map availableStrips (stocks two_lots_db) = [10; 25]
  /\ allocations two_lots_db = []
  /\ snd (allocate_strips two_lots_db 1000) = reply 500 MsgServerError
  /\ allocations (fst (allocate_strips two_lots_db 1000)) = []
  /\ map allocatedStrips (stocks (fst (allocate_strips two_lots_db 1000)))
     = [10; 25]
  /\ map availableStrips (stocks (fst (allocate_strips two_lots_db 1000)))
     = [0; 0].
Proof. vm_compute. repeat split. Qed.

(** With a single lot the same rollback is exact: the amount subtracted is
    the amount that lot gave. *)
Example failed_allocation_single_lot :
  snd (allocate_strips approved_db 1000)
  = reply 400 (MsgInsufficientStock 10 1000)
  /\ map allocatedStrips (stocks (fst (allocate_strips approved_db 1000))) = [0]
  /\ allocations (fst (allocate_strips approved_db 1000)) = [].
Proof. vm_compute. repeat split. Qed.

(** Where no validator stands in the way the rollback runs to its end and
    the 400 reply reports the 20 strips that were available, but each of the
    two lots is decreased by 20 instead of by the 10 it gave: 80 allocated
    strips are left on lots that held 90 before the call. *)
Example failed_allocation_over_restores :
  map allocatedStrips (stocks partial_lots_db) = [90; 90]
  /\ snd (allocate_strips partial_lots_db 1000)
     = reply 400 (MsgInsufficientStock 20 1000)
  /\ map allocatedStrips (stocks (fst (allocate_strips partial_lots_db 1000)))
     = [80; 80]
  /\ map availableStrips (stocks (fst (allocate_strips partial_lots_db 1000)))
     = [20; 20].
Proof. vm_compute. repeat split. Qed.

(** ** Conservation *)

(** C2 (the code departs from the claim).  Conservation holds in the store
    with the two untouched lots, and fails after the failed allocation of
    1000: lot 101 then counts 10 allocated strips while no allocation record
    references it. *)
Theorem failed_allocation_breaks_conservation :
  conserved two_lots_db
  /\ ~ conserved (fst (allocate_strips two_lots_db 1000))
  /\ (exists s, findStock (fst (allocate_strips two_lots_db 1000)) 101%nat = Some s
                /\ allocatedStrips s = 10
                /\ allocated_to (fst (allocate_strips two_lots_db 1000)) 101%nat
                   = 0).
Proof.
  split; [|split].
  - intros s Hs.
    assert (E : stocks two_lots_db
                = [ mkStock 101%nat 2%nat 10%nat 10 0 10 100%nat 1%nat;
                    mkStock 103%nat 2%nat 10%nat 25 0 25 102%nat 2%nat ])
      by (vm_compute; reflexivity).
    rewrite E in Hs.
    destruct Hs as [<- | [<- | []]]; vm_compute; reflexivity.
  - intro H.
    assert (Hin : In (mkStock 101%nat 2%nat 10%nat 10 10 0 100%nat 1%nat)
                     (stocks (fst (allocate_strips two_lots_db 1000))))
      by (vm_compute; left; reflexivity).
    assert (Hne : ~ allocated_to (fst (allocate_strips two_lots_db 1000))
                      101%nat == 10)
      by (vm_compute; discriminate).
    apply Hne. exact (H _ Hin).
  - eexists. split; [vm_compute; reflexivity|]. split; vm_compute; reflexivity.
Qed.

(** ** The lot step of approval *)




(** ** Receipt upload *)

(** C4, counterexample.  Request 100 is pending with its payment verified;
    its owner uploads a receipt again: the call answers 200 and the payment
    status goes from verified back to paid. *)
Lemma uploadReceipt_accepts_a_verified_request :
  findRequest verified_db 100%nat = Some verified_request
  /\ r_paymentStatus verified_request = Verified
  /\ (exists db' r',
         uploadReceipt verified_db (Some the_dealer) (IdValid 100%nat)
                       (Uploaded "again")
         = (db', reply 200 (MsgRequest r'))
         /\ findRequest db' 100%nat = Some r'
         /\ r_paymentStatus r' = Paid).
Proof.
  split; [vm_compute; reflexivity|]. split; [reflexivity|].
  eexists. eexists. split; [vm_compute; reflexivity|].
  split; [vm_compute; reflexivity | reflexivity].
Qed.

(** C4, as the code has it.  In a reachable store a dealer's upload answers
    200 exactly when the request exists, the caller owns it, its status is
    pending and a receipt file was sent that the upload filter accepted and
    the image host stored; the payment status is not consulted.  The call
    then stores the (trimmed) receipt reference and sets the payment status
    to paid, whatever it was before.  A call that does not answer 200 leaves
    the store as it was; in particular a file the upload filter refuses, or
    one the image host fails to store, gives 500. *)
Theorem uploadReceipt_checks_owner_and_status :
  forall (db : DB) (caller : User) (i : oid) (file : receiptUpload),
    reachable db ->
    verifyDealer caller = true ->
    (code (snd (uploadReceipt db (Some caller) (IdValid i) file)) = 200%nat
     <-> exists r url,
           findRequest db i = Some r /\ r_dealer r = u_id caller
           /\ r_status r = Pending /\ file = Uploaded url)
    /\ (forall r url,
           findRequest db i = Some r -> r_dealer r = u_id caller ->
           r_status r = Pending -> file = Uploaded url ->
           exists db' r',
             uploadReceipt db (Some caller) (IdValid i) file
             = (db', reply 200 (MsgRequest r'))
             /\ findRequest db' i = Some r'
             /\ r_paymentStatus r' = Paid
             /\ r_receiptImage r' = Some (trim url)
             /\ r_status r' = Pending
             /\ r_strips r' = r_strips r)
    /\ (code (snd (uploadReceipt db (Some caller) (IdValid i) file)) <> 200%nat
        -> fst (uploadReceipt db (Some caller) (IdValid i) file) = db)
    /\ (file = FileRefused ->
        uploadReceipt db (Some caller) (IdValid i) file
        = (db, reply 500 MsgServerError))
    /\ (forall r,
           findRequest db i = Some r -> r_dealer r = u_id caller ->
           r_status r = Pending -> file = UploadFails ->
           uploadReceipt db (Some caller) (IdValid i) file
           = (db, reply 500 MsgServerError)).
Proof.
  intros db caller i file Hreach Hdealer.
  pose proof (reachable_wf _ Hreach) as (Hstrips & _).
  assert (Hrun : forall r url,
             findRequest db i = Some r -> r_dealer r = u_id caller ->
             r_status r = Pending -> file = Uploaded url ->
             uploadReceipt db (Some caller) (IdValid i) file
             = (set_requests db
                  (replace_by r_id
                     (with_payment r Paid (Some (trim url))
                                   (r_paymentVerifiedBy r)
                                   (r_paymentVerifiedAt r) (r_paymentNotes r))
                     (requests db)),
                reply 200
                  (MsgRequest
                     (with_payment r Paid (Some (trim url))
                                   (r_paymentVerifiedBy r)
                                   (r_paymentVerifiedAt r)
                                   (r_paymentNotes r))))).
  { intros r url Hfind Hown Hst ->.
    unfold uploadReceipt, guarded. rewrite Hdealer.
    unfold uploadReceipt_handler. rewrite Hfind, Hown, Nat.eqb_refl, Hst. simpl.
    unfold request_save, request_validate. simpl.
    assert (Hv : Qle_bool 1 (r_strips r) = true).
    { apply Qle_bool_iff. rewrite Forall_forall in Hstrips. apply Hstrips.
      apply find_some in Hfind. apply Hfind. }
    rewrite Hv. reflexivity. }
  assert (Hback : code (snd (uploadReceipt db (Some caller) (IdValid i) file))
                  = 200%nat ->
                  exists r url,
                    findRequest db i = Some r /\ r_dealer r = u_id caller
                    /\ r_status r = Pending /\ file = Uploaded url).
  { unfold uploadReceipt, guarded. rewrite Hdealer. unfold uploadReceipt_handler.
    destruct file as [| | |url]; simpl; try discriminate;
      (destruct (findRequest db i) as [r|] eqn:Hfind; simpl; [|discriminate]);
      (destruct (Nat.eqb (r_dealer r) (u_id caller)) eqn:Hown; simpl;
       [|discriminate]);
      (destruct (Status_eqb (r_status r) Pending) eqn:Hst; simpl;
       [|discriminate]); try discriminate.
    intros _. exists r, url. apply Nat.eqb_eq in Hown.
    apply Status_eqb_eq in Hst. auto. }
  split; [split; [exact Hback|]|].
  { intros (r & url & Hfind & Hown & Hst & Hfile).
    rewrite (Hrun r url Hfind Hown Hst Hfile). reflexivity. }
  split.
  { intros r url Hfind Hown Hst Hfile.
    rewrite (Hrun r url Hfind Hown Hst Hfile).
    eexists. eexists. split; [reflexivity|].
    split; [|repeat split; exact Hst].
    unfold findRequest. simpl. rewrite find_replace_by. simpl.
    rewrite (find_key_eq _ _ _ _ Hfind), Nat.eqb_refl.
    fold (findRequest db i). rewrite Hfind. reflexivity. }
  split.
  { unfold uploadReceipt, guarded. rewrite Hdealer. unfold uploadReceipt_handler.
    destruct file as [| | |url]; simpl; try reflexivity;
      (destruct (findRequest db i) as [r|] eqn:Hfind; simpl; [|reflexivity]);
      (destruct (negb (Nat.eqb (r_dealer r) (u_id caller))); simpl;
       [reflexivity|]);
      (destruct (negb (Status_eqb (r_status r) Pending)); simpl;
       [reflexivity|]); try reflexivity.
    destruct (request_save db _) as [db'|]; simpl; [|reflexivity].
    intro H. exfalso. apply H. reflexivity. }
  split.
  { intros ->. unfold uploadReceipt, guarded. rewrite Hdealer. reflexivity. }
  intros r Hfind Hown Hst ->.
  unfold uploadReceipt, guarded. rewrite Hdealer.
  unfold uploadReceipt_handler. rewrite Hfind, Hown, Nat.eqb_refl, Hst.
  reflexivity.
Qed.

Lemma uploadReceipt_checks_owner_and_status_witness :
  code (snd (uploadReceipt verified_db (Some the_dealer) (IdValid 100%nat)
                           (Uploaded "again"))) = 200%nat
  /\ uploadReceipt verified_db (Some the_dealer) (IdValid 100%nat) FileRefused
     = (verified_db, reply 500 MsgServerError).
Proof.
  assert (Hreach : reachable verified_db)
    by (unfold verified_db; apply reachable_exec; unfold paid_db;
        apply scenario_reachable).
  assert (Hfind : findRequest verified_db 100%nat = Some verified_request)
    by (vm_compute; reflexivity).
  split.
  - apply (proj1 (uploadReceipt_checks_owner_and_status verified_db the_dealer
                    100%nat (Uploaded "again") Hreach eq_refl)).
    exists verified_request, "again"%string.
    split; [exact Hfind|]. split; [reflexivity|]. split; reflexivity.
  - destruct (uploadReceipt_checks_owner_and_status verified_db the_dealer
                100%nat FileRefused Hreach eq_refl) as (_ & _ & _ & H & _).
    exact (H eq_refl).
Defined.

(** ** Quantities *)

(** C10.  The quantity check of [POST /] and of [POST /allocate] lets every
    number that is at least 1 through, integer or not: neither handler
    answers "missing fields" or "strips must be a positive number" for it,
    and a submitted request stores the number as it came.  With two strips
    and a half the fraction reaches the central stock (1000 - 5/2 after
    approval), the lot (5/2 in total) and the allocation arithmetic (an
    allocation record of 5/2, leaving 15/2 of a lot of 10). *)
Theorem quantity_check_accepts_fractions :
  (forall q : Q,
      1 <= q ->
      (forall (db : DB) (caller : User) (pid : oid),
          message (snd (submit_handler db (IdValid pid) (JNum q) caller))
          <> MsgMissingFields
          /\ message (snd (submit_handler db (IdValid pid) (JNum q) caller))
             <> MsgStripsNotPositive)
      /\ (forall (db : DB) (caller : User) (sid pid : oid)
                 (notes : bodyNotes),
             message (snd (allocate_handler db (IdValid sid) (IdValid pid)
                                            (JNum q) notes caller))
             <> MsgMissingFields
             /\ message (snd (allocate_handler db (IdValid sid) (IdValid pid)
                                               (JNum q) notes caller))
                <> MsgStripsNotPositive)
      /\ (forall (db : DB) (caller : User) (pid : oid) (p : Product),
             findProduct db pid = Some p -> q <= p_stock p ->
             submit_handler db (IdValid pid) (JNum q) caller
             = (set_requests (bump db)
                  (requests db ++ [new_request (nextId db) (u_id caller) pid q]),
                reply 201
                  (MsgRequest (new_request (nextId db) (u_id caller) pid q)))))
  /\ map r_strips (requests fractional_db) = [5 # 2]
  /\ map p_stock (products fractional_db) = [1995 # 2]
  /\ map totalStrips (stocks fractional_db) = [5 # 2]
  /\ map a_strips (allocations (fst (allocate_strips approved_db (5 # 2))))
     = [5 # 2]
  /\ map availableStrips (stocks (fst (allocate_strips approved_db (5 # 2))))
     = [15 # 2].
Proof.
  split; [|vm_compute; repeat split].
  intros q Hq.
  assert (Ht : truthy (JNum q) = true).
  { simpl. apply negb_true_iff. destruct (Qeq_bool q 0) eqn:E; [|reflexivity].
    apply Qeq_bool_iff in E. lra. }
  assert (Hn : strips_number (JNum q) = Some q).
  { simpl. assert (E : Qltb q 1 = false) by (apply Qltb_ge, Hq).
    rewrite E. reflexivity. }
  split; [|split].
  - intros db caller pid. unfold submit_handler. rewrite Ht, Hn.
    destruct (findProduct db pid) as [p|]; simpl; [|split; discriminate].
    destruct (Qltb (p_stock p) q); simpl; [split; discriminate|].
    destruct (request_insert _ _); simpl; split; discriminate.
  - intros db caller sid pid notes. unfold allocate_handler. rewrite Ht, Hn.
    destruct (findSalesman db sid (u_id caller)); simpl; [|split; discriminate].
    destruct (findProduct db pid); simpl; [|split; discriminate].
    destruct (walk _ _ _ _ _ _) as [st|db']; simpl; [|split; discriminate].
    destruct (Qltb 0 (remainingToAllocate st)).
    + destruct (rollback _ _ _); simpl; split; discriminate.
    + destruct (w_allocations st); simpl; split; discriminate.
  - intros db caller pid p Hfind Hle. unfold submit_handler.
    rewrite Ht, Hn, Hfind.
    assert (E : Qltb (p_stock p) q = false) by (apply Qltb_ge, Hle).
    rewrite E. unfold request_insert, request_validate. simpl.
    assert (Hv : Qle_bool 1 q = true) by (apply Qle_bool_iff, Hq).
    rewrite Hv. reflexivity.
Qed.

Lemma quantity_check_accepts_fractions_witness :
  1 <= 5 # 2
  /\ submit_handler fresh_db (IdValid 10%nat) (JNum (5 # 2)) the_dealer
     = (set_requests (bump fresh_db)
          (requests fresh_db ++ [new_request 100%nat 2%nat 10%nat (5 # 2)]),
        reply 201 (MsgRequest (new_request 100%nat 2%nat 10%nat (5 # 2)))).
Proof.
  assert (Hq : 1 <= 5 # 2) by (unfold Qle; simpl; lia).
  split; [exact Hq|].
  destruct quantity_check_accepts_fractions as (Hall & _).
  destruct (Hall (5 # 2) Hq) as (_ & _ & Hsubmit).
  apply (Hsubmit fresh_db the_dealer 10%nat (mkProduct 10%nat 1000)).
  - reflexivity.
  - unfold Qle; simpl; lia.
Defined.

(** ** The FIFO walk *)

Lemma insert_by_createdAt_sorted (s : DealerStock) (l : list DealerStock) :
  oldest_first l -> oldest_first (insert_by_createdAt s l).
Proof.
  unfold oldest_first. induction l as [|x l IH]; intro Hl; simpl.
  - constructor; constructor.
  - inversion Hl as [|? ? Hl' Hx]; subst.
    destruct (Nat.leb (s_createdAt s) (s_createdAt x)) eqn:E.
    + apply Nat.leb_le in E. constructor; [assumption|].
      constructor; [assumption|].
      eapply Forall_impl; [|exact Hx]. simpl. intros y Hy. lia.
    + apply Nat.leb_gt in E. constructor; [apply IH, Hl'|].
      apply Forall_forall. intros y Hy.
      apply (Permutation_in _ (insert_by_createdAt_perm s l)) in Hy.
      destruct Hy as [<- | Hy]; [lia|].
      rewrite Forall_forall in Hx. apply Hx, Hy.
Qed.

Lemma sort_by_createdAt_sorted (l : list DealerStock) :
  oldest_first (sort_by_createdAt l).
Proof.
  induction l as [|x l IH]; simpl.
  - constructor.
  - apply insert_by_createdAt_sorted, IH.
Qed.

Lemma find_NoDup_In {A : Type} (key : A -> oid) (l : list A) (x : A) :
  NoDup (map key l) -> In x l ->
  find (fun y => Nat.eqb (key y) (key x)) l = Some x.
Proof.
  induction l as [|y l IH]; intros Hnd Hin; [destruct Hin|].
  simpl in *. inversion Hnd as [|? ? Hy Hnd']; subst.
  destruct Hin as [-> | Hin].
  - rewrite Nat.eqb_refl. reflexivity.
  - destruct (Nat.eqb (key y) (key x)) eqn:E; [|apply IH; assumption].
    apply Nat.eqb_eq in E. exfalso. apply Hy. rewrite E. apply in_map, Hin.
Qed.

Lemma stock_save_spec (db db' : DB) (s d : DealerStock) :
  stock_save db s = Some (db', d) ->
  d = with_counts s (totalStrips s) (allocatedStrips s)
                  (totalStrips s - allocatedStrips s)
  /\ db' = set_stocks db (replace_by s_id d (stocks db)).
Proof.
  unfold stock_save. destruct (stock_document s) as [d'|] eqn:Hd; [|discriminate].
  intro H. injection H as <- <-. split; [|reflexivity].
  apply stock_document_spec in Hd. apply Hd.
Qed.

Lemma findStock_stock_save (db db' : DB) (s d : DealerStock) (i : oid) :
  stock_save db s = Some (db', d) ->
  findStock db' i =
  if Nat.eqb (s_id s) i
  then match findStock db i with Some _ => Some d | None => None end
  else findStock db i.
Proof.
  intro H. apply stock_save_spec in H. destruct H as (Hd & ->).
  unfold findStock. simpl. rewrite find_replace_by.
  rewrite Hd at 1. simpl. reflexivity.
Qed.


Section FifoWalk.

(** The loop of one call: the dealer, the salesman, the product and the notes
    are fixed while the lots are walked. *)
Variables (dealer sid pid : oid) (notes : bodyNotes).

(** What one run of the loop does, for lots that are the stored documents,
    have distinct ids and satisfy the lot invariant. *)
Lemma walk_spec (lots : list DealerStock) :
  forall st st' : walk_state,
    walk dealer sid pid notes lots st = inl st' ->
    NoDup (map s_id lots) ->
    Forall lot_inv lots ->
    Forall (fun s => findStock (w_db st) (s_id s) = Some s) lots ->
    exists news : list StockAllocation,
      w_allocations st' = w_allocations st ++ news
      /\ allocations (w_db st') = allocations (w_db st) ++ news
      /\ fifo_drain lots (remainingToAllocate st) news
      /\ remainingToAllocate st'
         == remainingToAllocate st - sum_strips news
      /\ (forall a, In a news -> In (a_dealerStock a) (map s_id lots))
      /\ (forall i, ~ In i (map s_id lots) ->
                    findStock (w_db st') i = findStock (w_db st) i)
      /\ (news <> [] -> 0 < remainingToAllocate st)
      /\ (0 <= remainingToAllocate st -> 0 <= remainingToAllocate st')
      /\ (forall l1 older l2 newer l3 a,
             lots = l1 ++ older :: l2 ++ newer :: l3 ->
             In a news -> a_dealerStock a = s_id newer ->
             exists o, findStock (w_db st') (s_id older) = Some o
                       /\ availableStrips o == 0).
Proof.
  induction lots as [|stock rest IH]; intros st st' Hwalk Hnd Hinv Hdocs;
    simpl in Hwalk.
  - injection Hwalk as <-. exists []. rewrite !app_nil_r.
    split; [reflexivity|]. split; [reflexivity|]. split; [apply drain_end|].
    split; [unfold sum_strips; simpl; lra|]. split; [intros a []|].
    split; [reflexivity|]. split; [intro H; exfalso; apply H; reflexivity|].
    split; [exact (fun H => H)|]. intros l1 older l2 newer l3 a _ [].
  - destruct (Qle_bool (remainingToAllocate st) 0) eqn:Hstop.
    { injection Hwalk as <-. exists []. rewrite !app_nil_r.
      apply Qle_bool_iff in Hstop.
      split; [reflexivity|]. split; [reflexivity|].
      split; [apply drain_stop, Hstop|].
      split; [unfold sum_strips; simpl; lra|]. split; [intros a []|].
      split; [reflexivity|]. split; [intro H; exfalso; apply H; reflexivity|].
      split; [exact (fun H => H)|]. intros l1 older l2 newer l3 a _ []. }
    apply Qle_bool_false in Hstop.
    inversion Hnd as [|? ? Hfresh Hnd']; subst.
    inversion Hinv as [|? ? Hstock Hinv']; subst.
    inversion Hdocs as [|? ? Hdoc Hdocs']; subst.
    destruct (Qltb 0 (availableStrips stock)) eqn:Hav.
    + (* the lot gives something *)
      apply Qltb_lt in Hav.
      destruct (notes_castable notes); [|discriminate].
      destruct (allocation_insert _ _) as [db1|] eqn:Hins; [|discriminate].
      destruct (stock_save db1 _) as [[db2 saved]|] eqn:Hsave; [|discriminate].
      unfold allocation_insert in Hins.
      destruct (allocation_validate _); [|discriminate].
      injection Hins as <-.
      pose proof (stock_save_spec _ _ _ _ Hsave) as (Hsaved & Hdb2).
      simpl in Hsaved.
      assert (Hfind2 : forall i,
                 findStock db2 i =
                 if Nat.eqb (s_id stock) i
                 then match findStock (w_db st) i with
                      | Some _ => Some saved
                      | None => None
                      end
                 else findStock (w_db st) i).
      { intro i. rewrite (findStock_stock_save _ _ _ _ i Hsave). reflexivity. }
      specialize (IH _ _ Hwalk Hnd' Hinv'). simpl in IH.
      assert (Hdocs2 : Forall (fun s => findStock db2 (s_id s) = Some s) rest).
      { rewrite Forall_forall in *. intros s Hs. rewrite Hfind2.
        destruct (Nat.eqb (s_id stock) (s_id s)) eqn:E; [|apply Hdocs', Hs].
        apply Nat.eqb_eq in E. exfalso. apply Hfresh. rewrite E.
        apply in_map, Hs. }
      destruct (IH Hdocs2)
        as (news & Hw & Hal & Hdrain & Hrem & Hrefs & Hframe & Hpos & Hnn & Hold).
      set (toAllocate := Qmin (availableStrips stock) (remainingToAllocate st))
        in *.
      set (record := mkAllocation (nextId (w_db st)) dealer sid pid toAllocate
                                  (s_id stock) (notes_or_empty notes)) in *.
      assert (Hmin : toAllocate <= remainingToAllocate st /\ 0 < toAllocate).
      { unfold toAllocate.
        destruct (Qmin_cases (availableStrips stock) (remainingToAllocate st))
          as [(H1 & ->) | (H1 & ->)]; split; lra. }
      exists (record :: news).
      split; [rewrite Hw, <- app_assoc; reflexivity|].
      split; [rewrite Hal, Hdb2; simpl; rewrite <- app_assoc; reflexivity|].
      split; [apply drain_take; try assumption; reflexivity|].
      split; [rewrite Hrem; unfold sum_strips; simpl; lra|].
      split; [intros a [<- | Ha]; simpl; [left; reflexivity | right; apply Hrefs, Ha]|].
      split.
      { intros i Hi. simpl in Hi. rewrite Hframe by tauto. rewrite Hfind2.
        destruct (Nat.eqb (s_id stock) i) eqn:E; [|reflexivity].
        apply Nat.eqb_eq in E. tauto. }
      split; [intros _; assumption|].
      split; [intros H0; apply Hnn; lra|].
      intros l1 older l2 newer l3 a Hl Ha Hnewer.
      assert (Hin_rest : In newer rest).
      { destruct l1; simpl in Hl; injection Hl as _ Hrest; rewrite Hrest;
          [apply in_elt | apply in_or_app; right; right; apply in_elt]. }
      assert (Hnewer_rest : s_id newer <> s_id stock).
      { intro E. apply Hfresh. rewrite <- E. apply in_map, Hin_rest. }
      assert (Ha' : In a news).
      { destruct Ha as [<- | Ha]; [|assumption]. simpl in Hnewer. congruence. }
      destruct l1 as [|x l1]; simpl in Hl.
      * injection Hl as <- Hrest.
        assert (Hleft : 0 < remainingToAllocate st - toAllocate).
        { apply Hpos. intro E. rewrite E in Ha'. destruct Ha'. }
        assert (HtoAll : toAllocate = availableStrips stock).
        { unfold toAllocate.
          destruct (Qmin_cases (availableStrips stock) (remainingToAllocate st))
            as [(H1 & ->) | (H1 & E)]; [reflexivity|].
          exfalso. unfold toAllocate in Hleft. rewrite E in Hleft. lra. }
        exists saved. split.
        -- rewrite Hframe by assumption. rewrite Hfind2, Nat.eqb_refl, Hdoc.
           reflexivity.
        -- rewrite Hsaved. simpl. rewrite HtoAll.
           destruct Hstock as (Hs1 & Hs2 & Hs3). lra.
      * injection Hl as <- Hrest.
        apply (Hold l1 older l2 newer l3 a Hrest Ha' Hnewer).
    + (* nothing available: the lot is skipped *)
      apply Qltb_ge in Hav.
      destruct (IH _ _ Hwalk Hnd' Hinv' Hdocs')
        as (news & Hw & Hal & Hdrain & Hrem & Hrefs & Hframe & Hpos & Hnn & Hold).
      exists news.
      split; [assumption|]. split; [assumption|].
      split; [apply drain_skip; assumption|].
      split; [assumption|].
      split; [intros a Ha; simpl; right; apply Hrefs, Ha|].
      split; [intros i Hi; apply Hframe; simpl in Hi; tauto|].
      split; [assumption|]. split; [assumption|].
      intros l1 older l2 newer l3 a Hl Ha Hnewer.
      destruct l1 as [|x l1]; simpl in Hl; injection Hl as <- Hrest.
      * exists stock. split.
        -- rewrite Hframe by assumption. exact Hdoc.
        -- destruct Hstock as (Hs1 & Hs2 & Hs3). lra.
      * apply (Hold l1 older l2 newer l3 a Hrest Ha Hnewer).
Qed.


End FifoWalk.

Lemma NoDup_map_filter {A : Type} (key : A -> oid) (f : A -> bool) (l : list A) :
  NoDup (map key l) -> NoDup (map key (filter f l)).
Proof.
  induction l as [|x l IH]; simpl; intro H; [constructor|].
  inversion H as [|? ? Hx Hl]; subst.
  destruct (f x); simpl; [|apply IH, Hl].
  constructor; [|apply IH, Hl].
  intro Hin. apply Hx. apply in_map_iff in Hin.
  destruct Hin as (y & Hy & Hin). apply filter_In in Hin.
  rewrite <- Hy. apply in_map, Hin.
Qed.

Lemma dealerStocks_of_NoDup (db : DB) (dealer product : oid) :
  NoDup (map s_id (stocks db)) ->
  NoDup (map s_id (dealerStocks_of db dealer product)).
Proof.
  intro H. unfold dealerStocks_of.
  eapply Permutation_NoDup.
  - apply Permutation_map, Permutation_sym, sort_by_createdAt_perm.
  - apply NoDup_map_filter, H.
Qed.

(** What a 201 reply of [POST /allocate] says about the call. *)
Lemma allocate_created_inv (db db' : DB) (caller : User)
  (salesmanId productId : idParam) (strips : jsval) (notes : bodyNotes)
  (first : StockAllocation) (total : Q) :
  allocate db (Some caller) salesmanId productId strips notes
  = (db', reply 201 (MsgAllocated first total)) ->
  exists (sid pid : oid) (q : Q) (st : walk_state),
    salesmanId = IdValid sid /\ productId = IdValid pid /\ strips = JNum q
    /\ 1 <= q
    /\ walk (u_id caller) sid pid notes (dealerStocks_of db (u_id caller) pid)
            (mkWalk db q [] []) = inl st
    /\ remainingToAllocate st <= 0
    /\ db' = w_db st.
Proof.
  intro Hrun. unfold allocate, guarded in Hrun.
  destruct (verifyDealer caller); [|discriminate].
  unfold allocate_handler in Hrun.
  destruct salesmanId as [| |sid|]; destruct productId as [| |pid|];
    destruct (truthy strips); try discriminate;
    destruct (strips_number strips) as [q|] eqn:Hq; try discriminate.
  all: try (destruct (findSalesman db sid (u_id caller)); discriminate).
  destruct (findSalesman db sid (u_id caller)) as [salesman|]; [|discriminate].
  destruct (findProduct db pid) as [product|]; [|discriminate].
  destruct (walk _ _ _ _ _ _) as [st|dbx] eqn:Hwalk; [|discriminate].
  destruct (Qltb 0 (remainingToAllocate st)) eqn:Hrem.
  { destruct (rollback _ _ _); discriminate. }
  destruct (w_allocations st) as [|a0 others]; [discriminate|].
  injection Hrun as <- _ _.
  destruct strips as [| | |n| |]; simpl in Hq; try discriminate.
  destruct (Qltb n 1) eqn:E; [discriminate|]. injection Hq as Hq. subst q.
  exists sid, pid, n, st. apply Qltb_ge in E, Hrem. repeat split; assumption.
Qed.

(** C5, counterexample.  The dealer holds two lots, of 3.4 strips (the older)
    and of 10, stored as approval stores them.  An allocation of 1.3 strips
    succeeds and leaves the older lot with 3.4 - 1.3 available.  An
    allocation of 5 then succeeds with two records: the older lot gives all
    it had available, the newer lot the rest.  The older lot's
    [allocatedStrips] is now 1.3 plus what it gave, which in doubles is the
    number below 3.4, and the hook stores 3.4 minus that as its
    [availableStrips]: 2^-51, not 0, while the newer lot has been
    touched. *)
Lemma allocation_leaves_an_older_lot_available :
  Forall (fun s => Binary64.stock_document64 s = Some s)
         Binary64.fractional_lots
  /\ exists (lots1 lots2 : list Binary64.lot64) (older newer : Binary64.lot64)
            (r1 r2 r3 : PrimFloat.float),
       Binary64.allocate64 Binary64.fractional_lots (Binary64.decimal 13 10)
       = Binary64.Created64 [(101%nat, r1)] lots1
       /\ Binary64.allocate64 lots1 (Binary64.decimal 5 1)
          = Binary64.Created64 [(101%nat, r2); (103%nat, r3)] lots2
       /\ lots2 = [older; newer]
       /\ Binary64.id64 older = 101%nat /\ Binary64.id64 newer = 103%nat
       /\ PrimFloat.ltb PrimFloat.zero (Binary64.available64 older) = true
       /\ Binary64.available64 older
          = Binary64.decimal 1 2251799813685248
       /\ PrimFloat.ltb PrimFloat.zero r3 = true.
Proof.
  split.
  - repeat constructor.
  - eexists. eexists. eexists. eexists. eexists. eexists. eexists.
    split; [vm_compute; reflexivity|].
    split; [vm_compute; reflexivity|].
    split; [reflexivity|]. split; [reflexivity|]. split; [reflexivity|].
    split; [vm_compute; reflexivity|].
    split; vm_compute; reflexivity.
Qed.

(** C5, as the code has it.  Where the quantity asked and the counts of the
    caller's lots are whole numbers below 2^53, a successful allocation
    (201) takes its strips oldest lot first.
    The lots walked are the dealer's lots for the product in creation order;
    the allocation records written by the call are exactly those of the
    specification's walk over that list (a lot with something available
    gives the smaller of what it has and what remains, one record per lot,
    in that order); they add up to the quantity asked; and whenever a lot
    received a record, every lot before it in creation order is left with
    nothing available.  In particular 30 strips against lots of 10 and 25
    give two records, of 10 and of 20. *)
Theorem allocation_is_oldest_first :
  (forall (db db' : DB) (caller : User) (salesmanId productId : idParam)
          (strips : jsval) (notes : bodyNotes) (first : StockAllocation)
          (total : Q),
      reachable db ->
      whole_quantities db caller strips ->
      allocate db (Some caller) salesmanId productId strips notes
      = (db', reply 201 (MsgAllocated first total)) ->
      exists (pid : oid) (q : Q) (lots : list DealerStock)
             (news : list StockAllocation),
        productId = IdValid pid
        /\ strips = JNum q
        /\ safe_integer q
        /\ lots = dealerStocks_of db (u_id caller) pid
        /\ Forall safe_lot lots
        /\ oldest_first lots
        /\ (forall s, In s lots <->
                      In s (stocks db) /\ s_dealer s = u_id caller
                      /\ s_product s = pid)
        /\ allocations db' = allocations db ++ news
        /\ fifo_drain lots q news
        /\ sum_strips news == q
        /\ (forall l1 older l2 newer l3 a,
               lots = l1 ++ older :: l2 ++ newer :: l3 ->
               In a news -> a_dealerStock a = s_id newer ->
               exists o, findStock db' (s_id older) = Some o
                         /\ availableStrips o == 0))
  /\ map (fun a => (a_dealerStock a, a_strips a))
         (allocations (fst (allocate_strips two_lots_db 30)))
     = [(101%nat, 10); (103%nat, 20)]
  /\ map availableStrips (stocks (fst (allocate_strips two_lots_db 30)))
     = [0; 5].
Proof.
  split; [|vm_compute; split; reflexivity].
  intros db db' caller salesmanId productId strips notes first total
         Hreach (Hwq & Hwl) Hrun.
  pose proof (reachable_wf _ Hreach) as (_ & Hinv & Hnd & _ & _).
  destruct (allocate_created_inv _ _ _ _ _ _ _ _ _ Hrun)
    as (sid & pid & q & st & -> & -> & -> & Hq1 & Hwalk & Hrem & ->).
  set (lots := dealerStocks_of db (u_id caller) pid) in *.
  assert (Hin : forall s, In s lots -> In s (stocks db)).
  { intros s Hs. apply dealerStocks_of_In in Hs. apply Hs. }
  destruct (walk_spec _ _ _ _ lots _ _ Hwalk)
    as (news & _ & Hal & Hdrain & Hsum & _ & _ & _ & Hnn & Hold).
  - apply dealerStocks_of_NoDup, Hnd.
  - apply Forall_forall. intros s Hs. rewrite Forall_forall in Hinv.
    apply Hinv, Hin, Hs.
  - apply Forall_forall. intros s Hs. simpl.
    apply (find_NoDup_In s_id (stocks db) s Hnd (Hin s Hs)).
  - simpl in *. exists pid, q, lots, news.
    split; [reflexivity|]. split; [reflexivity|].
    split; [apply Hwq; reflexivity|]. split; [reflexivity|].
    split.
    { apply Forall_forall. intros s Hs. apply dealerStocks_of_In in Hs.
      destruct Hs as (Hs1 & Hs2 & _). apply Hwl; assumption. }
    split; [apply sort_by_createdAt_sorted|].
    split; [intro s; apply dealerStocks_of_In|].
    split; [assumption|]. split; [assumption|].
    split; [|assumption].
    assert (H0 : 0 <= q) by lra.
    specialize (Hnn H0). lra.
Qed.

Lemma allocation_is_oldest_first_witness :
  exists news : list StockAllocation,
    allocations (fst (allocate_strips two_lots_db 30))
    = allocations two_lots_db ++ news
    /\ fifo_drain (dealerStocks_of two_lots_db 2%nat 10%nat) 30 news
    /\ sum_strips news == 30.
Proof.
  assert (Hreach : reachable two_lots_db)
    by (unfold two_lots_db; apply scenario_reachable).
  assert (Hrun :
            allocate two_lots_db (Some the_dealer) (IdValid 3%nat)
                     (IdValid 10%nat) (JNum 30) NotesFalsy
            = (fst (allocate_strips two_lots_db 30),
               reply 201
                 (MsgAllocated
                    (mkAllocation 104%nat 2%nat 3%nat 10%nat 10 101%nat
                                  EmptyString) 30)))
    by (vm_compute; reflexivity).
  assert (Hsafe : forall n : Z,
             (Z.abs n <= 9007199254740991)%Z -> safe_integer (inject_Z n))
    by (intros n Hn; exists n; split; [reflexivity | exact Hn]).
  assert (Hwhole : whole_quantities two_lots_db the_dealer (JNum 30)).
  { split.
    - intros q Hq. injection Hq as <-. apply (Hsafe 30%Z). vm_compute.
      discriminate.
    - intros s Hs _.
      assert (E : stocks two_lots_db
                  = [ mkStock 101%nat 2%nat 10%nat 10 0 10 100%nat 1%nat;
                      mkStock 103%nat 2%nat 10%nat 25 0 25 102%nat 2%nat ])
        by (vm_compute; reflexivity).
      rewrite E in Hs.
      destruct Hs as [<- | [<- | []]]; unfold safe_lot; simpl;
        repeat split;
        first [ apply (Hsafe 10%Z) | apply (Hsafe 0%Z) | apply (Hsafe 25%Z) ];
        vm_compute; discriminate. }
  destruct (proj1 allocation_is_oldest_first _ _ _ _ _ _ _ _ _ Hreach Hwhole
                  Hrun)
    as (pid & q & lots & news & Hpid & Hq & _ & Hlots & _ & _ & _ & Hal
        & Hdrain & Hsum & _).
  injection Hpid as <-. injection Hq as <-. subst lots.
  exists news. split; [exact Hal|]. split; [exact Hdrain | exact Hsum].
Defined.

(** ** Conservation on the successful path *)


(** * Further properties of the lifecycle routes *)


Lemma findRequest_replaced (db : DB) (i : oid) (r r' : DealerRequest) :
  findRequest db i = Some r -> r_id r' = r_id r ->
  findRequest (set_requests db (replace_by r_id r' (requests db))) i = Some r'
  /\ (forall j, j <> i ->
        findRequest (set_requests db (replace_by r_id r' (requests db))) j
        = findRequest db j).
Proof.
  intros Hfind Hid. pose proof (find_key_eq _ _ _ _ Hfind) as Hi.
  unfold findRequest in *. simpl. split.
  - rewrite find_replace_by, Hid, Hi, Nat.eqb_refl, Hfind. reflexivity.
  - intros j Hj. rewrite find_replace_by, Hid, Hi.
    destruct (Nat.eqb i j) eqn:E; [|reflexivity].
    apply Nat.eqb_eq in E. congruence.
Qed.





(** ** What each call may touch *)

Lemma stock_save_frame (db db' : DB) (s d : DealerStock) :
  stock_save db s = Some (db', d) ->
  users db' = users db /\ products db' = products db
  /\ requests db' = requests db /\ allocations db' = allocations db
  /\ nextId db' = nextId db.
Proof.
  intro H. apply stock_save_spec in H. destruct H as (_ & ->).
  simpl. repeat split.
Qed.

Lemma walk_frame (dealer sid pid : oid) (notes : bodyNotes)
  (lots : list DealerStock) :
  forall st : walk_state,
    let db' := match walk dealer sid pid notes lots st with
               | inl st' => w_db st'
               | inr db' => db'
               end in
    users db' = users (w_db st) /\ products db' = products (w_db st)
    /\ requests db' = requests (w_db st).
Proof.
  induction lots as [|stock rest IH]; intro st; simpl.
  - repeat split.
  - destruct (Qle_bool (remainingToAllocate st) 0); [repeat split|].
    destruct (Qltb 0 (availableStrips stock)); [|apply IH].
    destruct (notes_castable notes); [|repeat split].
    unfold allocation_insert.
    destruct (allocation_validate _); [|repeat split].
    destruct (stock_save _ _) as [[db2 saved]|] eqn:Hsave; [|repeat split].
    apply stock_save_frame in Hsave. simpl in Hsave.
    destruct Hsave as (Hu & Hp & Hr & _).
    match goal with
    | |- context [walk dealer sid pid notes rest ?s] =>
        destruct (IH s) as (H1 & H2 & H3)
    end.
    simpl in H1, H2, H3. rewrite H1, H2, H3. repeat split; assumption.
Qed.

Lemma rollback_frame (amount : Q) (updated : list DealerStock) :
  forall db : DB,
    let db' := match rollback db updated amount with
               | inl db' | inr db' => db'
               end in
    users db' = users db /\ products db' = products db
    /\ requests db' = requests db /\ allocations db' = allocations db.
Proof.
  induction updated as [|stock rest IH]; intro db; simpl.
  - repeat split.
  - destruct (stock_save db _) as [[db1 d]|] eqn:Hsave; [|repeat split].
    apply stock_save_frame in Hsave. destruct Hsave as (Hu & Hp & Hr & Ha & _).
    destruct (IH db1) as (H1 & H2 & H3 & H4).
    rewrite H1, H2, H3, H4. repeat split; assumption.
Qed.

Lemma allocate_frame (db : DB) (caller : option User)
  (salesmanId productId : idParam) (strips : jsval) (notes : bodyNotes) :
  users (fst (allocate db caller salesmanId productId strips notes)) = users db
  /\ products (fst (allocate db caller salesmanId productId strips notes))
     = products db
  /\ requests (fst (allocate db caller salesmanId productId strips notes))
     = requests db.
Proof.
  unfold allocate, guarded. destruct caller as [u|]; [|repeat split].
  destruct (verifyDealer u); [|repeat split].
  unfold allocate_handler.
  destruct salesmanId as [| |sid|]; destruct productId as [| |pid|];
    destruct (truthy strips); try (repeat split; fail);
    destruct (strips_number strips) as [q|]; try (repeat split; fail).
  destruct (findSalesman db sid (u_id u)); [|repeat split].
  destruct (findProduct db pid); [|repeat split].
  pose proof (walk_frame (u_id u) sid pid notes (dealerStocks_of db (u_id u) pid)
                         (mkWalk db q [] [])) as Hw.
  simpl in Hw.
  destruct (walk _ _ _ _ _ _) as [st|db']; [|exact Hw].
  destruct Hw as (H1 & H2 & H3).
  destruct (Qltb 0 (remainingToAllocate st)).
  - pose proof (rollback_frame (q - remainingToAllocate st) (updatedStocks st)
                  (deleteMany (w_db st) (map a_id (w_allocations st)))) as Hr.
    simpl in Hr.
    destruct (rollback _ _ _); simpl; destruct Hr as (R1 & R2 & R3 & _);
      rewrite R1, R2, R3; repeat split; assumption.
  - destruct (w_allocations st); simpl; repeat split; assumption.
Qed.

(** Case analysis on every test of a handler, innermost test first. *)
Ltac break_handler :=
  repeat match goal with
    | |- context [match ?x with _ => _ end] =>
        lazymatch x with
        | context [match _ with _ => _ end] => fail
        | _ => destruct x
        end
    end.

(** X3.  Every call keeps to its own collections.  The allocation route
    never touches the central stock, the requests or the users; of the
    lifecycle routes only approval touches the central stock and the lots,
    and none touches the allocation records. *)
Theorem calls_keep_to_their_collections :
  forall (db : DB) (o : op),
    match o with
    | Allocate _ _ _ _ _ =>
        users (step db o) = users db /\ products (step db o) = products db
        /\ requests (step db o) = requests db
    | Approve _ _ _ _ =>
        users (step db o) = users db
        /\ allocations (step db o) = allocations db
    | Catalog _ _ =>
        requests (step db o) = requests db /\ stocks (step db o) = stocks db
        /\ allocations (step db o) = allocations db
    | _ =>
        users (step db o) = users db /\ products (step db o) = products db
        /\ stocks (step db o) = stocks db
        /\ allocations (step db o) = allocations db
    end.
Proof.
  intros db o. destruct o; simpl step.
  - unfold submit, guarded, submit_handler, request_insert.
    break_handler; simpl; repeat split.
  - unfold uploadReceipt, guarded, uploadReceipt_handler, request_save.
    break_handler; simpl; repeat split.
  - unfold verifyPayment, guarded, verifyPayment_handler, request_save.
    break_handler; simpl; repeat split.
  - unfold rejectPayment, guarded, rejectPayment_handler, request_save.
    break_handler; simpl; repeat split.
  - unfold approve, guarded, approve_handler, product_save, request_save,
      openLot, stock_save, stock_insert.
    break_handler; simpl; repeat split.
  - unfold cancel, guarded, cancel_handler, request_save.
    break_handler; simpl; repeat split.
  - apply allocate_frame.
  - repeat split.
Qed.

(** ** The request state machine *)

Ltac break_handler_eqn :=
  repeat match goal with
    | |- context [match ?x with _ => _ end] =>
        lazymatch x with
        | context [match _ with _ => _ end] => fail
        | _ => destruct x eqn:?
        end
    end.

(** What one call does to the collection of requests: nothing, one new
    pending request at the end, or one transition of one stored request. *)
Lemma step_requests (db : DB) (o : op) :
  requests (step db o) = requests db
  \/ (exists i dealer product strips,
         requests (step db o)
         = requests db ++ [new_request i dealer product strips])
  \/ (exists j r r',
         findRequest db j = Some r /\ transition r r'
         /\ requests (step db o) = replace_by r_id r' (requests db)).
Proof.
  destruct o; simpl step.
  - unfold submit, guarded, submit_handler, request_insert.
    break_handler; simpl; try (left; reflexivity).
    right. left. eexists. eexists. eexists. eexists. reflexivity.
  - unfold uploadReceipt, guarded, uploadReceipt_handler, request_save.
    break_handler_eqn; simpl; try (left; reflexivity).
    right. right. eexists. eexists. eexists.
    split; [eassumption|]. split; [|reflexivity].
    apply t_upload.
    match goal with
    | H : negb (Status_eqb _ Pending) = false |- _ =>
        apply negb_false_iff, Status_eqb_eq in H; exact H
    end.
  - unfold verifyPayment, guarded, verifyPayment_handler, request_save.
    break_handler_eqn; simpl; try (left; reflexivity).
    right. right. eexists. eexists. eexists.
    split; [eassumption|]. split; [|reflexivity].
    apply t_verify.
    match goal with
    | H : negb (PaymentStatus_eqb _ Paid) = false |- _ =>
        apply negb_false_iff, PaymentStatus_eqb_eq in H; exact H
    end.
  - unfold rejectPayment, guarded, rejectPayment_handler, request_save.
    break_handler_eqn; simpl; try (left; reflexivity).
    right. right. eexists. eexists. eexists.
    split; [eassumption|]. split; [|reflexivity].
    apply t_reject.
    match goal with
    | H : negb (PaymentStatus_eqb _ Paid) = false |- _ =>
        apply negb_false_iff, PaymentStatus_eqb_eq in H; exact H
    end.
  - unfold approve, guarded, approve_handler, product_save, request_save,
      openLot, stock_save, stock_insert.
    break_handler_eqn; simpl; try (left; reflexivity);
      right; right; eexists; eexists; eexists;
      (split; [eassumption|]); (split; [|reflexivity]);
      apply t_approve;
      match goal with
      | H : negb (Status_eqb _ Pending) = false |- _ = Pending =>
          apply negb_false_iff, Status_eqb_eq in H; exact H
      | H : negb (PaymentStatus_eqb _ Verified) = false |- _ = Verified =>
          apply negb_false_iff, PaymentStatus_eqb_eq in H; exact H
      end.
  - unfold cancel, guarded, cancel_handler, request_save.
    break_handler_eqn; simpl; try (left; reflexivity).
    right. right. eexists. eexists. eexists.
    split; [eassumption|]. split; [|reflexivity].
    apply t_cancel.
    match goal with
    | H : negb (Status_eqb _ Pending) = false |- _ =>
        apply negb_false_iff, Status_eqb_eq in H; exact H
    end.
  - left. apply allocate_frame.
  - left. reflexivity.
Qed.

Lemma find_app_None {A : Type} (f : A -> bool) (l l' : list A) :
  find f l = None -> find f (l ++ l') = find f l'.
Proof.
  induction l as [|y l IH]; simpl; [reflexivity|].
  destruct (f y); [discriminate | exact IH].
Qed.

(** X4.  The request state machine.  No call removes a stored request, and a
    call that changes one makes exactly one of five moves: a receipt upload
    (only while the request is pending; the payment status becomes paid from
    whatever it was), a payment verification or rejection (only from paid),
    an approval (only from pending with the payment verified) or a
    cancellation (only from pending). *)
Theorem requests_move_by_transitions :
  forall (db : DB) (o : op) (i : oid) (r : DealerRequest),
    findRequest db i = Some r ->
    exists r',
      findRequest (step db o) i = Some r' /\ (r' = r \/ transition r r').
Proof.
  intros db o i r Hfind.
  destruct (step_requests db o) as [H | [H | H]].
  - exists r. unfold findRequest in *. rewrite H. auto.
  - destruct H as (j & d & p & q & H). exists r. unfold findRequest in *.
    rewrite H. split; [apply find_app_l, Hfind | auto].
  - destruct H as (j & rq & rq' & Hj & Ht & H).
    assert (Hid : r_id rq' = r_id rq) by (destruct Ht; reflexivity).
    pose proof (find_key_eq _ _ _ _ Hj) as Hjid.
    unfold findRequest in *. rewrite H, find_replace_by, Hid, Hjid.
    destruct (Nat.eqb j i) eqn:E.
    + apply Nat.eqb_eq in E. clear Hjid. subst j. rewrite Hfind.
      rewrite Hfind in Hj. injection Hj as Hj. subst rq.
      exists rq'. split; [reflexivity|]. right. exact Ht.
    + exists r. auto.
Qed.

Lemma requests_move_by_transitions_witness :
  exists r',
    findRequest (step paid_db (VerifyPayment (Some the_admin) (IdValid 100%nat)
                                             NotesFalsy 1%nat)) 100%nat = Some r'
    /\ (r' = paid_request \/ transition paid_request r').
Proof.
  apply (requests_move_by_transitions paid_db).
  vm_compute. reflexivity.
Defined.

Lemma transition_keeps (r r' : DealerRequest) :
  transition r r' ->
  r_id r' = r_id r /\ r_dealer r' = r_dealer r /\ r_product r' = r_product r
  /\ r_strips r' = r_strips r
  /\ (r_status r <> Pending -> r_status r' = r_status r).
Proof.
  intro H. destruct H; simpl; repeat split; try congruence.
Qed.

Lemma step_request_keeps (db : DB) (o : op) (i : oid) (r : DealerRequest) :
  findRequest db i = Some r ->
  exists r',
    findRequest (step db o) i = Some r'
    /\ r_id r' = r_id r /\ r_dealer r' = r_dealer r
    /\ r_product r' = r_product r /\ r_strips r' = r_strips r
    /\ (r_status r <> Pending -> r_status r' = r_status r).
Proof.
  intro Hfind.
  destruct (step_requests db o) as [H | [H | H]].
  - exists r. unfold findRequest in *. rewrite H. repeat split; assumption.
  - destruct H as (j & d & p & q & H). exists r. unfold findRequest in *.
    rewrite H. split; [apply find_app_l, Hfind | repeat split].
  - destruct H as (j & rq & rq' & Hj & Ht & H).
    pose proof (transition_keeps _ _ Ht) as Hkeep.
    pose proof (find_key_eq _ _ _ _ Hj) as Hjid.
    unfold findRequest in *.
    rewrite H, find_replace_by, (proj1 Hkeep), Hjid.
    destruct (Nat.eqb j i) eqn:E.
    + apply Nat.eqb_eq in E. clear Hjid. subst j. rewrite Hfind.
      rewrite Hfind in Hj. injection Hj as Hj. subst rq.
      exists rq'. split; [reflexivity|]. exact Hkeep.
    + exists r. repeat split; assumption.
Qed.

(** X5.  Over any run of calls a stored request stays stored and keeps its
    id, its dealer, its product and its quantity; and once its status is
    approved or cancelled the status never changes again. *)
Theorem requests_are_permanent :
  forall (ops : list op) (db : DB) (i : oid) (r : DealerRequest),
    findRequest db i = Some r ->
    exists r',
      findRequest (exec db ops) i = Some r'
      /\ r_id r' = r_id r /\ r_dealer r' = r_dealer r
      /\ r_product r' = r_product r /\ r_strips r' = r_strips r
      /\ (r_status r <> Pending -> r_status r' = r_status r).
Proof.
  unfold exec. induction ops as [|o ops IH]; intros db i r Hfind; simpl.
  - exists r. repeat split; assumption.
  - destruct (step_request_keeps db o i r Hfind)
      as (r1 & Hfind1 & Hkeep).
    destruct (IH _ _ _ Hfind1) as (r' & Hfind' & Hk').
    exists r'. split; [assumption|].
    destruct Hkeep as (K1 & K2 & K3 & K4 & K5).
    destruct Hk' as (L1 & L2 & L3 & L4 & L5).
    repeat split; try congruence.
    intro Hst. rewrite L5; [apply K5, Hst|]. rewrite (K5 Hst). exact Hst.
Qed.

Lemma requests_are_permanent_witness :
  exists r',
    findRequest (exec approved_db
                      [Cancel (Some the_admin) (IdValid 100%nat) NotesFalsy 9%nat])
                100%nat = Some r'
    /\ r_strips r' = 10 /\ r_status r' = Approved.
Proof.
  assert (Hfind : findRequest approved_db 100%nat
                  = Some (with_status verified_request Approved 1%nat 1%nat
                                      EmptyString))
    by (vm_compute; reflexivity).
  destruct (requests_are_permanent
              [Cancel (Some the_admin) (IdValid 100%nat) NotesFalsy 9%nat]
              approved_db 100%nat _ Hfind)
    as (r' & Hfind' & _ & _ & _ & Hq & Hst).
  exists r'. split; [exact Hfind'|]. split; [exact Hq|].
  apply Hst. simpl. discriminate.
Defined.

Lemma transition_consistent (r r' : DealerRequest) :
  transition r r' -> request_consistent r -> request_consistent r'.
Proof.
  intros Ht (Happ & Hrec). destruct Ht as [r url Hst | r a t n Hp | r a t n Hp
                                          | r a t n Hst Hp | r a t n Hst];
    unfold request_consistent; simpl.
  - split; [congruence | discriminate].
  - rewrite Hp in Hrec. split; [reflexivity | exact Hrec].
  - split; [|reflexivity]. intro H. specialize (Happ H). congruence.
  - split; [intros _; exact Hp | exact Hrec].
  - split; [discriminate | exact Hrec].
Qed.

Lemma step_consistent (db : DB) (o : op) :
  Forall request_consistent (requests db) ->
  Forall request_consistent (requests (step db o)).
Proof.
  intro H. destruct (step_requests db o) as [E | [E | E]].
  - rewrite E. exact H.
  - destruct E as (i & d & p & q & E). rewrite E. apply Forall_app.
    split; [exact H|]. constructor; [|constructor].
    unfold request_consistent; simpl. split; [discriminate | reflexivity].
  - destruct E as (j & r & r' & Hj & Ht & E). rewrite E.
    apply Forall_replace_by; [exact H|]. intros _.
    apply (transition_consistent r r' Ht).
    rewrite Forall_forall in H. apply H.
    apply find_some in Hj. apply Hj.
Qed.

(** X6.  In every store the core can reach, an approved request has its
    payment verified, and a request holds a receipt reference exactly while
    its payment status is paid or verified (none before the first upload and
    none after a rejection). *)
Theorem stored_requests_are_consistent :
  forall db : DB, reachable db -> Forall request_consistent (requests db).
Proof.
  intros db (db0 & ops & (Hr & _) & <-).
  assert (H0 : Forall request_consistent (requests db0))
    by (rewrite Hr; constructor).
  clear Hr. revert db0 H0. unfold exec.
  induction ops as [|o ops IH]; intros db0 H0; simpl; [exact H0|].
  apply IH, step_consistent, H0.
Qed.

Lemma stored_requests_are_consistent_witness :
  Forall request_consistent (requests two_lots_db).
Proof.
  apply (stored_requests_are_consistent two_lots_db).
  unfold two_lots_db. apply scenario_reachable.
Defined.

(** ** All or nothing *)




(** ** Composition of the payment calls *)

Lemma replace_by_twice {A : Type} (key : A -> oid) (d1 d2 : A) (l : list A) :
  key d1 = key d2 ->
  replace_by key d2 (replace_by key d1 l) = replace_by key d2 l.
Proof.
  intro Hk. unfold replace_by. rewrite map_map. apply map_ext. intro x.
  destruct (Nat.eqb (key x) (key d1)) eqn:E.
  - rewrite Hk, Nat.eqb_refl. rewrite Hk in E. rewrite E. reflexivity.
  - reflexivity.
Qed.

Lemma request_save_ok (db : DB) (r' : DealerRequest) :
  1 <= r_strips r' ->
  request_save db r' = Some (set_requests db (replace_by r_id r' (requests db))).
Proof.
  intro H. unfold request_save, request_validate.
  apply Qle_bool_iff in H. rewrite H. reflexivity.
Qed.

Lemma verifyPayment_run (db : DB) (admin : User) (i : oid)
  (notes : bodyNotes) (now : nat) (r : DealerRequest) :
  verifyAdmin admin = true -> findRequest db i = Some r ->
  r_paymentStatus r = Paid -> 1 <= r_strips r ->
  notes_castable notes = true ->
  verifyPayment db (Some admin) (IdValid i) notes now
  = (set_requests db
       (replace_by r_id
          (with_payment r Verified (r_receiptImage r) (Some (u_id admin))
                        (Some now) (notes_or_empty notes)) (requests db)),
     reply 200
       (MsgRequest
          (with_payment r Verified (r_receiptImage r) (Some (u_id admin))
                        (Some now) (notes_or_empty notes)))).
Proof.
  intros Hadmin Hfind Hpaid Hq Hcast. unfold verifyPayment, guarded.
  rewrite Hadmin.
  unfold verifyPayment_handler. rewrite Hfind, Hpaid, Hcast. simpl.
  rewrite request_save_ok by exact Hq. reflexivity.
Qed.

Lemma rejectPayment_run (db : DB) (admin : User) (i : oid)
  (notes : bodyNotes) (now : nat) (r : DealerRequest) :
  verifyAdmin admin = true -> findRequest db i = Some r ->
  r_paymentStatus r = Paid -> 1 <= r_strips r ->
  notes_castable notes = true ->
  rejectPayment db (Some admin) (IdValid i) notes now
  = (set_requests db
       (replace_by r_id
          (with_payment r Rejected None (Some (u_id admin)) (Some now)
                        (rejection_notes notes)) (requests db)),
     reply 200
       (MsgRequest
          (with_payment r Rejected None (Some (u_id admin)) (Some now)
                        (rejection_notes notes)))).
Proof.
  intros Hadmin Hfind Hpaid Hq Hcast. unfold rejectPayment, guarded.
  rewrite Hadmin.
  unfold rejectPayment_handler. rewrite Hfind, Hpaid, Hcast. simpl.
  rewrite request_save_ok by exact Hq. reflexivity.
Qed.

Lemma uploadReceipt_run (db : DB) (dealer : User) (i : oid) (url : string)
  (r : DealerRequest) :
  verifyDealer dealer = true -> findRequest db i = Some r ->
  r_dealer r = u_id dealer -> r_status r = Pending -> 1 <= r_strips r ->
  uploadReceipt db (Some dealer) (IdValid i) (Uploaded url)
  = (set_requests db
       (replace_by r_id
          (with_payment r Paid (Some (trim url)) (r_paymentVerifiedBy r)
                        (r_paymentVerifiedAt r) (r_paymentNotes r))
          (requests db)),
     reply 200
       (MsgRequest
          (with_payment r Paid (Some (trim url)) (r_paymentVerifiedBy r)
                        (r_paymentVerifiedAt r) (r_paymentNotes r)))).
Proof.
  intros Hdealer Hfind Hown Hst Hq. unfold uploadReceipt, guarded.
  rewrite Hdealer. unfold uploadReceipt_handler.
  rewrite Hfind, Hown, Nat.eqb_refl, Hst. simpl.
  rewrite request_save_ok by exact Hq. reflexivity.
Qed.

(** X8.  Rejecting a paid receipt, uploading a receipt again and verifying
    it, every time with notes that can be stored as text, ends where
    verifying the first receipt would have ended, except for the receipt
    reference stored on the request: the reference of the new upload with
    the blanks around it removed, and the notes of the verification
    likewise.  When the reference uploaded again is the one the request
    already holds the two stores are equal, and so is everything that
    follows (an approval, for instance). *)
Theorem reupload_round_trip :
  forall (db : DB) (dealer rejecter admin : User) (i : oid) (r : DealerRequest)
         (url : string) (notes0 notes : bodyNotes) (t0 t : nat),
    reachable db ->
    verifyDealer dealer = true -> verifyAdmin rejecter = true ->
    verifyAdmin admin = true ->
    findRequest db i = Some r ->
    r_dealer r = u_id dealer -> r_status r = Pending ->
    r_paymentStatus r = Paid ->
    notes_castable notes0 = true -> notes_castable notes = true ->
    exec db [ RejectPayment (Some rejecter) (IdValid i) notes0 t0;
              UploadReceipt (Some dealer) (IdValid i) (Uploaded url);
              VerifyPayment (Some admin) (IdValid i) notes t ]
    = set_requests db
        (replace_by r_id
           (with_payment r Verified (Some (trim url)) (Some (u_id admin))
                         (Some t) (notes_or_empty notes)) (requests db))
    /\ exec db [ VerifyPayment (Some admin) (IdValid i) notes t ]
       = set_requests db
           (replace_by r_id
              (with_payment r Verified (r_receiptImage r) (Some (u_id admin))
                            (Some t) (notes_or_empty notes)) (requests db))
    /\ (forall text, notes = NotesText text ->
                     notes_or_empty notes = trim text)
    /\ (r_receiptImage r = Some (trim url) ->
        forall rest : list op,
          exec db (RejectPayment (Some rejecter) (IdValid i) notes0 t0
                   :: UploadReceipt (Some dealer) (IdValid i) (Uploaded url)
                   :: VerifyPayment (Some admin) (IdValid i) notes t :: rest)
          = exec db (VerifyPayment (Some admin) (IdValid i) notes t :: rest)).
Proof.
  intros db dealer rejecter admin i r url notes0 notes t0 t Hreach Hdealer
         Hrej Hadmin Hfind Hown Hst Hpaid Hcast0 Hcast.
  assert (Hq : 1 <= r_strips r).
  { apply reachable_wf in Hreach. destruct Hreach as (Hr & _).
    rewrite Forall_forall in Hr. apply Hr. apply find_some in Hfind.
    apply Hfind. }
  set (r1 := with_payment r Rejected None (Some (u_id rejecter)) (Some t0)
                          (rejection_notes notes0)).
  set (db1 := set_requests db (replace_by r_id r1 (requests db))).
  set (r2 := with_payment r1 Paid (Some (trim url)) (r_paymentVerifiedBy r1)
                          (r_paymentVerifiedAt r1) (r_paymentNotes r1)).
  set (db2 := set_requests db1 (replace_by r_id r2 (requests db1))).
  assert (Hfind1 : findRequest db1 i = Some r1)
    by (apply (findRequest_replaced db i r r1 Hfind eq_refl)).
  assert (Hfind2 : findRequest db2 i = Some r2)
    by (apply (findRequest_replaced db1 i r1 r2 Hfind1 eq_refl)).
  assert (Hlong :
            exec db [ RejectPayment (Some rejecter) (IdValid i) notes0 t0;
                      UploadReceipt (Some dealer) (IdValid i) (Uploaded url);
                      VerifyPayment (Some admin) (IdValid i) notes t ]
            = set_requests db
                (replace_by r_id
                   (with_payment r Verified (Some (trim url))
                                 (Some (u_id admin))
                                 (Some t) (notes_or_empty notes))
                   (requests db))).
  { unfold exec. cbn [fold_left step].
    rewrite (rejectPayment_run db rejecter i notes0 t0 r Hrej Hfind Hpaid Hq
               Hcast0).
    cbn [fst]. fold r1. fold db1.
    rewrite (uploadReceipt_run db1 dealer i url r1 Hdealer Hfind1 Hown Hst Hq).
    cbn [fst]. fold r2. fold db2.
    rewrite (verifyPayment_run db2 admin i notes t r2 Hadmin Hfind2 eq_refl Hq
               Hcast).
    cbn [fst]. unfold db2, db1. simpl.
    rewrite !replace_by_twice by reflexivity. reflexivity. }
  assert (Hshort :
            exec db [ VerifyPayment (Some admin) (IdValid i) notes t ]
            = set_requests db
                (replace_by r_id
                   (with_payment r Verified (r_receiptImage r)
                                 (Some (u_id admin)) (Some t)
                                 (notes_or_empty notes)) (requests db))).
  { unfold exec. cbn [fold_left step].
    rewrite (verifyPayment_run db admin i notes t r Hadmin Hfind Hpaid Hq
               Hcast).
    reflexivity. }
  split; [exact Hlong|]. split; [exact Hshort|].
  split; [intros text ->; reflexivity|].
  intros Hurl rest.
  change (exec db (RejectPayment (Some rejecter) (IdValid i) notes0 t0
                   :: UploadReceipt (Some dealer) (IdValid i) (Uploaded url)
                   :: VerifyPayment (Some admin) (IdValid i) notes t :: rest))
    with (exec db ([ RejectPayment (Some rejecter) (IdValid i) notes0 t0;
                     UploadReceipt (Some dealer) (IdValid i) (Uploaded url);
                     VerifyPayment (Some admin) (IdValid i) notes t ] ++ rest)).
  change (exec db (VerifyPayment (Some admin) (IdValid i) notes t :: rest))
    with (exec db ([VerifyPayment (Some admin) (IdValid i) notes t] ++ rest)).
  unfold exec in *. rewrite !fold_left_app, Hlong, Hshort, Hurl. reflexivity.
Qed.

Lemma reupload_round_trip_witness :
  exec paid_db [ RejectPayment (Some the_admin) (IdValid 100%nat)
                               (NotesText "unreadable") 1%nat;
                 UploadReceipt (Some the_dealer) (IdValid 100%nat)
                               (Uploaded " receipt ");
                 VerifyPayment (Some the_admin) (IdValid 100%nat)
                               (NotesText " fine ") 2%nat;
                 Approve (Some the_admin) (IdValid 100%nat) NotesFalsy 3%nat ]
  = exec paid_db [ VerifyPayment (Some the_admin) (IdValid 100%nat)
                                 (NotesText " fine ") 2%nat;
                   Approve (Some the_admin) (IdValid 100%nat) NotesFalsy 3%nat ].
Proof.
  assert (Hreach : reachable paid_db)
    by (unfold paid_db; apply scenario_reachable).
  assert (Hfind : findRequest paid_db 100%nat = Some paid_request)
    by (vm_compute; reflexivity).
  assert (Hurl : r_receiptImage paid_request = Some (trim " receipt "))
    by (vm_compute; reflexivity).
  destruct (reupload_round_trip paid_db the_dealer the_admin the_admin 100%nat
              paid_request " receipt " (NotesText "unreadable")
              (NotesText " fine ") 1%nat 2%nat Hreach eq_refl
              eq_refl eq_refl Hfind eq_refl eq_refl eq_refl eq_refl eq_refl)
    as (_ & _ & _ & H).
  apply (H Hurl).
Defined.

(** ** Submission and the refusals of approval *)

(** X9.  A dealer's submission answers 201 exactly when the product id is a
    valid id of an existing product, the quantity is a number that is at
    least 1, and the central stock covers it.  It then stores one new request,
    pending with its payment pending, for that dealer, and reserves nothing:
    the central stock, the lots and the allocation records are untouched.
    When the stock is short the reply is 400 and reports the stock at hand. *)
Theorem submit_accepts_exactly :
  forall (db : DB) (dealer : User) (productId : idParam) (strips : jsval),
    verifyDealer dealer = true ->
    (code (snd (submit db (Some dealer) productId strips)) = 201%nat
     <-> exists pid q p,
           productId = IdValid pid /\ strips = JNum q /\ 1 <= q
           /\ findProduct db pid = Some p /\ q <= p_stock p)
    /\ (code (snd (submit db (Some dealer) productId strips)) = 201%nat ->
        exists r,
          requests (fst (submit db (Some dealer) productId strips))
          = requests db ++ [r]
          /\ r_id r = nextId db /\ r_dealer r = u_id dealer
          /\ r_status r = Pending /\ r_paymentStatus r = PayPending
          /\ r_receiptImage r = None
          /\ strips = JNum (r_strips r)
          /\ productId = IdValid (r_product r)
          /\ products (fst (submit db (Some dealer) productId strips))
             = products db
          /\ stocks (fst (submit db (Some dealer) productId strips)) = stocks db)
    /\ (forall pid q p,
           productId = IdValid pid -> strips = JNum q -> 1 <= q ->
           findProduct db pid = Some p -> p_stock p < q ->
           submit db (Some dealer) productId strips
           = (db, reply 400 (MsgInsufficientStock (p_stock p) q))).
Proof.
  intros db dealer productId strips Hdealer.
  unfold submit, guarded. rewrite Hdealer. unfold submit_handler.
  assert (Hnum : forall q, 1 <= q ->
                           truthy (JNum q) = true
                           /\ strips_number (JNum q) = Some q).
  { intros q Hq. split.
    - simpl. apply negb_true_iff. destruct (Qeq_bool q 0) eqn:E; [|reflexivity].
      apply Qeq_bool_iff in E. lra.
    - simpl. assert (E : Qltb q 1 = false) by (apply Qltb_ge, Hq).
      rewrite E. reflexivity. }
  split; [split|split].
  - destruct productId as [| |pid|]; destruct (truthy strips); simpl;
      try discriminate;
      destruct (strips_number strips) as [q|] eqn:Hq; simpl; try discriminate.
    destruct (findProduct db pid) as [p|] eqn:Hp; simpl; [|discriminate].
    destruct (Qltb (p_stock p) q) eqn:Hs; simpl; [discriminate|].
    intros _. destruct strips as [| | |n| |]; simpl in Hq; try discriminate.
    destruct (Qltb n 1) eqn:E; [discriminate|]. injection Hq as Hq. subst q.
    exists pid, n, p. apply Qltb_ge in E, Hs. auto.
  - intros (pid & q & p & -> & -> & Hq & Hp & Hs).
    destruct (Hnum q Hq) as (Ht & Hn). rewrite Ht, Hn, Hp.
    apply Qltb_ge in Hs. rewrite Hs.
    unfold request_insert, request_validate. simpl.
    apply Qle_bool_iff in Hq. rewrite Hq. reflexivity.
  - destruct productId as [| |pid|]; destruct (truthy strips); simpl;
      try discriminate;
      destruct (strips_number strips) as [q|] eqn:Hq; simpl; try discriminate.
    destruct (findProduct db pid) as [p|] eqn:Hp; simpl; [|discriminate].
    destruct (Qltb (p_stock p) q) eqn:Hs; simpl; [discriminate|].
    unfold request_insert.
    destruct (request_validate _) eqn:Hv; simpl; [|discriminate].
    intros _. eexists. split; [reflexivity|]. simpl.
    destruct strips as [| | |n| |]; simpl in Hq; try discriminate.
    destruct (Qltb n 1); [discriminate|]. injection Hq as Hq. subst q.
    repeat split.
  - intros pid q p -> -> Hq Hp Hs.
    destruct (Hnum q Hq) as (Ht & Hn). rewrite Ht, Hn, Hp.
    apply Qltb_lt in Hs. rewrite Hs. reflexivity.
Qed.

Lemma submit_accepts_exactly_witness :
  code (snd (submit fresh_db (Some the_dealer) (IdValid 10%nat) (JNum 10)))
  = 201%nat.
Proof.
  apply (proj1 (submit_accepts_exactly fresh_db the_dealer (IdValid 10%nat)
                  (JNum 10) eq_refl)).
  exists 10%nat, 10, (mkProduct 10%nat 1000).
  split; [reflexivity|]. split; [reflexivity|]. split; [lra|].
  split; [reflexivity | simpl; lra].
Defined.

(** X10.  The refusals of approval.  A request that is not pending is refused
    with "already <status>"; a pending, verified request whose quantity
    exceeds the central stock at that moment is refused with "insufficient
    stock" even though it passed the check at submission; an unknown request
    id gets 404.  In each case the store is left as it was. *)
Theorem approve_refusals :
  forall (db : DB) (admin : User) (i : oid) (notes : bodyNotes) (now : nat),
    verifyAdmin admin = true ->
    (findRequest db i = None ->
     approve db (Some admin) (IdValid i) notes now
     = (db, reply 404 MsgRequestNotFound))
    /\ (forall r,
           findRequest db i = Some r -> r_status r <> Pending ->
           approve db (Some admin) (IdValid i) notes now
           = (db, reply 400 (MsgAlready (r_status r))))
    /\ (forall r p,
           findRequest db i = Some r -> r_status r = Pending ->
           r_paymentStatus r = Verified ->
           findProduct db (r_product r) = Some p ->
           p_stock p < r_strips r ->
           approve db (Some admin) (IdValid i) notes now
           = (db, reply 400 MsgInsufficientToApprove)).
Proof.
  intros db admin i notes now Hadmin.
  unfold approve, guarded. rewrite Hadmin. unfold approve_handler.
  split; [|split].
  - intros ->. reflexivity.
  - intros r -> Hst.
    destruct (Status_eqb (r_status r) Pending) eqn:E; [|reflexivity].
    apply Status_eqb_eq in E. contradiction.
  - intros r p -> Hst Hpay Hp Hs. rewrite Hst, Hpay, Hp. simpl.
    apply Qltb_lt in Hs. rewrite Hs. reflexivity.
Qed.

Lemma approve_refusals_witness :
  approve approved_db (Some the_admin) (IdValid 100%nat) NotesFalsy 4%nat
  = (approved_db, reply 400 (MsgAlready Approved)).
Proof.
  assert (Hfind : findRequest approved_db 100%nat
                  = Some (with_status verified_request Approved 1%nat 1%nat
                                      EmptyString))
    by (vm_compute; reflexivity).
  destruct (approve_refusals approved_db the_admin 100%nat NotesFalsy 4%nat eq_refl)
    as (_ & H & _).
  apply (H _ Hfind). simpl. discriminate.
Defined.

(** * Further properties of the allocation route *)

(** What a 400 "insufficient stock" reply of [POST /allocate] says about the
    call. *)
Lemma allocate_insufficient_inv (db db' : DB) (caller : User)
  (salesmanId productId : idParam) (strips : jsval) (notes : bodyNotes)
  (a q' : Q) :
  allocate db (Some caller) salesmanId productId strips notes
  = (db', reply 400 (MsgInsufficientStock a q')) ->
  exists (sid pid : oid) (q : Q) (st : walk_state),
    salesmanId = IdValid sid /\ productId = IdValid pid /\ strips = JNum q
    /\ 1 <= q /\ q' = q
    /\ walk (u_id caller) sid pid notes (dealerStocks_of db (u_id caller) pid)
            (mkWalk db q [] []) = inl st
    /\ 0 < remainingToAllocate st
    /\ a = q - remainingToAllocate st
    /\ rollback (deleteMany (w_db st) (map a_id (w_allocations st)))
                (updatedStocks st) (q - remainingToAllocate st) = inl db'.
Proof.
  intro Hrun. unfold allocate, guarded in Hrun.
  destruct (verifyDealer caller); [|discriminate].
  unfold allocate_handler in Hrun.
  destruct salesmanId as [| |sid|]; destruct productId as [| |pid|];
    destruct (truthy strips); try discriminate;
    destruct (strips_number strips) as [q|] eqn:Hq; try discriminate.
  all: try (destruct (findSalesman db sid (u_id caller)); discriminate).
  destruct (findSalesman db sid (u_id caller)) as [salesman|]; [|discriminate].
  destruct (findProduct db pid) as [product|]; [|discriminate].
  destruct (walk _ _ _ _ _ _) as [st|dbx] eqn:Hwalk; [|discriminate].
  destruct (Qltb 0 (remainingToAllocate st)) eqn:Hrem.
  2:{ destruct (w_allocations st); discriminate. }
  destruct (rollback _ _ _) as [dbr|dbr] eqn:Hroll; [|discriminate].
  injection Hrun as <- <- <-.
  destruct strips as [| | |n| |]; simpl in Hq; try discriminate.
  destruct (Qltb n 1) eqn:E; [discriminate|]. injection Hq as Hq. subst q.
  exists sid, pid, n, st. apply Qltb_ge in E. apply Qltb_lt in Hrem.
  repeat split; assumption.
Qed.

Lemma drain_nonneg (lots : list DealerStock) (remaining : Q)
  (records : list StockAllocation) :
  fifo_drain lots remaining records -> 0 <= sum_strips records.
Proof.
  intro Hdrain. induction Hdrain as [lots remaining Hle | remaining
    | lot lots remaining records Hpos Hav Hd IH
    | lot lots remaining record records Hpos Hav Href Hstrips Hd IH];
    unfold sum_strips in *; simpl; try lra.
  rewrite Hstrips.
  destruct (Qmin_cases (availableStrips lot) remaining)
    as [(_ & ->) | (_ & ->)]; lra.
Qed.

(** When the walk ends with something still to allocate, every lot has given
    all it had. *)
Lemma drain_exhausts (lots : list DealerStock) (remaining : Q)
  (records : list StockAllocation) :
  fifo_drain lots remaining records ->
  Forall lot_inv lots ->
  0 < remaining - sum_strips records ->
  sum_strips records == total_available lots.
Proof.
  intros Hdrain. induction Hdrain as [lots remaining Hle | remaining
    | lot lots remaining records Hpos Hav Hd IH
    | lot lots remaining record records Hpos Hav Href Hstrips Hd IH];
    intros Hinv Hleft.
  - unfold sum_strips in Hleft. simpl in Hleft. lra.
  - unfold sum_strips, total_available. simpl. lra.
  - inversion Hinv as [|? ? (H1 & H2 & H3) Hinv']; subst.
    specialize (IH Hinv' Hleft). unfold total_available in *. simpl.
    rewrite IH. lra.
  - inversion Hinv as [|? ? (H1 & H2 & H3) Hinv']; subst.
    unfold sum_strips in Hleft. simpl in Hleft.
    fold (sum_strips records) in Hleft.
    assert (Hrest : 0 < remaining - a_strips record - sum_strips records)
      by lra.
    specialize (IH Hinv' Hrest).
    assert (Hall : a_strips record = availableStrips lot).
    { rewrite Hstrips.
      destruct (Qmin_cases (availableStrips lot) remaining)
        as [(_ & E) | (Hlt & E)]; [exact E|].
      exfalso. rewrite Hstrips, E in Hrest.
      pose proof (drain_nonneg _ _ _ Hd). lra. }
    unfold sum_strips, total_available in *. simpl. rewrite Hall, IH. lra.
Qed.

(** X11.  Where the quantity asked and the counts of the caller's lots are
    whole numbers below 2^53, the amount an "insufficient stock" reply of
    the allocation route reports is what the dealer's lots for that product
    really had available before the call, and it is less than the quantity
    asked. *)
Theorem insufficient_reply_reports_availability :
  forall (db db' : DB) (caller : User) (salesmanId productId : idParam)
         (strips : jsval) (notes : bodyNotes) (available requested : Q),
    reachable db ->
    whole_quantities db caller strips ->
    allocate db (Some caller) salesmanId productId strips notes
    = (db', reply 400 (MsgInsufficientStock available requested)) ->
    exists pid : oid,
      productId = IdValid pid
      /\ strips = JNum requested
      /\ safe_integer requested
      /\ Forall safe_lot (dealerStocks_of db (u_id caller) pid)
      /\ available
         == total_available (dealerStocks_of db (u_id caller) pid)
      /\ available < requested.
Proof.
  intros db db' caller salesmanId productId strips notes available requested
         Hreach (Hwq & Hwl) Hrun.
  pose proof (reachable_wf _ Hreach) as (_ & Hinv & Hnd & _ & _).
  destruct (allocate_insufficient_inv _ _ _ _ _ _ _ _ _ Hrun)
    as (sid & pid & q & st & -> & -> & -> & Hq1 & -> & Hwalk & Hrem & -> & _).
  set (lots := dealerStocks_of db (u_id caller) pid) in *.
  assert (Hin : forall s, In s lots -> In s (stocks db)).
  { intros s Hs. apply dealerStocks_of_In in Hs. apply Hs. }
  assert (Hlots : Forall lot_inv lots).
  { apply Forall_forall. intros s Hs. rewrite Forall_forall in Hinv.
    apply Hinv, Hin, Hs. }
  destruct (walk_spec _ _ _ _ lots _ _ Hwalk)
    as (news & _ & _ & Hdrain & Hsum & _).
  - apply dealerStocks_of_NoDup, Hnd.
  - exact Hlots.
  - apply Forall_forall. intros s Hs. simpl.
    apply (find_NoDup_In s_id (stocks db) s Hnd (Hin s Hs)).
  - cbn [remainingToAllocate] in Hdrain, Hsum. exists pid.
    split; [reflexivity|]. split; [reflexivity|].
    split; [apply Hwq; reflexivity|].
    split.
    { apply Forall_forall. intros s Hs. apply dealerStocks_of_In in Hs.
      destruct Hs as (Hs1 & Hs2 & _). apply Hwl; assumption. }
    assert (Hleft : 0 < q - sum_strips news) by (rewrite <- Hsum; exact Hrem).
    pose proof (drain_exhausts _ _ _ Hdrain Hlots Hleft) as Hall.
    fold lots. split; lra.
Qed.

Lemma insufficient_reply_reports_availability_witness :
  exists pid : oid,
    IdValid 10%nat = IdValid pid
    /\ JNum 1000 = JNum 1000
    /\ safe_integer 1000
    /\ Forall safe_lot (dealerStocks_of approved_db 2%nat pid)
    /\ 10 == total_available (dealerStocks_of approved_db 2%nat pid)
    /\ 10 < 1000.
Proof.
  assert (Hreach : reachable approved_db)
    by (unfold approved_db; apply scenario_reachable).
  assert (Hrun :
            allocate approved_db (Some the_dealer) (IdValid 3%nat)
                     (IdValid 10%nat) (JNum 1000) NotesFalsy
            = (fst (allocate_strips approved_db 1000),
               reply 400 (MsgInsufficientStock 10 1000)))
    by (vm_compute; reflexivity).
  assert (Hsafe : forall n : Z,
             (Z.abs n <= 9007199254740991)%Z -> safe_integer (inject_Z n))
    by (intros n Hn; exists n; split; [reflexivity | exact Hn]).
  assert (Hwhole : whole_quantities approved_db the_dealer (JNum 1000)).
  { split.
    - intros q Hq. injection Hq as <-. apply (Hsafe 1000%Z). vm_compute.
      discriminate.
    - intros s Hs _.
      assert (E : stocks approved_db
                  = [mkStock 101%nat 2%nat 10%nat 10 0 10 100%nat 1%nat])
        by (vm_compute; reflexivity).
      rewrite E in Hs.
      destruct Hs as [<- | []]; unfold safe_lot; simpl; repeat split;
        first [ apply (Hsafe 10%Z) | apply (Hsafe 0%Z) ];
        vm_compute; discriminate. }
  exact (insufficient_reply_reports_availability _ _ _ _ _ _ _ _ _ Hreach
           Hwhole Hrun).
Defined.

(** ** Lots that a call does not own *)

Lemma NoDup_map_inj {A : Type} (key : A -> oid) (l : list A) (x y : A) :
  NoDup (map key l) -> In x l -> In y l -> key x = key y -> x = y.
Proof.
  intros Hnd Hx Hy Hk.
  pose proof (find_NoDup_In key l x Hnd Hx) as Fx.
  pose proof (find_NoDup_In key l y Hnd Hy) as Fy.
  rewrite Hk in Fx. congruence.
Qed.

Lemma stock_save_other (db db' : DB) (s d : DealerStock) (i : oid) :
  stock_save db s = Some (db', d) -> i <> s_id s ->
  findStock db' i = findStock db i.
Proof.
  intros H Hi. rewrite (findStock_stock_save _ _ _ _ i H).
  destruct (Nat.eqb (s_id s) i) eqn:E; [|reflexivity].
  apply Nat.eqb_eq in E. congruence.
Qed.

Lemma stock_save_id (db db' : DB) (s d : DealerStock) :
  stock_save db s = Some (db', d) -> s_id d = s_id s.
Proof.
  intro H. apply stock_save_spec in H. destruct H as (-> & _). reflexivity.
Qed.

Section WalkFrame.

Variables (dealer sid pid : oid) (notes : bodyNotes).

(** The loop writes to the lots it walks and to no other. *)
Lemma walk_other_lots (lots : list DealerStock) (i : oid) :
  ~ In i (map s_id lots) ->
  forall st : walk_state,
    match walk dealer sid pid notes lots st with
    | inl st' =>
        findStock (w_db st') i = findStock (w_db st) i
        /\ (forall u, In u (updatedStocks st') ->
                      In u (updatedStocks st) \/ In (s_id u) (map s_id lots))
    | inr db' => findStock db' i = findStock (w_db st) i
    end.
Proof.
  induction lots as [|stock rest IH]; intros Hi st; simpl.
  - split; [reflexivity | auto].
  - destruct (Qle_bool (remainingToAllocate st) 0); [split; [reflexivity|auto]|].
    simpl in Hi.
    assert (Hrest : ~ In i (map s_id rest)) by tauto.
    assert (Hne : i <> s_id stock) by (intro E; apply Hi; left; congruence).
    destruct (Qltb 0 (availableStrips stock)).
    + destruct (notes_castable notes); [|reflexivity].
      unfold allocation_insert.
      destruct (allocation_validate _); [|reflexivity].
      destruct (stock_save _ _) as [[db2 saved]|] eqn:Hsave; [|reflexivity].
      pose proof (stock_save_other _ _ _ _ i Hsave Hne) as Hsame.
      pose proof (stock_save_id _ _ _ _ Hsave) as Hid. simpl in Hid.
      match goal with
      | |- context [walk dealer sid pid notes rest ?s] =>
          specialize (IH Hrest s); destruct (walk dealer sid pid notes rest s)
      end.
      * destruct IH as (H1 & H2). simpl in H1, H2.
        split; [rewrite H1, Hsame; reflexivity|].
        intros u Hu. destruct (H2 u Hu) as [Hin | Hin].
        -- apply in_app_or in Hin. destruct Hin as [Hin | [<- | []]].
           ++ left. exact Hin.
           ++ right. left. symmetry. exact Hid.
        -- right. right. exact Hin.
      * simpl in IH. rewrite IH, Hsame. reflexivity.
    + specialize (IH Hrest st).
      destruct (walk dealer sid pid notes rest st).
      * destruct IH as (H1 & H2). split; [exact H1|].
        intros u Hu. destruct (H2 u Hu); [left | right; right]; assumption.
      * exact IH.
Qed.

End WalkFrame.

Lemma rollback_other_lots (amount : Q) (updated : list DealerStock) (i : oid) :
  ~ In i (map s_id updated) ->
  forall db : DB,
    findStock (match rollback db updated amount with
               | inl db' | inr db' => db'
               end) i = findStock db i.
Proof.
  induction updated as [|stock rest IH]; intros Hi db; simpl.
  - reflexivity.
  - simpl in Hi.
    destruct (stock_save db _) as [[db1 d]|] eqn:Hsave; [|reflexivity].
    rewrite IH by tauto.
    apply (stock_save_other _ _ _ _ i Hsave). simpl. intro E. apply Hi.
    left. congruence.
Qed.

(** X12.  An allocation call, whatever its outcome, leaves every lot of
    another dealer and every lot of another product exactly as it was. *)
Theorem allocation_leaves_other_lots_alone :
  forall (db : DB) (caller : User) (salesmanId : idParam) (pid : oid)
         (strips : jsval) (notes : bodyNotes) (s : DealerStock),
    reachable db ->
    In s (stocks db) ->
    s_dealer s <> u_id caller \/ s_product s <> pid ->
    findStock (fst (allocate db (Some caller) salesmanId (IdValid pid) strips
                             notes)) (s_id s) = Some s.
Proof.
  intros db caller salesmanId pid strips notes s Hreach Hin Hother.
  pose proof (reachable_wf _ Hreach) as (_ & _ & Hnd & _ & _).
  pose proof (find_NoDup_In s_id (stocks db) s Hnd Hin) as Hfind.
  fold (findStock db (s_id s)) in Hfind.
  unfold allocate, guarded. destruct (verifyDealer caller); [|exact Hfind].
  unfold allocate_handler.
  destruct salesmanId as [| |sid|]; destruct (truthy strips); try exact Hfind;
    destruct (strips_number strips) as [q|]; try exact Hfind.
  destruct (findSalesman db sid (u_id caller)) as [salesman|]; [|exact Hfind].
  destruct (findProduct db pid) as [product|]; [|exact Hfind].
  set (lots := dealerStocks_of db (u_id caller) pid).
  assert (Hout : ~ In (s_id s) (map s_id lots)).
  { intro H. apply in_map_iff in H. destruct H as (s2 & Hid & Hs2).
    apply dealerStocks_of_In in Hs2. destruct Hs2 as (Hs2 & Hd & Hp).
    assert (s2 = s) by (apply (NoDup_map_inj s_id (stocks db)); assumption).
    subst s2. tauto. }
  pose proof (walk_other_lots (u_id caller) sid pid notes lots (s_id s) Hout
                              (mkWalk db q [] [])) as Hwalk.
  destruct (walk _ _ _ _ lots _) as [st|db']; simpl; [|simpl in Hwalk; congruence].
  destruct Hwalk as (Hw & Hupd). simpl in Hw, Hupd.
  destruct (Qltb 0 (remainingToAllocate st)).
  - assert (Hout' : ~ In (s_id s) (map s_id (updatedStocks st))).
    { intro H. apply in_map_iff in H. destruct H as (doc & Hid & Hdoc).
      destruct (Hupd doc Hdoc) as [[] | H]. apply Hout. rewrite <- Hid.
      exact H. }
    pose proof (rollback_other_lots (q - remainingToAllocate st)
                  (updatedStocks st) (s_id s) Hout'
                  (deleteMany (w_db st) (map a_id (w_allocations st)))) as Hr.
    destruct (rollback _ _ _); simpl; rewrite Hr; unfold findStock in *;
      simpl; congruence.
  - destruct (w_allocations st); simpl; congruence.
Qed.

Lemma allocation_leaves_other_lots_alone_witness :
  findStock (fst (allocate two_lots_db (Some the_dealer) (IdValid 3%nat)
                           (IdValid 11%nat) (JNum 5) NotesFalsy)) 101%nat
  = Some (mkStock 101%nat 2%nat 10%nat 10 0 10 100%nat 1%nat).
Proof.
  assert (Hreach : reachable two_lots_db)
    by (unfold two_lots_db; apply scenario_reachable).
  assert (Hin : In (mkStock 101%nat 2%nat 10%nat 10 0 10 100%nat 1%nat)
                   (stocks two_lots_db))
    by (vm_compute; left; reflexivity).
  apply (allocation_leaves_other_lots_alone two_lots_db the_dealer
           (IdValid 3%nat) 11%nat (JNum 5) NotesFalsy _ Hreach Hin).
  right. simpl. discriminate.
Defined.

(** ** Conservation of units *)

Lemma same_lot_refl (s : DealerStock) : same_lot s s.
Proof. unfold same_lot. repeat split. Qed.

Lemma same_lot_trans (a b c : DealerStock) :
  same_lot a b -> same_lot b c -> same_lot a c.
Proof.
  unfold same_lot. intros (A1 & A2 & A3 & A4 & A5 & A6) (B1 & B2 & B3 & B4 & B5 & B6).
  repeat split; congruence.
Qed.

Lemma same_lot_sym (a b : DealerStock) : same_lot a b -> same_lot b a.
Proof.
  unfold same_lot. intros (A1 & A2 & A3 & A4 & A5 & A6).
  repeat split; congruence.
Qed.

Lemma total_replace_by (pid : oid) (d : DealerStock) (l : list DealerStock) :
  (forall y, In y l -> s_id y = s_id d -> same_lot y d) ->
  map totalStrips (filter (fun s => Nat.eqb (s_product s) pid)
                          (replace_by s_id d l))
  = map totalStrips (filter (fun s => Nat.eqb (s_product s) pid) l).
Proof.
  unfold replace_by. induction l as [|y l IH]; intro H; simpl; [reflexivity|].
  assert (IH' := IH (fun z Hz => H z (or_intror Hz))).
  destruct (Nat.eqb (s_id y) (s_id d)) eqn:E.
  - apply Nat.eqb_eq in E.
    destruct (H y (or_introl eq_refl) E) as (_ & _ & Hp & Ht & _).
    rewrite Hp. destruct (Nat.eqb (s_product y) pid); simpl; [|exact IH'].
    rewrite Ht, IH'. reflexivity.
  - destruct (Nat.eqb (s_product y) pid); simpl; [|exact IH'].
    rewrite IH'. reflexivity.
Qed.

(** Saving a version of a stored lot keeps the lots what they were, counts
    apart. *)
Lemma stock_save_in_sync (db db' : DB) (s d : DealerStock) :
  NoDup (map s_id (stocks db)) ->
  in_sync db [s] ->
  stock_save db s = Some (db', d) ->
  NoDup (map s_id (stocks db'))
  /\ (forall pid, lots_total db' pid = lots_total db pid)
  /\ (forall docs, in_sync db docs -> in_sync db' docs)
  /\ in_sync db' [d].
Proof.
  intros Hnd Hs Hsave.
  inversion Hs as [|? ? (x & Hx & Hxs) _]; subst.
  pose proof (stock_save_spec _ _ _ _ Hsave) as (Hd & Hdb).
  assert (Hsd : same_lot s d) by (rewrite Hd; unfold same_lot; simpl; repeat split).
  assert (Hxd : same_lot x d) by (apply (same_lot_trans x s d); assumption).
  assert (Hfind : forall i,
             findStock db' i =
             if Nat.eqb (s_id s) i
             then match findStock db i with Some _ => Some d | None => None end
             else findStock db i)
    by (intro i; apply (findStock_stock_save _ _ _ _ i Hsave)).
  split; [|split; [|split]].
  - rewrite Hdb. simpl. rewrite replace_by_keys. exact Hnd.
  - intro pid. unfold lots_total. rewrite Hdb. simpl.
    rewrite total_replace_by; [reflexivity|].
    intros y Hy Hid.
    assert (y = x).
    { unfold findStock in Hx. apply find_some in Hx. destruct Hx as (Hxin & Hxid).
      apply Nat.eqb_eq in Hxid.
      apply (NoDup_map_inj s_id (stocks db)); try assumption.
      destruct Hsd as (Hsid & _). congruence. }
    subst y. exact Hxd.
  - intros docs Hdocs. unfold in_sync in *. rewrite Forall_forall in *.
    intros m Hm. destruct (Hdocs m Hm) as (xm & Hxm & Hsame).
    rewrite Hfind. destruct (Nat.eqb (s_id s) (s_id m)) eqn:E.
    + apply Nat.eqb_eq in E. rewrite Hxm. exists d. split; [reflexivity|].
      rewrite <- E, Hx in Hxm. injection Hxm as <-.
      apply (same_lot_trans d x m); [apply same_lot_sym, Hxd | exact Hsame].
    + exists xm. auto.
  - constructor; [|constructor]. exists d. split; [|apply same_lot_refl].
    rewrite Hfind. destruct Hsd as (Hsid & _).
    rewrite Hsid, Nat.eqb_refl, Hx. reflexivity.
Qed.

Lemma in_sync_cons (db : DB) (m : DealerStock) (docs : list DealerStock) :
  in_sync db (m :: docs) <-> in_sync db [m] /\ in_sync db docs.
Proof.
  unfold in_sync. split.
  - intro H. inversion H; subst. split; [constructor; [assumption|constructor]|assumption].
  - intros (H1 & H2). inversion H1; subst. constructor; assumption.
Qed.

Lemma in_sync_app (db : DB) (l l' : list DealerStock) :
  in_sync db (l ++ l') <-> in_sync db l /\ in_sync db l'.
Proof. unfold in_sync. apply Forall_app. Qed.

Lemma in_sync_same_stocks (db db' : DB) (docs : list DealerStock) :
  stocks db' = stocks db -> in_sync db docs -> in_sync db' docs.
Proof.
  intros H. unfold in_sync, findStock. rewrite H. exact (fun x => x).
Qed.

Lemma in_sync_versioned (db : DB) (s s' : DealerStock) :
  same_lot s s' -> in_sync db [s] -> in_sync db [s'].
Proof.
  intros Hss H. inversion H as [|? ? (x & Hx & Hxs) _]; subst.
  constructor; [|constructor]. exists x.
  rewrite (proj1 Hss). split; [exact Hx|].
  apply (same_lot_trans x s s'); assumption.
Qed.

Section WalkTotals.

Variables (dealer sid pid : oid) (notes : bodyNotes).

Lemma walk_totals (lots : list DealerStock) :
  forall st : walk_state,
    NoDup (map s_id (stocks (w_db st))) ->
    in_sync (w_db st) lots ->
    in_sync (w_db st) (updatedStocks st) ->
    match walk dealer sid pid notes lots st with
    | inl st' =>
        NoDup (map s_id (stocks (w_db st')))
        /\ (forall p, lots_total (w_db st') p = lots_total (w_db st) p)
        /\ in_sync (w_db st') (updatedStocks st')
    | inr db' =>
        forall p, lots_total db' p = lots_total (w_db st) p
    end.
Proof.
  induction lots as [|stock rest IH]; intros st Hnd Hlots Hupd; simpl.
  - split; [assumption | split; [reflexivity | assumption]].
  - destruct (Qle_bool (remainingToAllocate st) 0);
      [split; [assumption | split; [reflexivity | assumption]]|].
    apply in_sync_cons in Hlots. destruct Hlots as (Hstock & Hrest).
    destruct (Qltb 0 (availableStrips stock)); [|apply IH; assumption].
    destruct (notes_castable notes); [|reflexivity].
    unfold allocation_insert.
    destruct (allocation_validate _); [|reflexivity].
    match goal with
    | |- context [stock_save ?d ?s] =>
        set (db1 := d); set (stock' := s)
    end.
    assert (Hst1 : stocks db1 = stocks (w_db st)) by reflexivity.
    assert (Hnd1 : NoDup (map s_id (stocks db1))) by (rewrite Hst1; exact Hnd).
    assert (Hsync1 : in_sync db1 [stock']).
    { apply (in_sync_versioned db1 stock stock').
      - unfold same_lot, stock'. simpl. repeat split.
      - apply (in_sync_same_stocks (w_db st)); [exact Hst1 | exact Hstock]. }
    destruct (stock_save db1 stock') as [[db2 saved]|] eqn:Hsave;
      [|intro p; unfold lots_total; rewrite Hst1; reflexivity].
    destruct (stock_save_in_sync db1 db2 stock' saved Hnd1 Hsync1 Hsave)
      as (Hnd2 & Htot2 & Hkeep & Hsaved).
    assert (Hrest2 : in_sync db2 rest).
    { apply Hkeep. apply (in_sync_same_stocks (w_db st)); assumption. }
    assert (Hupd2 : in_sync db2 (updatedStocks st ++ [saved])).
    { apply in_sync_app. split; [|exact Hsaved].
      apply Hkeep. apply (in_sync_same_stocks (w_db st)); assumption. }
    match goal with
    | |- context [walk dealer sid pid notes rest ?s] =>
        specialize (IH s Hnd2 Hrest2 Hupd2);
        destruct (walk dealer sid pid notes rest s)
    end.
    + destruct IH as (H1 & H2 & H3). split; [exact H1|]. split; [|exact H3].
      intro p. rewrite H2. simpl. rewrite Htot2. unfold lots_total.
      rewrite Hst1. reflexivity.
    + intro p. rewrite IH. simpl. rewrite Htot2. unfold lots_total.
      rewrite Hst1. reflexivity.
Qed.

End WalkTotals.

Lemma rollback_totals (amount : Q) (updated : list DealerStock) :
  forall db : DB,
    NoDup (map s_id (stocks db)) ->
    in_sync db updated ->
    forall p,
      lots_total (match rollback db updated amount with
                  | inl db' | inr db' => db'
                  end) p = lots_total db p.
Proof.
  induction updated as [|stock rest IH]; intros db Hnd Hupd p; simpl.
  - reflexivity.
  - apply in_sync_cons in Hupd. destruct Hupd as (Hstock & Hrest).
    match goal with
    | |- context [stock_save db ?s] => set (stock' := s)
    end.
    assert (Hsync : in_sync db [stock']).
    { apply (in_sync_versioned db stock stock'); [|exact Hstock].
      unfold same_lot, stock'. simpl. repeat split. }
    destruct (stock_save db stock') as [[db1 d]|] eqn:Hsave; [|reflexivity].
    destruct (stock_save_in_sync db db1 stock' d Hnd Hsync Hsave)
      as (Hnd1 & Htot1 & Hkeep & _).
    rewrite IH; [apply Htot1 | exact Hnd1 | apply Hkeep, Hrest].
Qed.

Lemma allocate_keeps_totals (db : DB) (caller : option User)
  (salesmanId productId : idParam) (strips : jsval) (notes : bodyNotes)
  (p : oid) :
  wf_db db ->
  lots_total (fst (allocate db caller salesmanId productId strips notes)) p
  = lots_total db p.
Proof.
  intros (_ & _ & Hnd & _ & _).
  unfold allocate, guarded. destruct caller as [u|]; [|reflexivity].
  destruct (verifyDealer u); [|reflexivity].
  unfold allocate_handler.
  destruct salesmanId as [| |sid|]; destruct productId as [| |pid|];
    destruct (truthy strips); try reflexivity;
    destruct (strips_number strips) as [q|]; try reflexivity.
  destruct (findSalesman db sid (u_id u)) as [salesman|]; [|reflexivity].
  destruct (findProduct db pid) as [product|]; [|reflexivity].
  set (lots := dealerStocks_of db (u_id u) pid).
  assert (Hsync : in_sync db lots).
  { unfold in_sync. apply Forall_forall. intros s Hs.
    apply dealerStocks_of_In in Hs. destruct Hs as (Hs & _).
    exists s. split; [|apply same_lot_refl].
    apply (find_NoDup_In s_id (stocks db) s Hnd Hs). }
  pose proof (walk_totals (u_id u) sid pid notes lots (mkWalk db q [] [])
                          Hnd Hsync (Forall_nil _)) as Hw.
  destruct (walk _ _ _ _ lots _) as [st|db']; simpl; [|apply Hw].
  destruct Hw as (Hnd' & Htot & Hupd). simpl in Htot.
  destruct (Qltb 0 (remainingToAllocate st)).
  - pose proof (rollback_totals (q - remainingToAllocate st) (updatedStocks st)
                  (deleteMany (w_db st) (map a_id (w_allocations st)))
                  Hnd' (in_sync_same_stocks _ _ _ eq_refl Hupd) p) as Hr.
    destruct (rollback _ _ _); simpl; rewrite Hr; apply Htot.
  - destruct (w_allocations st); simpl; apply Htot.
Qed.

(** In a well-formed store an approval either changes nothing, or does all
    of its three writes, or, when its notes cannot be stored as text, stops
    after the first of them. *)
Lemma approve_handler_cases (db : DB) (id : idParam) (notes : bodyNotes)
  (now : nat) (caller : User) :
  wf_db db ->
  fst (approve_handler db id notes now caller) = db
  \/ exists i r p,
       id = IdValid i /\ findRequest db i = Some r
       /\ r_status r = Pending
       /\ findProduct db (r_product r) = Some p
       /\ r_strips r <= p_stock p
       /\ ((notes_castable notes = true
            /\ fst (approve_handler db id notes now caller)
               = mkDB (users db)
                      (replace_by p_id
                         (mkProduct (p_id p) (p_stock p - r_strips r))
                         (products db))
                      (replace_by r_id
                         (with_status r Approved (u_id caller) now
                                      (notes_or_empty notes)) (requests db))
                      (stocks db
                       ++ [mkStock (nextId db) (r_dealer r) (p_id p)
                                   (r_strips r) 0 (r_strips r - 0) (r_id r)
                                   now])
                      (allocations db) (S (nextId db)))
           \/ (notes_castable notes = false
               /\ fst (approve_handler db id notes now caller)
                  = set_products db
                      (replace_by p_id
                         (mkProduct (p_id p) (p_stock p - r_strips r))
                         (products db)))).
Proof.
  intro Hwf. unfold approve_handler.
  destruct id as [| |i|]; try (left; reflexivity).
  destruct (findRequest db i) as [r|] eqn:Hfind; [|left; reflexivity].
  destruct (Status_eqb (r_status r) Pending) eqn:Hst; simpl;
    [|left; reflexivity].
  destruct (PaymentStatus_eqb (r_paymentStatus r) Verified) eqn:Hpay; simpl;
    [|left; reflexivity].
  destruct (findProduct db (r_product r)) as [p|] eqn:Hprod; [|left; reflexivity].
  destruct (Qltb (p_stock p) (r_strips r)) eqn:Hstock; [left; reflexivity|].
  right. exists i, r, p.
  apply Status_eqb_eq in Hst. apply Qltb_ge in Hstock.
  split; [reflexivity|]. split; [exact Hfind|]. split; [exact Hst|].
  split; [exact Hprod|]. split; [exact Hstock|].
  assert (Hstrips : 1 <= r_strips r).
  { destruct Hwf as (Hr & _). rewrite Forall_forall in Hr. apply Hr.
    apply find_some in Hfind. apply Hfind. }
  assert (E2 : product_validate (mkProduct (p_id p) (p_stock p - r_strips r))
               = true).
  { unfold product_validate. simpl. apply Qle_bool_iff. lra. }
  unfold product_save. rewrite E2.
  destruct (notes_castable notes) eqn:Hcast; [left | right; split; reflexivity].
  split; [reflexivity|].
  assert (E3 : request_validate
                 (with_status r Approved (u_id caller) now (notes_or_empty notes))
               = true).
  { unfold request_validate. simpl. apply Qle_bool_iff, Hstrips. }
  unfold request_save. rewrite E3. unfold openLot. simpl.
  rewrite (no_lot_for_pending db i r _ Hwf Hfind Hst).
  2:{ intros s Hs. apply andb_true_iff in Hs. destruct Hs as (_ & Hs).
      apply Nat.eqb_eq in Hs. rewrite (find_key_eq _ _ _ _ Hfind) in Hs.
      exact Hs. }
  unfold stock_insert, stock_document, stock_validate, stock_pre_save. simpl.
  assert (H0 : Qle_bool 0 (r_strips r) = true) by (apply Qle_bool_iff; lra).
  rewrite H0. simpl.
  assert (H1 : Qltb (r_strips r - 0) 0 = false) by (apply Qltb_ge; lra).
  rewrite H1. reflexivity.
Qed.

Lemma fold_right_Qplus_app (l l' : list Q) :
  fold_right Qplus 0 (l ++ l') == fold_right Qplus 0 l + fold_right Qplus 0 l'.
Proof.
  induction l as [|x l IH]; simpl; [lra|]. rewrite IH. lra.
Qed.

Lemma approve_keeps_units (db : DB) (caller : option User) (id : idParam)
  (notes : bodyNotes) (now : nat) (pid : oid) :
  wf_db db ->
  (notes_castable notes = true ->
   units (fst (approve db caller id notes now)) pid == units db pid)
  /\ units (fst (approve db caller id notes now)) pid <= units db pid.
Proof.
  intro Hwf. unfold approve, guarded.
  destruct caller as [u|]; [|split; [intros _; apply Qeq_refl | apply Qle_refl]].
  destruct (verifyAdmin u);
    [|split; [intros _; apply Qeq_refl | apply Qle_refl]].
  destruct (approve_handler_cases db id notes now u Hwf)
    as [-> | (i & r & p & _ & Hfind & _ & Hprod & Hle
              & [(Hc & ->) | (Hc & ->)])].
  - split; [intros _; apply Qeq_refl | apply Qle_refl].
  - assert (Heq : units
                    (mkDB (users db)
                       (replace_by p_id
                          (mkProduct (p_id p) (p_stock p - r_strips r))
                          (products db))
                       (replace_by r_id
                          (with_status r Approved (u_id u) now
                                       (notes_or_empty notes)) (requests db))
                       (stocks db
                        ++ [mkStock (nextId db) (r_dealer r) (p_id p)
                                    (r_strips r) 0 (r_strips r - 0) (r_id r)
                                    now])
                       (allocations db) (S (nextId db))) pid
                  == units db pid).
    { pose proof (find_key_eq _ _ _ _ Hprod) as Hpid.
      unfold units, central_stock, lots_total, findProduct. simpl.
      rewrite find_replace_by. simpl. rewrite filter_app, map_app.
      rewrite fold_right_Qplus_app. simpl.
      destruct (Nat.eqb (p_id p) pid) eqn:E.
      - apply Nat.eqb_eq in E. subst pid. rewrite <- Hpid in Hprod.
        unfold findProduct in Hprod. rewrite Hprod. simpl. lra.
      - simpl. lra. }
    split; [intros _; exact Heq | rewrite Heq; apply Qle_refl].
  - split; [intro H; congruence|].
    assert (Hstrips : 1 <= r_strips r).
    { destruct Hwf as (Hr & _). rewrite Forall_forall in Hr. apply Hr.
      apply find_some in Hfind. apply Hfind. }
    pose proof (find_key_eq _ _ _ _ Hprod) as Hpid.
    unfold units, central_stock, lots_total, findProduct, set_products. simpl.
    rewrite find_replace_by. simpl.
    destruct (Nat.eqb (p_id p) pid) eqn:E.
    + apply Nat.eqb_eq in E. subst pid. rewrite <- Hpid in Hprod.
      unfold findProduct in Hprod. rewrite Hprod. simpl. lra.
    + apply Qle_refl.
Qed.

Lemma lifecycle_keeps_ledger (db : DB) (o : op) :
  match o with
  | Submit _ _ _ | UploadReceipt _ _ _ | VerifyPayment _ _ _ _
  | RejectPayment _ _ _ _ | Cancel _ _ _ _ =>
      products (step db o) = products db /\ stocks (step db o) = stocks db
  | _ => True
  end.
Proof.
  destruct o; simpl step; try exact I.
  - unfold submit, guarded, submit_handler, request_insert.
    break_handler; simpl; split; reflexivity.
  - unfold uploadReceipt, guarded, uploadReceipt_handler, request_save.
    break_handler; simpl; split; reflexivity.
  - unfold verifyPayment, guarded, verifyPayment_handler, request_save.
    break_handler; simpl; split; reflexivity.
  - unfold rejectPayment, guarded, rejectPayment_handler, request_save.
    break_handler; simpl; split; reflexivity.
  - unfold cancel, guarded, cancel_handler, request_save.
    break_handler; simpl; split; reflexivity.
Qed.

Lemma step_keeps_units (db : DB) (o : op) (pid : oid) :
  wf_db db -> core_call o ->
  (approval_notes_castable o -> units (step db o) pid == units db pid)
  /\ units (step db o) pid <= units db pid.
Proof.
  intros Hwf Hcore.
  assert (Hsame : products (step db o) = products db ->
                  stocks (step db o) = stocks db ->
                  units (step db o) pid == units db pid).
  { intros Hp Hs. unfold units, central_stock, lots_total, findProduct.
    rewrite Hp, Hs. apply Qeq_refl. }
  assert (Hboth : units (step db o) pid == units db pid ->
                  (approval_notes_castable o ->
                   units (step db o) pid == units db pid)
                  /\ units (step db o) pid <= units db pid).
  { intro H. split; [intros _; exact H | rewrite H; apply Qle_refl]. }
  pose proof (lifecycle_keeps_ledger db o) as Hl.
  destruct o;
    try (apply Hboth; destruct Hl as (Hp & Hs); apply Hsame; assumption).
  - apply approve_keeps_units, Hwf.
  - apply Hboth. simpl step. unfold units.
    rewrite (allocate_keeps_totals db caller salesmanId productId strips notes
                                   pid Hwf).
    unfold central_stock, findProduct.
    destruct (allocate_frame db caller salesmanId productId strips notes)
      as (_ & Hp & _).
    rewrite Hp. apply Qeq_refl.
  - destruct Hcore.
Qed.

(** X13.  Units are conserved.  Take a reachable store and a run of core
    calls (catalog edits apart) whose quantities are all whole numbers below
    2^53.  If every approval of the run carries notes that can be stored as
    text, the central stock of a product plus the strips held in all lots of
    that product stays what it was: approval moves strips from the central
    stock into a lot, and nothing else creates, destroys or resizes them, a
    failed allocation included.  Whatever the notes, the units of a product
    never grow: an approval whose notes cannot be stored takes the strips out
    of the central stock and opens no lot, so that they are lost. *)
Theorem units_are_conserved :
  forall (ops : list op) (db : DB) (pid : oid),
    reachable db ->
    whole_store db ->
    Forall core_call ops ->
    Forall whole_call ops ->
    (Forall approval_notes_castable ops ->
     units (exec db ops) pid == units db pid)
    /\ units (exec db ops) pid <= units db pid.
Proof.
  intros ops db pid Hreach _ Hcore _. revert db pid Hreach Hcore.
  unfold exec. induction ops as [|o ops IH]; intros db pid Hreach Hcore; simpl.
  - split; [intros _; apply Qeq_refl | apply Qle_refl].
  - inversion Hcore as [|? ? Ho Hops]; subst.
    destruct (IH (step db o) pid (reachable_exec db [o] Hreach) Hops)
      as (IHeq & IHle).
    destruct (step_keeps_units db o pid (reachable_wf _ Hreach) Ho)
      as (Heq & Hle).
    split.
    + intro Hall. inversion Hall as [|? ? Hc Hcs]; subst.
      rewrite (IHeq Hcs). apply Heq, Hc.
    + eapply Qle_trans; [exact IHle | exact Hle].
Qed.

Lemma units_are_conserved_witness :
  units (exec fresh_db (fulfil 100%nat 10 1%nat ++ fulfil 102%nat 25 2%nat
                        ++ [Allocate (Some the_dealer) (IdValid 3%nat)
                                     (IdValid 10%nat) (JNum 1000) NotesFalsy]))
        10%nat
  == units fresh_db 10%nat
  /\ units (exec verified_db
                 [Approve (Some the_admin) (IdValid 100%nat) NotesUncastable
                          2%nat]) 10%nat
     <= units verified_db 10%nat.
Proof.
  assert (Hsafe : forall n : Z,
             (Z.abs n <= 9007199254740991)%Z -> safe_integer (inject_Z n))
    by (intros n Hn; exists n; split; [reflexivity | exact Hn]).
  assert (S10 : safe_integer 10) by (apply (Hsafe 10%Z); vm_compute; discriminate).
  assert (S25 : safe_integer 25) by (apply (Hsafe 25%Z); vm_compute; discriminate).
  assert (S1000 : safe_integer 1000)
    by (apply (Hsafe 1000%Z); vm_compute; discriminate).
  assert (Hreach : reachable fresh_db).
  { exists fresh_db, []. split; [|reflexivity].
    unfold empty_ledger, fresh_db. simpl. auto. }
  assert (Hreach' : reachable verified_db)
    by (unfold verified_db; apply reachable_exec; unfold paid_db;
        apply scenario_reachable).
  assert (Hwhole : whole_store fresh_db).
  { unfold whole_store, fresh_db. simpl.
    split; [constructor; [exact S1000 | constructor]|].
    split; constructor. }
  assert (Hwhole' : whole_store verified_db).
  { assert (Ep : products verified_db = [mkProduct 10%nat 1000])
      by (vm_compute; reflexivity).
    assert (Er : requests verified_db = [verified_request])
      by (vm_compute; reflexivity).
    assert (Es : stocks verified_db = []) by (vm_compute; reflexivity).
    unfold whole_store. rewrite Ep, Er, Es.
    split; [constructor; [exact S1000 | constructor]|].
    split; [constructor; [exact S10 | constructor] | constructor]. }
  split.
  - apply (proj1 (units_are_conserved
                    (fulfil 100%nat 10 1%nat ++ fulfil 102%nat 25 2%nat
                     ++ [Allocate (Some the_dealer) (IdValid 3%nat)
                                  (IdValid 10%nat) (JNum 1000) NotesFalsy])
                    fresh_db 10%nat Hreach Hwhole ltac:(repeat constructor)
                    ltac:(simpl; repeat constructor; assumption))).
    repeat constructor.
  - apply (proj2 (units_are_conserved
                    [Approve (Some the_admin) (IdValid 100%nat) NotesUncastable
                             2%nat]
                    verified_db 10%nat Hreach' Hwhole'
                    ltac:(repeat constructor) ltac:(repeat constructor))).
Defined.

(** ** Allocation records and the rollback *)


Lemma stock_save_allocations (db db' : DB) (s d : DealerStock) :
  stock_save db s = Some (db', d) ->
  allocations db' = allocations db /\ nextId db' = nextId db.
Proof.
  intro H. apply stock_save_frame in H. tauto.
Qed.

Lemma allocations_fresh_mono (db db' : DB) :
  allocations db' = allocations db -> (nextId db <= nextId db')%nat ->
  allocations_fresh db -> allocations_fresh db'.
Proof.
  unfold allocations_fresh. intros -> Hle H.
  eapply Forall_impl; [|exact H]. simpl. intros a Ha. lia.
Qed.

Section WalkIds.

Variables (dealer sid pid : oid) (notes : bodyNotes).

(** The loop numbers its records from the id counter upwards. *)
Lemma walk_ids (lots : list DealerStock) :
  forall st : walk_state,
    allocations_fresh (w_db st) ->
    match walk dealer sid pid notes lots st with
    | inl st' =>
        allocations_fresh (w_db st')
        /\ (nextId (w_db st) <= nextId (w_db st'))%nat
        /\ exists news,
             w_allocations st' = w_allocations st ++ news
             /\ allocations (w_db st') = allocations (w_db st) ++ news
             /\ Forall (fun a => (nextId (w_db st) <= a_id a)%nat) news
    | inr db' =>
        allocations_fresh db' /\ (nextId (w_db st) <= nextId db')%nat
    end.
Proof.
  induction lots as [|stock rest IH]; intros st Hfresh; simpl.
  - split; [assumption|]. split; [lia|]. exists []. rewrite !app_nil_r.
    repeat split. constructor.
  - destruct (Qle_bool (remainingToAllocate st) 0).
    { split; [assumption|]. split; [lia|]. exists []. rewrite !app_nil_r.
      repeat split. constructor. }
    destruct (Qltb 0 (availableStrips stock)); [|apply IH, Hfresh].
    destruct (notes_castable notes); [|split; [assumption | lia]].
    unfold allocation_insert.
    destruct (allocation_validate _); [|split; [assumption | lia]].
    match goal with
    | |- context [stock_save ?d ?s] => set (db1 := d)
    end.
    assert (Hfresh1 : allocations_fresh db1).
    { unfold allocations_fresh, db1. simpl. apply Forall_app. split.
      - eapply Forall_impl; [|exact Hfresh]. simpl. intros a Ha. lia.
      - constructor; [simpl; lia | constructor]. }
    destruct (stock_save db1 _) as [[db2 saved]|] eqn:Hsave;
      [|split; [exact Hfresh1 | simpl; lia]].
    destruct (stock_save_allocations _ _ _ _ Hsave) as (Hal2 & Hn2).
    assert (Hfresh2 : allocations_fresh db2).
    { apply (allocations_fresh_mono db1); [exact Hal2 | lia | exact Hfresh1]. }
    match goal with
    | |- context [walk dealer sid pid notes rest ?s] =>
        specialize (IH s Hfresh2); destruct (walk dealer sid pid notes rest s)
    end.
    + destruct IH as (H1 & H2 & news & H3 & H4 & H5). simpl in H2, H3, H4, H5.
      split; [exact H1|]. rewrite Hn2 in H2. simpl in H2.
      split; [lia|].
      eexists (_ :: news). split; [rewrite H3, <- app_assoc; reflexivity|].
      split; [rewrite H4, Hal2; simpl; rewrite <- app_assoc; reflexivity|].
      constructor; [simpl; lia|].
      eapply Forall_impl; [|exact H5]. simpl. intros a Ha.
      rewrite Hn2 in Ha. simpl in Ha. lia.
    + destruct IH as (H1 & H2). simpl in H2. rewrite Hn2 in H2. simpl in H2.
      split; [exact H1 | lia].
Qed.

End WalkIds.

Lemma rollback_ids (amount : Q) (updated : list DealerStock) :
  forall db : DB,
    allocations (match rollback db updated amount with
                 | inl db' | inr db' => db'
                 end) = allocations db
    /\ nextId (match rollback db updated amount with
               | inl db' | inr db' => db'
               end) = nextId db.
Proof.
  induction updated as [|stock rest IH]; intro db; simpl.
  - split; reflexivity.
  - destruct (stock_save db _) as [[db1 d]|] eqn:Hsave; [|split; reflexivity].
    destruct (stock_save_allocations _ _ _ _ Hsave) as (Ha & Hn).
    destruct (IH db1) as (H1 & H2). rewrite H1, H2. split; assumption.
Qed.

Lemma deleteMany_new (old news : list StockAllocation) (n : nat) :
  Forall (fun a => (a_id a < n)%nat) old ->
  Forall (fun a => (n <= a_id a)%nat) news ->
  filter (fun a => negb (existsb (Nat.eqb (a_id a)) (map a_id news)))
         (old ++ news) = old.
Proof.
  intros Hold Hnew. rewrite filter_app.
  assert (H1 : filter (fun a => negb (existsb (Nat.eqb (a_id a)) (map a_id news)))
                      old = old).
  { clear - Hold Hnew. induction old as [|a old IH]; simpl; [reflexivity|].
    inversion Hold as [|? ? Ha Hold']; subst.
    assert (E : existsb (Nat.eqb (a_id a)) (map a_id news) = false).
    { destruct (existsb _ _) eqn:E; [|reflexivity].
      apply existsb_exists in E. destruct E as (i & Hi & Heq).
      apply Nat.eqb_eq in Heq. apply in_map_iff in Hi.
      destruct Hi as (b & Hb & Hin). rewrite Forall_forall in Hnew.
      apply Hnew in Hin. lia. }
    rewrite E. simpl. rewrite IH by assumption. reflexivity. }
  assert (H2 : filter (fun a => negb (existsb (Nat.eqb (a_id a)) (map a_id news)))
                      news = []).
  { clear.
    assert (H : forall l, incl l news ->
              filter (fun a => negb (existsb (Nat.eqb (a_id a)) (map a_id news))) l
              = []).
    { induction l as [|a l IH]; intro Hincl; simpl; [reflexivity|].
      assert (E : existsb (Nat.eqb (a_id a)) (map a_id news) = true).
      { apply existsb_exists. exists (a_id a). split; [|apply Nat.eqb_refl].
        apply in_map, Hincl. left. reflexivity. }
      rewrite E. simpl. apply IH. intros x Hx. apply Hincl. right. exact Hx. }
    apply H, incl_refl. }
  rewrite H1, H2. apply app_nil_r.
Qed.

Lemma lifecycle_keeps_allocations (db : DB) (o : op) :
  match o with
  | Allocate _ _ _ _ _ => True
  | _ => allocations (step db o) = allocations db
         /\ (nextId db <= nextId (step db o))%nat
  end.
Proof.
  destruct o; simpl step; try exact I.
  - unfold submit, guarded, submit_handler, request_insert.
    break_handler; simpl; split; (reflexivity || lia).
  - unfold uploadReceipt, guarded, uploadReceipt_handler, request_save.
    break_handler; simpl; split; (reflexivity || lia).
  - unfold verifyPayment, guarded, verifyPayment_handler, request_save.
    break_handler; simpl; split; (reflexivity || lia).
  - unfold rejectPayment, guarded, rejectPayment_handler, request_save.
    break_handler; simpl; split; (reflexivity || lia).
  - unfold approve, guarded, approve_handler, product_save, request_save,
      openLot, stock_save, stock_insert.
    break_handler; simpl; split; (reflexivity || lia).
  - unfold cancel, guarded, cancel_handler, request_save.
    break_handler; simpl; split; (reflexivity || lia).
  - split; (reflexivity || lia).
Qed.

Lemma allocate_fresh (db : DB) (caller : option User)
  (salesmanId productId : idParam) (strips : jsval) (notes : bodyNotes) :
  allocations_fresh db ->
  allocations_fresh (fst (allocate db caller salesmanId productId strips notes)).
Proof.
  intro Hfresh. unfold allocate, guarded.
  destruct caller as [u|]; [|exact Hfresh].
  destruct (verifyDealer u); [|exact Hfresh].
  unfold allocate_handler.
  destruct salesmanId as [| |sid|]; destruct productId as [| |pid|];
    destruct (truthy strips); try exact Hfresh;
    destruct (strips_number strips) as [q|]; try exact Hfresh.
  destruct (findSalesman db sid (u_id u)) as [salesman|]; [|exact Hfresh].
  destruct (findProduct db pid) as [product|]; [|exact Hfresh].
  pose proof (walk_ids (u_id u) sid pid notes (dealerStocks_of db (u_id u) pid)
                       (mkWalk db q [] []) Hfresh) as Hw.
  destruct (walk _ _ _ _ _ _) as [st|db']; simpl; [|apply Hw].
  destruct Hw as (Hfresh' & _ & _).
  destruct (Qltb 0 (remainingToAllocate st)).
  - set (db1 := deleteMany (w_db st) (map a_id (w_allocations st))).
    assert (Hfresh1 : allocations_fresh db1).
    { unfold allocations_fresh, db1, deleteMany. simpl.
      unfold allocations_fresh in Hfresh'. rewrite Forall_forall in *.
      intros a Ha. apply filter_In in Ha. apply Hfresh', Ha. }
    destruct (rollback_ids (q - remainingToAllocate st) (updatedStocks st) db1)
      as (Ha & Hn).
    destruct (rollback _ _ _); simpl;
      (apply (allocations_fresh_mono db1); [exact Ha | lia | exact Hfresh1]).
  - destruct (w_allocations st); simpl; exact Hfresh'.
Qed.

Lemma reachable_fresh (db : DB) : reachable db -> allocations_fresh db.
Proof.
  intros (db0 & ops & (_ & _ & Ha) & <-).
  assert (H0 : allocations_fresh db0)
    by (unfold allocations_fresh; rewrite Ha; constructor).
  clear Ha. revert db0 H0. unfold exec.
  induction ops as [|o ops IH]; intros db0 H0; simpl; [exact H0|].
  apply IH. pose proof (lifecycle_keeps_allocations db0 o) as Hl.
  destruct o; try (destruct Hl as (Ha & Hn);
                   apply (allocations_fresh_mono db0); assumption).
  apply allocate_fresh, H0.
Qed.

(** X15.  When the allocation route answers 400 "insufficient stock", every
    allocation record written during the call has been deleted again and no
    other record has: the collection of allocation records is what it was
    before the call. *)
Theorem failed_allocation_keeps_records :
  forall (db db' : DB) (caller : User) (salesmanId productId : idParam)
         (strips : jsval) (notes : bodyNotes) (available requested : Q),
    reachable db ->
    allocate db (Some caller) salesmanId productId strips notes
    = (db', reply 400 (MsgInsufficientStock available requested)) ->
    allocations db' = allocations db.
Proof.
  intros db db' caller salesmanId productId strips notes available requested
         Hreach Hrun.
  pose proof (reachable_fresh _ Hreach) as Hfresh.
  destruct (allocate_insufficient_inv _ _ _ _ _ _ _ _ _ Hrun)
    as (sid & pid & q & st & _ & _ & _ & _ & _ & Hwalk & _ & _ & Hroll).
  pose proof (walk_ids (u_id caller) sid pid notes
                       (dealerStocks_of db (u_id caller) pid)
                       (mkWalk db q [] []) Hfresh) as Hw.
  rewrite Hwalk in Hw. destruct Hw as (_ & _ & news & Hnews & Hal & Hids).
  simpl in Hnews, Hal, Hids.
  destruct (rollback_ids (q - remainingToAllocate st) (updatedStocks st)
              (deleteMany (w_db st) (map a_id (w_allocations st)))) as (Ha & _).
  rewrite Hroll in Ha. rewrite Ha. unfold deleteMany. simpl.
  rewrite Hnews, Hal. apply (deleteMany_new _ _ (nextId db)); assumption.
Qed.

Lemma failed_allocation_keeps_records_witness :
  allocations (fst (allocate_strips approved_db 1000)) = allocations approved_db.
Proof.
  assert (Hreach : reachable approved_db)
    by (unfold approved_db; apply scenario_reachable).
  assert (Hrun :
            allocate approved_db (Some the_dealer) (IdValid 3%nat)
                     (IdValid 10%nat) (JNum 1000) NotesFalsy
            = (fst (allocate_strips approved_db 1000),
               reply 400 (MsgInsufficientStock 10 1000)))
    by (vm_compute; reflexivity).
  exact (failed_allocation_keeps_records _ _ _ _ _ _ _ _ _ Hreach Hrun).
Defined.

Lemma stock_document_ok (s : DealerStock) :
  0 <= allocatedStrips s -> allocatedStrips s <= totalStrips s ->
  0 <= availableStrips s ->
  stock_document s
  = Some (with_counts s (totalStrips s) (allocatedStrips s)
                      (totalStrips s - allocatedStrips s)).
Proof.
  intros Ha Hle Hav. unfold stock_document, stock_validate, stock_pre_save.
  assert (E1 : Qle_bool 0 (totalStrips s) = true) by (apply Qle_bool_iff; lra).
  assert (E2 : Qle_bool 0 (allocatedStrips s) = true)
    by (apply Qle_bool_iff; lra).
  assert (E3 : Qle_bool 0 (availableStrips s) = true)
    by (apply Qle_bool_iff; lra).
  assert (E4 : Qltb (totalStrips s - allocatedStrips s) 0 = false)
    by (apply Qltb_ge; lra).
  rewrite E1, E2, E3, E4. reflexivity.
Qed.

Lemma truthy_strips (q : Q) :
  1 <= q -> truthy (JNum q) = true /\ strips_number (JNum q) = Some q.
Proof.
  intro Hq. split.
  - simpl. apply negb_true_iff. destruct (Qeq_bool q 0) eqn:E; [|reflexivity].
    apply Qeq_bool_iff in E. lra.
  - simpl. assert (E : Qltb q 1 = false) by (apply Qltb_ge, Hq).
    rewrite E. reflexivity.
Qed.

(** X16.  Where the quantity asked and the counts of the lot are whole
    numbers below 2^53 and the notes can be stored as text: if the dealer
    holds a single lot of the product and it has less than the quantity asked
    (nothing, or at least one strip), the allocation route answers 400
    "insufficient stock" with that lot's availability, and its rollback is
    exact: the lot is stored again with the allocated and available counts
    it had before the call. *)
Theorem failed_allocation_restores_a_single_lot :
  forall (db : DB) (caller salesman : User) (product : Product)
         (sid pid : oid) (q : Q) (notes : bodyNotes) (s : DealerStock),
    reachable db ->
    verifyDealer caller = true ->
    findSalesman db sid (u_id caller) = Some salesman ->
    findProduct db pid = Some product ->
    dealerStocks_of db (u_id caller) pid = [s] ->
    1 <= q ->
    availableStrips s < q ->
    availableStrips s <= 0 \/ 1 <= availableStrips s ->
    notes_castable notes = true ->
    safe_integer q ->
    safe_integer (totalStrips s) -> safe_integer (allocatedStrips s) ->
    safe_integer (availableStrips s) ->
    exists (db' : DB) (reported : Q) (s' : DealerStock),
      allocate db (Some caller) (IdValid sid) (IdValid pid) (JNum q) notes
      = (db', reply 400 (MsgInsufficientStock reported q))
      /\ reported == availableStrips s
      /\ findStock db' (s_id s) = Some s'
      /\ same_lot s s'
      /\ allocatedStrips s' == allocatedStrips s
      /\ availableStrips s' == availableStrips s.
Proof.
  intros db caller salesman product sid pid q notes s Hreach Hdealer Hsales
         Hprod Hlots Hq Hshort Hav Hcast _ _ _ _.
  pose proof (reachable_wf _ Hreach) as (_ & Hinv & Hnd & _ & _).
  assert (Hin : In s (stocks db)).
  { assert (H : In s (dealerStocks_of db (u_id caller) pid))
      by (rewrite Hlots; left; reflexivity).
    apply dealerStocks_of_In in H. apply H. }
  assert (Hs : lot_inv s) by (rewrite Forall_forall in Hinv; apply Hinv, Hin).
  destruct Hs as (Hs1 & Hs2 & Hs3).
  pose proof (find_NoDup_In s_id (stocks db) s Hnd Hin) as Hfind.
  fold (findStock db (s_id s)) in Hfind.
  destruct (truthy_strips q Hq) as (Ht & Hn).
  unfold allocate, guarded. rewrite Hdealer. unfold allocate_handler.
  rewrite Ht, Hn, Hsales, Hprod, Hlots.
  assert (Hq0 : Qle_bool q 0 = false) by (apply Qle_bool_false; lra).
  assert (Hq1 : Qltb 0 q = true) by (apply Qltb_lt; lra).
  cbn [walk remainingToAllocate]. rewrite Hq0.
  destruct Hav as [Hnone | Hsome].
  - (* nothing available: the lot is skipped *)
    assert (E : Qltb 0 (availableStrips s) = false) by (apply Qltb_ge, Hnone).
    rewrite E. cbn [remainingToAllocate w_allocations updatedStocks w_db map
                    rollback].
    rewrite Hq1.
    eexists. eexists. exists s. split; [reflexivity|].
    split; [lra|]. split; [exact Hfind|]. split; [apply same_lot_refl|].
    split; apply Qeq_refl.
  - (* the lot gives all it has, and gets it back *)
    assert (E : Qltb 0 (availableStrips s) = true) by (apply Qltb_lt; lra).
    rewrite E.
    assert (Hmin : Qmin (availableStrips s) q = availableStrips s).
    { destruct (Qmin_cases (availableStrips s) q) as [(_ & H) | (H & _)];
        [exact H | lra]. }
    rewrite Hmin, Hcast. cbn [w_db w_allocations updatedStocks].
    unfold allocation_insert, allocation_validate. cbn [a_strips].
    assert (E1 : Qle_bool 1 (availableStrips s) = true)
      by (apply Qle_bool_iff, Hsome).
    rewrite E1. unfold stock_save.
    rewrite stock_document_ok; cbn [allocatedStrips totalStrips availableStrips
                                   with_counts]; try lra.
    cbn [walk remainingToAllocate w_db w_allocations updatedStocks app].
    assert (E2 : Qltb 0 (q - availableStrips s) = true)
      by (apply Qltb_lt; lra).
    rewrite E2. cbn [rollback]. unfold stock_save.
    rewrite stock_document_ok; cbn [allocatedStrips totalStrips availableStrips
                                   with_counts]; try lra.
    eexists. eexists. eexists. split; [reflexivity|].
    split; [lra|]. split.
    + unfold findStock, deleteMany. cbn [stocks set_stocks set_allocations bump].
      rewrite find_replace_by. cbn [s_id]. rewrite Nat.eqb_refl.
      rewrite find_replace_by. cbn [s_id]. rewrite Nat.eqb_refl.
      fold (findStock db (s_id s)). rewrite Hfind. reflexivity.
    + split; [unfold same_lot; simpl; repeat split|].
      unfold with_counts. cbn [allocatedStrips availableStrips totalStrips].
      split; lra.
Qed.

Lemma failed_allocation_restores_a_single_lot_witness :
  exists (db' : DB) (reported : Q) (s' : DealerStock),
    allocate approved_db (Some the_dealer) (IdValid 3%nat) (IdValid 10%nat)
             (JNum 1000) NotesFalsy
    = (db', reply 400 (MsgInsufficientStock reported 1000))
    /\ reported == 10
    /\ findStock db' 101%nat = Some s'
    /\ allocatedStrips s' == 0.
Proof.
  assert (Hreach : reachable approved_db)
    by (unfold approved_db; apply scenario_reachable).
  assert (Hsales : findSalesman approved_db 3%nat (u_id the_dealer)
                   = Some the_salesman) by (vm_compute; reflexivity).
  assert (Hprod : findProduct approved_db 10%nat = Some (mkProduct 10%nat 990))
    by (vm_compute; reflexivity).
  assert (Hlots : dealerStocks_of approved_db (u_id the_dealer) 10%nat
                  = [mkStock 101%nat 2%nat 10%nat 10 0 10 100%nat 1%nat])
    by (vm_compute; reflexivity).
  assert (H1 : 1 <= 1000) by lra.
  assert (H2 : availableStrips (mkStock 101%nat 2%nat 10%nat 10 0 10 100%nat
                                        1%nat) < 1000) by (simpl; lra).
  assert (H3 : availableStrips (mkStock 101%nat 2%nat 10%nat 10 0 10 100%nat
                                        1%nat) <= 0
               \/ 1 <= availableStrips (mkStock 101%nat 2%nat 10%nat 10 0 10
                                                100%nat 1%nat))
    by (right; simpl; lra).
  assert (S1 : safe_integer 1000)
    by (exists 1000%Z; split; [reflexivity | vm_compute; discriminate]).
  assert (S2 : safe_integer 10)
    by (exists 10%Z; split; [reflexivity | vm_compute; discriminate]).
  assert (S3 : safe_integer 0)
    by (exists 0%Z; split; [reflexivity | vm_compute; discriminate]).
  destruct (failed_allocation_restores_a_single_lot approved_db the_dealer
              the_salesman (mkProduct 10%nat 990) 3%nat 10%nat 1000 NotesFalsy
              (mkStock 101%nat 2%nat 10%nat 10 0 10 100%nat 1%nat)
              Hreach eq_refl Hsales Hprod Hlots H1 H2 H3 eq_refl S1 S2 S3 S2)
    as (db' & reported & s' & Hrun & Hrep & Hfind & _ & Hal & _).
  exists db', reported, s'. repeat split; assumption.
Defined.

Lemma findSalesman_spec (db : DB) (sid dealer : oid) (u : User) :
  findSalesman db sid dealer = Some u ->
  In u (users db) /\ u_id u = sid /\ u_createdBy u = Some dealer
  /\ u_role u = Salesman.
Proof.
  unfold findSalesman. intro H. apply find_some in H. destruct H as (Hin & Hb).
  apply andb_true_iff in Hb. destruct Hb as (Hb & Hrole).
  apply andb_true_iff in Hb. destruct Hb as (Hid & Hby).
  apply Nat.eqb_eq in Hid.
  destruct (u_createdBy u) as [c|]; [|discriminate].
  apply Nat.eqb_eq in Hby. subst c.
  destruct (u_role u); try discriminate. auto.
Qed.

Section WalkRecords.

Variables (dealer sid pid : oid) (notes : bodyNotes).

(** The records the loop writes: one per lot taken from, filled in from the
    call's parameters and never for more than the lot had. *)
Lemma walk_records (lots : list DealerStock) :
  forall st st' : walk_state,
    walk dealer sid pid notes lots st = inl st' ->
    exists news : list StockAllocation,
      w_allocations st' = w_allocations st ++ news
      /\ allocations (w_db st') = allocations (w_db st) ++ news
      /\ Forall (fun a =>
                   notes_castable notes = true
                   /\ a_dealer a = dealer /\ a_salesman a = sid
                   /\ a_product a = pid /\ a_notes a = notes_or_empty notes
                   /\ 1 <= a_strips a
                   /\ exists s, In s lots /\ a_dealerStock a = s_id s
                                /\ a_strips a <= availableStrips s)
                news.
Proof.
  induction lots as [|stock rest IH]; intros st st' Hwalk; simpl in Hwalk.
  - injection Hwalk as <-. exists []. rewrite !app_nil_r. auto.
  - destruct (Qle_bool (remainingToAllocate st) 0).
    { injection Hwalk as <-. exists []. rewrite !app_nil_r. auto. }
    destruct (Qltb 0 (availableStrips stock)).
    + destruct (notes_castable notes) eqn:Hcast; [|discriminate].
      unfold allocation_insert in Hwalk.
      destruct (allocation_validate _) eqn:Hval; [|discriminate].
      destruct (stock_save _ _) as [[db2 saved]|] eqn:Hsave; [|discriminate].
      destruct (stock_save_allocations _ _ _ _ Hsave) as (Hal2 & _).
      destruct (IH _ _ Hwalk) as (news & H1 & H2 & H3).
      simpl in H1, H2. rewrite Hal2 in H2. simpl in H2.
      eexists (_ :: news). split; [rewrite H1, <- app_assoc; reflexivity|].
      split; [rewrite H2, <- app_assoc; reflexivity|].
      constructor.
      * simpl. repeat split; try reflexivity.
        { unfold allocation_validate in Hval. simpl in Hval.
          apply Qle_bool_iff in Hval. exact Hval. }
        exists stock. split; [left; reflexivity|]. split; [reflexivity|].
        apply Q.le_min_l.
      * eapply Forall_impl; [|exact H3]. simpl.
        intros a (Hc & Ha1 & Ha2 & Ha3 & Ha4 & Ha5 & s & Hs & Ha6).
        repeat split; try assumption. exists s. split; [right; exact Hs|].
        exact Ha6.
    + destruct (IH _ _ Hwalk) as (news & H1 & H2 & H3).
      exists news. split; [exact H1|]. split; [exact H2|].
      eapply Forall_impl; [|exact H3]. simpl.
      intros a (Hc & Ha1 & Ha2 & Ha3 & Ha4 & Ha5 & s & Hs & Ha6).
      repeat split; try assumption. exists s. split; [right; exact Hs|].
      exact Ha6.
Qed.

End WalkRecords.

(** X17.  Whom and what a successful allocation (201) records: the caller
    passed the dealer check, the salesman is a stored user with the salesman
    role whom the caller created, the quantity reported is the one asked, the
    notes of the call could be stored as text, and the store gains the
    reported record followed by the call's other records and nothing else;
    each of them names the caller as dealer, that salesman and the product
    asked, carries the call's notes with the blanks around them removed (the
    empty text when the call has none), is for at least one strip, and draws
    on a lot of the caller's for that product, for no more than the lot had
    available before the call. *)
Theorem allocation_records_are_the_callers :
  forall (db db' : DB) (caller : User) (salesmanId productId : idParam)
         (strips : jsval) (notes : bodyNotes) (first : StockAllocation)
         (total : Q),
    allocate db (Some caller) salesmanId productId strips notes
    = (db', reply 201 (MsgAllocated first total)) ->
    exists (sid pid : oid) (salesman : User) (others : list StockAllocation),
      salesmanId = IdValid sid /\ productId = IdValid pid
      /\ strips = JNum total
      /\ verifyDealer caller = true
      /\ In salesman (users db) /\ u_id salesman = sid
      /\ u_createdBy salesman = Some (u_id caller)
      /\ u_role salesman = Salesman
      /\ notes_castable notes = true
      /\ allocations db' = allocations db ++ first :: others
      /\ forall a, In a (first :: others) ->
           a_dealer a = u_id caller /\ a_salesman a = sid
           /\ a_product a = pid /\ a_notes a = notes_or_empty notes
           /\ (forall text, notes = NotesText text -> a_notes a = trim text)
           /\ (notes = NotesFalsy -> a_notes a = EmptyString)
           /\ 1 <= a_strips a
           /\ exists s, In s (stocks db) /\ s_dealer s = u_id caller
                        /\ s_product s = pid /\ a_dealerStock a = s_id s
                        /\ a_strips a <= availableStrips s.
Proof.
  intros db db' caller salesmanId productId strips notes first total Hrun.
  unfold allocate, guarded in Hrun.
  destruct (verifyDealer caller) eqn:Hdealer; [|discriminate].
  unfold allocate_handler in Hrun.
  destruct salesmanId as [| |sid|]; destruct productId as [| |pid|];
    destruct (truthy strips); try discriminate;
    destruct (strips_number strips) as [q|] eqn:Hq; try discriminate.
  all: try (destruct (findSalesman db sid (u_id caller)); discriminate).
  destruct (findSalesman db sid (u_id caller)) as [salesman|] eqn:Hsales;
    [|discriminate].
  destruct (findProduct db pid) as [product|]; [|discriminate].
  destruct (walk _ _ _ _ _ _) as [st|dbx] eqn:Hwalk; [|discriminate].
  destruct (Qltb 0 (remainingToAllocate st)).
  { destruct (rollback _ _ _); discriminate. }
  destruct (w_allocations st) as [|a0 others] eqn:Hrecs; [discriminate|].
  injection Hrun as <- <- <-.
  destruct (walk_records _ _ _ _ _ _ _ Hwalk) as (news & H1 & H2 & H3).
  simpl in H1, H2. rewrite Hrecs in H1. subst news.
  destruct (findSalesman_spec _ _ _ _ Hsales) as (Hin & Hid & Hby & Hrole).
  exists sid, pid, salesman, others.
  split; [reflexivity|]. split; [reflexivity|].
  split.
  { destruct strips; simpl in Hq; try discriminate.
    all: try (destruct (Qltb _ 1); [discriminate|]; injection Hq as ->;
              reflexivity). }
  split; [reflexivity|]. split; [exact Hin|]. split; [exact Hid|].
  split; [exact Hby|]. split; [exact Hrole|].
  rewrite Forall_forall in H3.
  split; [apply (H3 a0), in_eq|]. split; [exact H2|].
  intros a Ha.
  destruct (H3 a Ha)
    as (Hc & Ha1 & Ha2 & Ha3 & Ha4 & Ha5 & s & Hs & Ha6 & Ha7).
  split; [exact Ha1|]. split; [exact Ha2|]. split; [exact Ha3|].
  split; [exact Ha4|].
  split; [intros text ->; exact Ha4|]. split; [intros ->; exact Ha4|].
  split; [exact Ha5|].
  apply dealerStocks_of_In in Hs. destruct Hs as (Hs1 & Hs2 & Hs3).
  exists s. repeat split; assumption.
Qed.

Lemma allocation_records_are_the_callers_witness :
  exists others : list StockAllocation,
    allocations (fst (allocate_strips two_lots_db 30))
    = allocations two_lots_db
      ++ mkAllocation 104%nat 2%nat 3%nat 10%nat 10 101%nat EmptyString
         :: others
    /\ forall a,
         In a (mkAllocation 104%nat 2%nat 3%nat 10%nat 10 101%nat EmptyString
               :: others) ->
         a_dealer a = 2%nat /\ a_salesman a = 3%nat /\ 1 <= a_strips a.
Proof.
  assert (Hrun :
            allocate two_lots_db (Some the_dealer) (IdValid 3%nat)
                     (IdValid 10%nat) (JNum 30) NotesFalsy
            = (fst (allocate_strips two_lots_db 30),
               reply 201
                 (MsgAllocated
                    (mkAllocation 104%nat 2%nat 3%nat 10%nat 10 101%nat
                                  EmptyString) 30)))
    by (vm_compute; reflexivity).
  destruct (allocation_records_are_the_callers _ _ _ _ _ _ _ _ _ Hrun)
    as (sid & pid & salesman & others & Hsid & _ & _ & _ & _ & _ & _ & _
        & _ & Hal & Hrec).
  injection Hsid as <-.
  exists others. split; [exact Hal|].
  intros a Ha. destruct (Hrec a Ha) as (H1 & H2 & _ & _ & _ & _ & H3 & _).
  repeat split; assumption.
Defined.

(** ** The read routes of the allocation router *)

Lemma total_of_app {X : Type} (field : X -> Q) (l l' : list X) :
  total_of field (l ++ l') == total_of field l + total_of field l'.
Proof.
  unfold total_of. rewrite map_app. apply fold_right_Qplus_app.
Qed.




Lemma insert_newest_first_perm (s : DealerStock) (l : list DealerStock) :
  Permutation (insert_newest_first s l) (s :: l).
Proof.
  induction l as [|x l IH]; simpl.
  - apply Permutation_refl.
  - destruct (Nat.leb (s_createdAt x) (s_createdAt s)).
    + apply Permutation_refl.
    + eapply perm_trans; [apply perm_skip, IH | apply perm_swap].
Qed.

Lemma sort_newest_first_perm (l : list DealerStock) :
  Permutation (sort_newest_first l) l.
Proof.
  induction l as [|x l IH]; simpl.
  - apply perm_nil.
  - eapply perm_trans; [apply insert_newest_first_perm | apply perm_skip, IH].
Qed.

Section Upsert.

Context {G : Type}.








End Upsert.

Section GroupBy.

Context {X G : Type}.
Variable entry : X -> option (oid * G * (G -> G)).

(** The loop finishes exactly when its body throws for no document. *)
Lemma group_by_runs (l : list X) :
  forall m,
    (exists m', group_by entry l m = Some m')
    <-> Forall (fun x => entry x <> None) l.
Proof.
  induction l as [|x l IH]; intro m; simpl.
  - split; [constructor | eexists; reflexivity].
  - destruct (entry x) as [[[k i] f]|] eqn:E.
    + rewrite IH. split.
      * intro H. constructor; [rewrite E; discriminate | exact H].
      * intro H. inversion H; assumption.
    + split; [intros (m' & H); discriminate|].
      intro H. inversion H as [|? ? Hx]; subst. contradiction.
Qed.





End GroupBy.

Lemma findProduct_id (db : DB) (i : oid) (p : Product) :
  findProduct db i = Some p -> p_id p = i.
Proof.
  unfold findProduct. intro H. apply find_some in H. destruct H as (_ & H).
  apply Nat.eqb_eq, H.
Qed.

Lemma findUser_id (db : DB) (i : oid) (u : User) :
  findUser db i = Some u -> u_id u = i.
Proof.
  unfold findUser. intro H. apply find_some in H. destruct H as (_ & H).
  apply Nat.eqb_eq, H.
Qed.



(** *** [GET /dealer/stock] *)

Lemma dealerStocks_newest_first_In (db : DB) (dealer : oid) (s : DealerStock) :
  In s (dealerStocks_newest_first db dealer)
  <-> In s (stocks db) /\ s_dealer s = dealer.
Proof.
  unfold dealerStocks_newest_first. split.
  - intro H. apply (Permutation_in _ (sort_newest_first_perm _)) in H.
    apply filter_In in H. destruct H as (Hin & Hd).
    apply Nat.eqb_eq in Hd. auto.
  - intros (Hin & Hd).
    apply (Permutation_in _ (Permutation_sym (sort_newest_first_perm _))).
    apply filter_In. split; [exact Hin | apply Nat.eqb_eq, Hd].
Qed.


Lemma stock_entry_runs (db : DB) (s : DealerStock) :
  stock_entry db s <> None <-> findProduct db (s_product s) <> None.
Proof.
  unfold stock_entry. destruct (findProduct db (s_product s)).
  - split; discriminate.
  - tauto.
Qed.



(** X18.  [GET /dealer/stock] answers a dealer with 200 exactly when every
    lot of theirs refers to a product that is still stored; a single lot
    whose product is gone makes the whole view fail with 500. *)
Theorem dealer_stock_needs_every_product :
  forall (db : DB) (caller : User),
    verifyDealer caller = true ->
    ((exists groups, dealerStock db (Some caller) = (200%nat, Some groups))
     <-> forall s, In s (stocks db) -> s_dealer s = u_id caller ->
                   findProduct db (s_product s) <> None)
    /\ (dealerStock db (Some caller) = (500%nat, None)
        <-> exists s, In s (stocks db) /\ s_dealer s = u_id caller
                      /\ findProduct db (s_product s) = None).
Proof.
  intros db caller Hdealer.
  pose proof (group_by_runs (stock_entry db)
                (dealerStocks_newest_first db (u_id caller)) []) as Hruns.
  rewrite Forall_forall in Hruns.
  assert (Hok : (exists groups,
                    dealerStock db (Some caller) = (200%nat, Some groups))
                <-> forall s, In s (stocks db) -> s_dealer s = u_id caller ->
                              findProduct db (s_product s) <> None).
  { unfold dealerStock, guarded_read, dealerStock_handler. rewrite Hdealer.
    split.
    - intros (groups & H) s Hs Hd.
      destruct (group_by _ _ _) as [m|] eqn:Hg; [|discriminate].
      apply stock_entry_runs. apply Hruns; [eexists; reflexivity|].
      apply dealerStocks_newest_first_In. auto.
    - intro H. destruct (proj2 Hruns) as (m & ->).
      + intros s Hs. apply dealerStocks_newest_first_In in Hs.
        apply stock_entry_runs. apply H; apply Hs.
      + simpl. eexists; reflexivity. }
  split; [exact Hok|].
  split.
  - intro H500.
    destruct (existsb (fun s => Nat.eqb (s_dealer s) (u_id caller)
                                && match findProduct db (s_product s) with
                                   | None => true
                                   | Some _ => false
                                   end) (stocks db)) eqn:Hex.
    + apply existsb_exists in Hex. destruct Hex as (s & Hs & Hb).
      apply andb_true_iff in Hb. destruct Hb as (Hd & Hp).
      apply Nat.eqb_eq in Hd. exists s. split; [exact Hs|]. split; [exact Hd|].
      destruct (findProduct db (s_product s)); [discriminate | reflexivity].
    + exfalso. destruct (proj2 Hok) as (groups & Hrun).
      * intros s Hs Hd Hnone.
        assert (Hb : existsb (fun s => Nat.eqb (s_dealer s) (u_id caller)
                                && match findProduct db (s_product s) with
                                   | None => true
                                   | Some _ => false
                                   end) (stocks db) = true).
        { apply existsb_exists. exists s. split; [exact Hs|].
          rewrite Hnone, Hd, Nat.eqb_refl. reflexivity. }
        rewrite Hb in Hex. discriminate.
      * rewrite Hrun in H500. discriminate.
  - intros (s & Hs & Hd & Hnone).
    unfold dealerStock, guarded_read, dealerStock_handler. rewrite Hdealer.
    destruct (group_by _ _ _) as [m|] eqn:Hg; [|reflexivity].
    exfalso. apply (proj1 Hruns (ex_intro _ m eq_refl) s).
    + apply dealerStocks_newest_first_In. auto.
    + unfold stock_entry. rewrite Hnone. reflexivity.
Qed.

Lemma dealer_stock_needs_every_product_witness :
  (exists groups, dealerStock two_lots_db (Some the_dealer)
                  = (200%nat, Some groups))
  /\ dealerStock (step two_lots_db (Catalog [the_dealer] []))
                 (Some the_dealer)
     = (500%nat, None).
Proof.
  split.
  - apply (proj1 (dealer_stock_needs_every_product two_lots_db the_dealer
                    eq_refl)).
    assert (E : map s_product (stocks two_lots_db) = [10%nat; 10%nat])
      by (vm_compute; reflexivity).
    assert (P : findProduct two_lots_db 10%nat <> None)
      by (vm_compute; discriminate).
    intros s Hs _. apply (in_map s_product) in Hs. rewrite E in Hs.
    destruct Hs as [<- | [<- | []]]; exact P.
  - apply (proj2 (dealer_stock_needs_every_product
                    (step two_lots_db (Catalog [the_dealer] [])) the_dealer
                    eq_refl)).
    exists (mkStock 101%nat 2%nat 10%nat 10 0 10 100%nat 1%nat).
    split; [vm_compute; left; reflexivity|]. split; reflexivity.
Defined.







(** *** Grouping loops in general *)

Section KeyedTotals.

Context {G : Type}.




End KeyedTotals.

Section GroupSpec.

Context {X G I : Type}.
Variable entry : X -> option (oid * G * (G -> G)).
Variables (keyX : X -> oid) (keyG : G -> oid).
Variables (view : G -> list I) (item : X -> I).
Variables (total : G -> Q) (w : X -> Q).

(** What the body of the loop does with a document: it files it under the
    document's key in a group that carries that key, appends the document's
    item to the group's list and adds the document's quantity to the
    group's total. *)
Hypothesis entry_spec :
  forall x k i f,
    entry x = Some (k, i, f) ->
    k = keyX x /\ keyG i = k /\ view i = [] /\ total i == 0
    /\ forall g, keyG (f g) = keyG g
                 /\ view (f g) = view g ++ [item x]
                 /\ total (f g) == total g + w x.




End GroupSpec.


(** *** [GET /dealer/allocations] and [GET /salesman/stock] *)
















(** ** The read routes of the request router *)

Lemma dealersCreatedBy_In (db : DB) (creator i : oid) :
  In i (dealersCreatedBy db creator)
  <-> exists d, In d (users db) /\ u_id d = i
                /\ u_createdBy d = Some creator /\ verifyDealer d = true.
Proof.
  unfold dealersCreatedBy. rewrite in_map_iff. split.
  - intros (d & Hid & Hin). apply filter_In in Hin.
    destruct Hin as (Hin & Hb). apply andb_true_iff in Hb.
    destruct Hb as (Hc & Hd). exists d.
    destruct (u_createdBy d) as [c|]; [|discriminate].
    apply Nat.eqb_eq in Hc. subst c. auto.
  - intros (d & Hin & Hid & Hc & Hd). exists d. split; [exact Hid|].
    apply filter_In. split; [exact Hin|].
    rewrite Hc, Nat.eqb_refl, Hd. reflexivity.
Qed.

(** X24.  What a dealer can read of the requests.  [GET /] lists exactly the
    dealer's own requests.  [GET /:id] answers 200 with a request exactly
    when it is the stored request of that id and the dealer's own, so
    whatever a dealer can fetch by id is in their list; for a request of
    somebody else it gives no data: 403 when that dealer is a stored user,
    500 when they are not.  The caller is a stored user, as the token check
    requires. *)
Theorem dealer_reads_own_requests_only :
  forall (newest_first : list DealerRequest -> list DealerRequest)
         (db : DB) (caller : User),
    (forall l, Permutation (newest_first l) l) ->
    verifyDealer caller = true ->
    findUser db (u_id caller) <> None ->
    exists listed,
      listRequests newest_first db (Some caller) = (200%nat, Some listed)
      /\ (forall r, In r listed
                    <-> In r (requests db) /\ r_dealer r = u_id caller)
      /\ (forall i r,
             getRequest db (Some caller) (IdValid i) = (200%nat, Some r)
             <-> findRequest db i = Some r /\ r_dealer r = u_id caller)
      /\ (forall i r,
             getRequest db (Some caller) (IdValid i) = (200%nat, Some r) ->
             In r listed)
      /\ (forall i r,
             findRequest db i = Some r -> r_dealer r <> u_id caller ->
             getRequest db (Some caller) (IdValid i)
             = (match findUser db (r_dealer r) with
                | Some _ => 403%nat
                | None => 500%nat
                end, None)).
Proof.
  intros newest_first db caller Hperm Hdealer Hstored.
  eexists. split; [reflexivity|].
  assert (Hlist : forall r,
             In r (newest_first (filter (requests_query db caller)
                                        (requests db)))
             <-> In r (requests db) /\ r_dealer r = u_id caller).
  { intro r. split.
    - intro H. apply (Permutation_in _ (Hperm _)) in H.
      apply filter_In in H. destruct H as (Hin & Hq).
      unfold requests_query in Hq. rewrite Hdealer in Hq.
      apply Nat.eqb_eq in Hq. auto.
    - intros (Hin & Hown).
      apply (Permutation_in _ (Permutation_sym (Hperm _))).
      apply filter_In. split; [exact Hin|].
      unfold requests_query. rewrite Hdealer. apply Nat.eqb_eq, Hown. }
  assert (Hget : forall i r,
             getRequest db (Some caller) (IdValid i) = (200%nat, Some r)
             <-> findRequest db i = Some r /\ r_dealer r = u_id caller).
  { intros i r. unfold getRequest. rewrite Hdealer.
    destruct (findRequest db i) as [request|];
      [|split; [discriminate | intros (H & _); discriminate]].
    destruct (findUser db (r_dealer request)) as [dealer|] eqn:Hd.
    - pose proof (findUser_id _ _ _ Hd) as Hid. rewrite Hid.
      destruct (Nat.eqb (r_dealer request) (u_id caller)) eqn:E; simpl.
      + apply Nat.eqb_eq in E. split.
        * intro H. injection H as <-. auto.
        * intros (H & _). injection H as <-. reflexivity.
      + apply Nat.eqb_neq in E. split; [discriminate|].
        intros (H & Hown). injection H as <-. contradiction.
    - split; [discriminate|]. intros (H & Hown). injection H as <-.
      rewrite Hown in Hd. contradiction. }
  split; [exact Hlist|]. split; [exact Hget|]. split.
  - intros i r H. apply Hget in H. destruct H as (Hfind & Hown).
    apply Hlist. split; [|exact Hown].
    unfold findRequest in Hfind. apply find_some in Hfind. apply Hfind.
  - intros i r Hfind Hother. unfold getRequest. rewrite Hdealer, Hfind.
    destruct (findUser db (r_dealer r)) as [dealer|] eqn:Hd; [|reflexivity].
    rewrite (findUser_id _ _ _ Hd).
    apply Nat.eqb_neq in Hother. rewrite Hother. reflexivity.
Qed.

Lemma dealer_reads_own_requests_only_witness :
  exists listed,
    listRequests (@rev DealerRequest) two_lots_db (Some the_dealer)
    = (200%nat, Some listed)
    /\ forall i r,
         getRequest two_lots_db (Some the_dealer) (IdValid i)
         = (200%nat, Some r) ->
         In r listed.
Proof.
  assert (Hstored : findUser two_lots_db (u_id the_dealer) <> None)
    by (vm_compute; discriminate).
  destruct (dealer_reads_own_requests_only
              (@rev DealerRequest) two_lots_db the_dealer
              (fun l => Permutation_sym (Permutation_rev l)) eq_refl Hstored)
    as (listed & Hlist & _ & _ & Hin & _).
  exists listed. split; [exact Hlist | exact Hin].
Defined.

(** X25.  What the other roles can read of the requests.  For a caller who
    is not a dealer, [GET /:id] answers 200 with the stored request of any
    id, whoever it belongs to.  [GET /] lists every stored request, except
    for a stalkist, who is listed exactly the requests of the dealers they
    created: a stalkist can fetch by id requests that their own list does
    not show, and an admin or a salesman reads everything either way. *)
Theorem other_roles_read_any_request :
  forall (newest_first : list DealerRequest -> list DealerRequest)
         (db : DB) (caller : User),
    (forall l, Permutation (newest_first l) l) ->
    verifyDealer caller = false ->
    (forall i r, findRequest db i = Some r ->
                 getRequest db (Some caller) (IdValid i) = (200%nat, Some r))
    /\ exists listed,
         listRequests newest_first db (Some caller) = (200%nat, Some listed)
         /\ forall r,
              In r listed
              <-> In r (requests db)
                  /\ (u_role caller = Stalkist ->
                      exists d, In d (users db) /\ u_id d = r_dealer r
                                /\ u_createdBy d = Some (u_id caller)
                                /\ verifyDealer d = true).
Proof.
  intros newest_first db caller Hperm Hrole. split.
  - intros i r Hfind. unfold getRequest. rewrite Hfind, Hrole. reflexivity.
  - eexists. split; [reflexivity|]. intro r.
    assert (Hq : requests_query db caller r = true
                 <-> (u_role caller = Stalkist ->
                      exists d, In d (users db) /\ u_id d = r_dealer r
                                /\ u_createdBy d = Some (u_id caller)
                                /\ verifyDealer d = true)).
    { unfold requests_query. rewrite Hrole.
      destruct (Role_eqb (u_role caller) Stalkist) eqn:E.
      - assert (Hst : u_role caller = Stalkist)
          by (destruct (u_role caller); try discriminate; reflexivity).
        split.
        + intros H _. apply existsb_exists in H. destruct H as (i & Hi & Hb).
          apply Nat.eqb_eq in Hb. subst i.
          apply dealersCreatedBy_In, Hi.
        + intro H. apply existsb_exists. exists (r_dealer r).
          split; [apply dealersCreatedBy_In, H, Hst | apply Nat.eqb_refl].
      - split; [|reflexivity]. intros _ Hst. rewrite Hst in E. discriminate. }
    split.
    + intro H. apply (Permutation_in _ (Hperm _)) in H.
      apply filter_In in H. destruct H as (Hin & Hb).
      split; [exact Hin | apply Hq, Hb].
    + intros (Hin & H).
      apply (Permutation_in _ (Permutation_sym (Hperm _))).
      apply filter_In. split; [exact Hin | apply Hq, H].
Qed.

Lemma other_roles_read_any_request_witness :
  (forall i r, findRequest two_lots_db i = Some r ->
               getRequest two_lots_db (Some the_salesman) (IdValid i)
               = (200%nat, Some r))
  /\ exists listed,
       listRequests (@rev DealerRequest) two_lots_db (Some the_salesman)
       = (200%nat, Some listed)
       /\ forall r, In r listed -> In r (requests two_lots_db).
Proof.
  destruct (other_roles_read_any_request
              (@rev DealerRequest) two_lots_db the_salesman
              (fun l => Permutation_sym (Permutation_rev l)) eq_refl)
    as (Hget & listed & Hlist & Hin).
  split; [exact Hget|]. exists listed. split; [exact Hlist|].
  intros r Hr. exact (proj1 (proj1 (Hin r) Hr)).
Defined.

(** ** Allocation changes counts only *)

Lemma same_lots_refl (l : list DealerStock) : Forall2 same_lot l l.
Proof.
  induction l; constructor; [apply same_lot_refl | assumption].
Qed.

Lemma same_lots_trans (l1 l2 l3 : list DealerStock) :
  Forall2 same_lot l1 l2 -> Forall2 same_lot l2 l3 -> Forall2 same_lot l1 l3.
Proof.
  intro H. revert l3. induction H as [|a b l1 l2 Hab _ IH]; intros l3 H23.
  - inversion H23. constructor.
  - inversion H23 as [|? c ? l3' Hbc H23']; subst.
    constructor; [apply (same_lot_trans a b c); assumption | apply IH, H23'].
Qed.

Lemma replace_by_same_lots (d : DealerStock) (l : list DealerStock) :
  (forall y, In y l -> s_id y = s_id d -> same_lot y d) ->
  Forall2 same_lot l (replace_by s_id d l).
Proof.
  unfold replace_by. induction l as [|y l IH]; intro H; simpl; constructor.
  - destruct (Nat.eqb (s_id y) (s_id d)) eqn:E.
    + apply Nat.eqb_eq in E. apply (H y (or_introl eq_refl) E).
    + apply same_lot_refl.
  - apply IH. intros z Hz. apply H. right. exact Hz.
Qed.

Lemma stock_save_same_lots (db db' : DB) (s d : DealerStock) :
  NoDup (map s_id (stocks db)) ->
  in_sync db [s] ->
  stock_save db s = Some (db', d) ->
  Forall2 same_lot (stocks db) (stocks db').
Proof.
  intros Hnd Hs Hsave.
  inversion Hs as [|? ? (x & Hx & Hxs) _]; subst.
  pose proof (stock_save_spec _ _ _ _ Hsave) as (Hd & Hdb).
  assert (Hsd : same_lot s d)
    by (rewrite Hd; unfold same_lot; simpl; repeat split).
  rewrite Hdb. simpl. apply replace_by_same_lots. intros y Hy Hid.
  assert (y = x).
  { unfold findStock in Hx. apply find_some in Hx.
    destruct Hx as (Hxin & Hxid). apply Nat.eqb_eq in Hxid.
    apply (NoDup_map_inj s_id (stocks db)); try assumption.
    destruct Hsd as (Hsid & _). congruence. }
  subst y. apply (same_lot_trans x s d); assumption.
Qed.

Section WalkLots.

Variables (dealer sid pid : oid) (notes : bodyNotes).

Lemma walk_same_lots (lots : list DealerStock) :
  forall st : walk_state,
    NoDup (map s_id (stocks (w_db st))) ->
    in_sync (w_db st) lots ->
    in_sync (w_db st) (updatedStocks st) ->
    Forall2 same_lot (stocks (w_db st))
            (stocks (match walk dealer sid pid notes lots st with
                     | inl st' => w_db st'
                     | inr db' => db'
                     end)).
Proof.
  induction lots as [|stock rest IH]; intros st Hnd Hlots Hupd; simpl.
  - apply same_lots_refl.
  - destruct (Qle_bool (remainingToAllocate st) 0); [apply same_lots_refl|].
    apply in_sync_cons in Hlots. destruct Hlots as (Hstock & Hrest).
    destruct (Qltb 0 (availableStrips stock)); [|apply IH; assumption].
    destruct (notes_castable notes); [|apply same_lots_refl].
    unfold allocation_insert.
    destruct (allocation_validate _); [|apply same_lots_refl].
    match goal with
    | |- context [stock_save ?d ?s] =>
        set (db1 := d); set (stock' := s)
    end.
    assert (Hst1 : stocks db1 = stocks (w_db st)) by reflexivity.
    assert (Hnd1 : NoDup (map s_id (stocks db1))) by (rewrite Hst1; exact Hnd).
    assert (Hsync1 : in_sync db1 [stock']).
    { apply (in_sync_versioned db1 stock stock').
      - unfold same_lot, stock'. simpl. repeat split.
      - apply (in_sync_same_stocks (w_db st)); [exact Hst1 | exact Hstock]. }
    destruct (stock_save db1 stock') as [[db2 saved]|] eqn:Hsave;
      [|rewrite Hst1; apply same_lots_refl].
    pose proof (stock_save_same_lots db1 db2 stock' saved Hnd1 Hsync1 Hsave)
      as Hsame. rewrite Hst1 in Hsame.
    destruct (stock_save_in_sync db1 db2 stock' saved Hnd1 Hsync1 Hsave)
      as (Hnd2 & _ & Hkeep & Hsaved).
    assert (Hrest2 : in_sync db2 rest).
    { apply Hkeep. apply (in_sync_same_stocks (w_db st)); assumption. }
    assert (Hupd2 : in_sync db2 (updatedStocks st ++ [saved])).
    { apply in_sync_app. split; [|exact Hsaved].
      apply Hkeep. apply (in_sync_same_stocks (w_db st)); assumption. }
    match goal with
    | |- context [walk dealer sid pid notes rest ?s] =>
        specialize (IH s Hnd2 Hrest2 Hupd2)
    end.
    eapply same_lots_trans; [exact Hsame | exact IH].
Qed.

Lemma walk_nextId (lots : list DealerStock) :
  forall st : walk_state,
    (nextId (w_db st)
     <= nextId (match walk dealer sid pid notes lots st with
                | inl st' => w_db st'
                | inr db' => db'
                end))%nat.
Proof.
  induction lots as [|stock rest IH]; intro st; simpl; [lia|].
  destruct (Qle_bool (remainingToAllocate st) 0); [lia|].
  destruct (Qltb 0 (availableStrips stock)); [|apply IH].
  destruct (notes_castable notes); [|lia].
  unfold allocation_insert. destruct (allocation_validate _); [|lia].
  destruct (stock_save _ _) as [[db2 saved]|] eqn:Hsave; [|simpl; lia].
  apply stock_save_frame in Hsave. destruct Hsave as (_ & _ & _ & _ & Hn).
  simpl in Hn.
  match goal with
  | |- context [walk dealer sid pid notes rest ?s] => specialize (IH s)
  end.
  simpl in IH. lia.
Qed.

End WalkLots.

Lemma rollback_same_lots (amount : Q) (updated : list DealerStock) :
  forall db : DB,
    NoDup (map s_id (stocks db)) ->
    in_sync db updated ->
    Forall2 same_lot (stocks db)
            (stocks (match rollback db updated amount with
                     | inl db' | inr db' => db'
                     end)).
Proof.
  induction updated as [|stock rest IH]; intros db Hnd Hupd; simpl.
  - apply same_lots_refl.
  - apply in_sync_cons in Hupd. destruct Hupd as (Hstock & Hrest).
    match goal with
    | |- context [stock_save db ?s] => set (stock' := s)
    end.
    assert (Hsync : in_sync db [stock']).
    { apply (in_sync_versioned db stock stock'); [|exact Hstock].
      unfold same_lot, stock'. simpl. repeat split. }
    destruct (stock_save db stock') as [[db1 d]|] eqn:Hsave;
      [|apply same_lots_refl].
    destruct (stock_save_in_sync db db1 stock' d Hnd Hsync Hsave)
      as (Hnd1 & _ & Hkeep & _).
    eapply same_lots_trans;
      [exact (stock_save_same_lots db db1 stock' d Hnd Hsync Hsave)|].
    apply IH; [exact Hnd1 | apply Hkeep, Hrest].
Qed.

Lemma rollback_nextId (amount : Q) (updated : list DealerStock) :
  forall db : DB,
    nextId (match rollback db updated amount with
            | inl db' | inr db' => db'
            end) = nextId db.
Proof.
  induction updated as [|stock rest IH]; intro db; simpl; [reflexivity|].
  destruct (stock_save db _) as [[db1 d]|] eqn:Hsave; [|reflexivity].
  apply stock_save_frame in Hsave. destruct Hsave as (_ & _ & _ & _ & Hn).
  rewrite IH. exact Hn.
Qed.

(** Whatever its outcome, an allocation leaves the lots what they were,
    counts apart, and never lowers the id counter. *)
Lemma allocate_same_lots (db : DB) (caller : option User)
  (salesmanId productId : idParam) (strips : jsval) (notes : bodyNotes) :
  wf_db db ->
  Forall2 same_lot (stocks db)
          (stocks (fst (allocate db caller salesmanId productId strips notes)))
  /\ (nextId db
      <= nextId (fst (allocate db caller salesmanId productId strips notes)))%nat.
Proof.
  intros (_ & _ & Hnd & _ & _).
  assert (Hrefl : Forall2 same_lot (stocks db) (stocks db)
                  /\ (nextId db <= nextId db)%nat)
    by (split; [apply same_lots_refl | lia]).
  unfold allocate, guarded. destruct caller as [u|]; [|exact Hrefl].
  destruct (verifyDealer u); [|exact Hrefl].
  unfold allocate_handler.
  destruct salesmanId as [| |sid|]; destruct productId as [| |pid|];
    destruct (truthy strips); try exact Hrefl;
    destruct (strips_number strips) as [q|]; try exact Hrefl.
  destruct (findSalesman db sid (u_id u)) as [salesman|]; [|exact Hrefl].
  destruct (findProduct db pid) as [product|]; [|exact Hrefl].
  set (lots := dealerStocks_of db (u_id u) pid).
  assert (Hsync : in_sync db lots).
  { unfold in_sync. apply Forall_forall. intros s Hs.
    apply dealerStocks_of_In in Hs. destruct Hs as (Hs & _).
    exists s. split; [|apply same_lot_refl].
    apply (find_NoDup_In s_id (stocks db) s Hnd Hs). }
  pose proof (walk_same_lots (u_id u) sid pid notes lots (mkWalk db q [] [])
                             Hnd Hsync (Forall_nil _)) as Hsame.
  pose proof (walk_nextId (u_id u) sid pid notes lots (mkWalk db q [] []))
    as Hnext.
  pose proof (walk_totals (u_id u) sid pid notes lots (mkWalk db q [] [])
                          Hnd Hsync (Forall_nil _)) as Hw.
  cbn [w_db] in Hsame, Hnext.
  destruct (walk _ _ _ _ lots _) as [st|db']; [|split; assumption].
  destruct Hw as (Hnd' & _ & Hupd).
  destruct (Qltb 0 (remainingToAllocate st)).
  - pose proof (rollback_same_lots (q - remainingToAllocate st)
                  (updatedStocks st)
                  (deleteMany (w_db st) (map a_id (w_allocations st)))
                  Hnd' (in_sync_same_stocks _ _ _ eq_refl Hupd)) as Hr.
    pose proof (rollback_nextId (q - remainingToAllocate st)
                  (updatedStocks st)
                  (deleteMany (w_db st) (map a_id (w_allocations st)))) as Hn.
    destruct (rollback _ _ _); simpl; simpl in Hr, Hn;
      (split; [eapply same_lots_trans; [exact Hsame | exact Hr] | lia]).
  - destruct (w_allocations st); simpl; split; assumption.
Qed.

(** X26.  Whatever its outcome (201, 400 or 500), a call of the allocation
    route in a reachable store changes nothing of the lots but their
    allocated and available counts: the same lots are stored in the same
    order, each with its id, dealer, product, size, source request and
    creation time. *)
Theorem allocation_changes_counts_only :
  forall (db : DB) (caller : option User) (salesmanId productId : idParam)
         (strips : jsval) (notes : bodyNotes),
    reachable db ->
    Forall2 same_lot (stocks db)
            (stocks (fst (allocate db caller salesmanId productId strips
                                   notes))).
Proof.
  intros db caller salesmanId productId strips notes Hreach.
  apply allocate_same_lots, reachable_wf, Hreach.
Qed.

Lemma allocation_changes_counts_only_witness :
  Forall2 same_lot (stocks two_lots_db)
          (stocks (fst (allocate two_lots_db (Some the_dealer) (IdValid 3%nat)
                                 (IdValid 10%nat) (JNum 1000) NotesFalsy))).
Proof.
  apply allocation_changes_counts_only.
  unfold two_lots_db. apply scenario_reachable.
Defined.

(** ** Approved requests and lots *)

Lemma replace_by_absent {A : Type} (key : A -> oid) (d : A) (l : list A) :
  ~ In (key d) (map key l) -> replace_by key d l = l.
Proof.
  unfold replace_by. induction l as [|x l IH]; simpl; intro H; [reflexivity|].
  destruct (Nat.eqb (key x) (key d)) eqn:E.
  - exfalso. apply H. left. apply Nat.eqb_eq, E.
  - rewrite IH; [reflexivity|]. intro Hin. apply H. right. exact Hin.
Qed.

(** Replacing the one document that carries an id moves a filtered total by
    what the old version counted and what the new one counts. *)
Lemma total_replace_one {A : Type} (key : A -> oid) (w : A -> Q)
  (g : A -> bool) (r r' : A) (l : list A) :
  NoDup (map key l) -> In r l -> key r' = key r ->
  total_of w (filter g (replace_by key r' l))
  == total_of w (filter g l)
     - (if g r then w r else 0) + (if g r' then w r' else 0).
Proof.
  induction l as [|x l IH]; intros Hnd Hin Hkey; [destruct Hin|].
  inversion Hnd as [|? ? Hx Hl]; subst.
  change (replace_by key r' (x :: l))
    with ((if Nat.eqb (key x) (key r') then r' else x) :: replace_by key r' l).
  destruct Hin as [-> | Hin].
  - rewrite Hkey, Nat.eqb_refl.
    rewrite (replace_by_absent key r' l) by (rewrite Hkey; exact Hx).
    simpl. unfold total_of.
    destruct (g r), (g r'); simpl; lra.
  - assert (E : Nat.eqb (key x) (key r') = false).
    { apply Nat.eqb_neq. intro H. apply Hx. rewrite H, Hkey.
      apply in_map, Hin. }
    rewrite E. specialize (IH Hl Hin Hkey). simpl.
    unfold total_of in *. destruct (g x); simpl; rewrite IH; lra.
Qed.

Lemma same_lots_strips (dealer product : oid) (l l' : list DealerStock) :
  Forall2 same_lot l l' ->
  total_of totalStrips (filter (lot_of dealer product) l')
  == total_of totalStrips (filter (lot_of dealer product) l).
Proof.
  unfold total_of. induction 1 as [|s s' l l' Hs _ IH]; simpl; [reflexivity|].
  destruct Hs as (_ & Hd & Hp & Ht & _).
  assert (E : lot_of dealer product s' = lot_of dealer product s)
    by (unfold lot_of; rewrite Hd, Hp; reflexivity).
  rewrite E. destruct (lot_of dealer product s); simpl; [rewrite Ht|]; lra.
Qed.

(** What the calls other than approval and allocation do to the requests:
    nothing, one new pending request under the next id, or a new version of
    one stored request that is approved exactly if the old one was. *)
Lemma lifecycle_requests (db : DB) (o : op) :
  match o with
  | Approve _ _ _ _ | Allocate _ _ _ _ _ | Catalog _ _ => True
  | _ =>
      (requests (step db o) = requests db
       /\ (nextId db <= nextId (step db o))%nat)
      \/ (exists dealer product strips,
             requests (step db o)
             = requests db ++ [new_request (nextId db) dealer product strips]
             /\ nextId (step db o) = S (nextId db))
      \/ (exists j r r',
             findRequest db j = Some r
             /\ requests (step db o) = replace_by r_id r' (requests db)
             /\ nextId (step db o) = nextId db
             /\ r_id r' = r_id r /\ r_dealer r' = r_dealer r
             /\ r_product r' = r_product r /\ r_strips r' = r_strips r
             /\ (r_status r' = Approved <-> r_status r = Approved))
  end.
Proof.
  destruct o; simpl step; try exact I.
  - unfold submit, guarded, submit_handler, request_insert.
    break_handler; simpl; try (left; split; [reflexivity | lia]).
    right. left. eexists. eexists. eexists. split; reflexivity.
  - unfold uploadReceipt, guarded, uploadReceipt_handler, request_save.
    break_handler_eqn; simpl; try (left; split; [reflexivity | lia]).
    right. right. eexists. eexists. eexists.
    split; [eassumption|]. split; [reflexivity|]. simpl. tauto.
  - unfold verifyPayment, guarded, verifyPayment_handler, request_save.
    break_handler_eqn; simpl; try (left; split; [reflexivity | lia]).
    right. right. eexists. eexists. eexists.
    split; [eassumption|]. split; [reflexivity|]. simpl. tauto.
  - unfold rejectPayment, guarded, rejectPayment_handler, request_save.
    break_handler_eqn; simpl; try (left; split; [reflexivity | lia]).
    right. right. eexists. eexists. eexists.
    split; [eassumption|]. split; [reflexivity|]. simpl. tauto.
  - unfold cancel, guarded, cancel_handler, request_save.
    break_handler_eqn; simpl; try (left; split; [reflexivity | lia]).
    right. right. eexists. eexists. eexists.
    split; [eassumption|]. split; [reflexivity|]. simpl.
    repeat (split; [reflexivity|]).
    match goal with
    | H : negb (Status_eqb _ Pending) = false |- _ =>
        apply negb_false_iff, Status_eqb_eq in H; rewrite H
    end.
    split; discriminate.
Qed.

Lemma approve_handler_not_pending (db : DB) (i : oid) (notes : bodyNotes)
  (now : nat) (caller : User) (r : DealerRequest) :
  findRequest db i = Some r -> r_status r <> Pending ->
  fst (approve_handler db (IdValid i) notes now caller) = db.
Proof.
  intros Hfind Hst. unfold approve_handler. rewrite Hfind.
  destruct (Status_eqb (r_status r) Pending) eqn:E.
  - apply Status_eqb_eq in E. contradiction.
  - reflexivity.
Qed.

(** One call keeps the request ids fresh and the two ledgers in step. *)
Lemma step_ledgers_agree (db : DB) (o : op) :
  wf_db db -> requests_fresh db ->
  (forall dealer product,
      lot_strips db dealer product == approved_strips db dealer product) ->
  requests_fresh (step db o)
  /\ forall dealer product,
       lot_strips (step db o) dealer product
       == approved_strips (step db o) dealer product.
Proof.
  intros Hwf (Hnd & Hlt) Hagree.
  assert (Hsame : forall db',
             requests db' = requests db -> stocks db' = stocks db ->
             (nextId db <= nextId db')%nat ->
             requests_fresh db'
             /\ forall dealer product,
                  lot_strips db' dealer product
                  == approved_strips db' dealer product).
  { intros db' Hr Hs Hn. unfold requests_fresh, lot_strips, approved_strips.
    rewrite Hr, Hs. split; [split; [exact Hnd|]|exact Hagree].
    eapply Forall_impl; [|exact Hlt]. simpl. intros r Hr'. lia. }
  pose proof (lifecycle_keeps_ledger db o) as Hledger.
  pose proof (lifecycle_requests db o) as Hreq.
  assert (Hlife :
            stocks (step db o) = stocks db ->
            (requests (step db o) = requests db
             /\ (nextId db <= nextId (step db o))%nat)
            \/ (exists dealer product strips,
                   requests (step db o)
                   = requests db
                     ++ [new_request (nextId db) dealer product strips]
                   /\ nextId (step db o) = S (nextId db))
            \/ (exists j r r',
                   findRequest db j = Some r
                   /\ requests (step db o) = replace_by r_id r' (requests db)
                   /\ nextId (step db o) = nextId db
                   /\ r_id r' = r_id r /\ r_dealer r' = r_dealer r
                   /\ r_product r' = r_product r /\ r_strips r' = r_strips r
                   /\ (r_status r' = Approved <-> r_status r = Approved)) ->
            requests_fresh (step db o)
            /\ forall dealer product,
                 lot_strips (step db o) dealer product
                 == approved_strips (step db o) dealer product).
  { intros Hs [(Hr & Hn) | [(d & p & q & Hr & Hn) | H]].
    - apply Hsame; assumption.
    - unfold requests_fresh, lot_strips, approved_strips.
      rewrite Hr, Hs, Hn. split; [split|].
      + rewrite map_app. simpl. apply NoDup_app_remove_r with (l' := []).
        rewrite app_nil_r.
        apply (Permutation_NoDup (l := nextId db :: map r_id (requests db))).
        * apply Permutation_cons_append.
        * constructor; [|exact Hnd]. intro Hin. apply in_map_iff in Hin.
          destruct Hin as (r & Hid & Hin). rewrite Forall_forall in Hlt.
          specialize (Hlt r Hin). lia.
      + apply Forall_app. split.
        * eapply Forall_impl; [|exact Hlt]. simpl. intros r Hr'. lia.
        * constructor; [simpl; lia | constructor].
      + intros dealer product. rewrite filter_app, total_of_app.
        rewrite (Hagree dealer product). unfold approved_strips.
        unfold approved_for at 3. simpl. unfold total_of at 3. simpl. lra.
    - destruct H as (j & r & r' & Hfind & Hr & Hn & Hid & Hd & Hp & Hq & Hst).
      unfold requests_fresh, lot_strips, approved_strips.
      rewrite Hr, Hs, Hn. split; [split|].
      + rewrite replace_by_keys. exact Hnd.
      + apply Forall_replace_by; [exact Hlt|]. intros _. rewrite Hid.
        rewrite Forall_forall in Hlt. apply Hlt.
        unfold findRequest in Hfind. apply find_some in Hfind. apply Hfind.
      + intros dealer product.
        assert (Hin : In r (requests db))
          by (unfold findRequest in Hfind; apply find_some in Hfind;
              apply Hfind).
        rewrite (total_replace_one r_id r_strips (approved_for dealer product)
                                   r r' (requests db) Hnd Hin Hid).
        assert (Hg : approved_for dealer product r'
                     = approved_for dealer product r).
        { unfold approved_for. rewrite Hd, Hp. f_equal. f_equal.
          destruct (Status_eqb (r_status r') Approved) eqn:E1;
            destruct (Status_eqb (r_status r) Approved) eqn:E2;
            try reflexivity.
          - apply Status_eqb_eq in E1. apply Hst in E1.
            apply Status_eqb_eq in E1. congruence.
          - apply Status_eqb_eq in E2. apply Hst in E2.
            apply Status_eqb_eq in E2. congruence. }
        rewrite Hg, Hq, (Hagree dealer product). unfold approved_strips.
        destruct (approved_for dealer product r); lra. }
  destruct o; try (apply Hlife; [apply Hledger | exact Hreq]).
  - (* approval *)
    simpl step. unfold approve, guarded.
    destruct caller as [u|]; [|apply Hsame; (reflexivity || lia)].
    destruct (verifyAdmin u); [|apply Hsame; (reflexivity || lia)].
    destruct (approve_handler_cases db id notes now u Hwf)
      as [-> | (i & r & p & -> & Hfind & Hpending & Hprod & Hcover
                & [(Hc & Hstate) | (Hc & Hstate)])];
      [apply Hsame; (reflexivity || lia)| |].
    + rewrite Hstate.
      assert (Hin : In r (requests db))
        by (unfold findRequest in Hfind; apply find_some in Hfind;
            apply Hfind).
      unfold requests_fresh, lot_strips, approved_strips.
      cbn [requests stocks nextId]. split; [split|].
      * rewrite replace_by_keys. exact Hnd.
      * apply Forall_replace_by.
        { eapply Forall_impl; [|exact Hlt]. simpl. intros x Hx. lia. }
        intros _. simpl. rewrite Forall_forall in Hlt.
        specialize (Hlt r Hin). lia.
      * intros dealer product.
        rewrite (total_replace_one r_id r_strips (approved_for dealer product)
                   r (with_status r Approved (u_id u) now
                                  (notes_or_empty notes))
                   (requests db) Hnd Hin eq_refl).
        rewrite filter_app, total_of_app.
        fold (lot_strips db dealer product).
        fold (approved_strips db dealer product).
        rewrite (Hagree dealer product).
        assert (Hold : approved_for dealer product r = false).
        { unfold approved_for. rewrite Hpending. reflexivity. }
        rewrite Hold. unfold approved_for, lot_of. cbn [filter].
        cbn [r_status r_dealer r_product r_strips with_status s_dealer
             s_product Status_eqb andb].
        rewrite (findProduct_id _ _ _ Hprod).
        destruct (Nat.eqb (r_dealer r) dealer && Nat.eqb (r_product r) product);
          unfold total_of; simpl; lra.
    + rewrite Hstate. apply Hsame; (reflexivity || lia).
  - (* allocation *)
    simpl step.
    destruct (allocate_same_lots db caller salesmanId productId strips notes
                                 Hwf) as (Hlots & Hn).
    pose proof (allocate_frame db caller salesmanId productId strips notes)
      as (_ & _ & Hr).
    unfold requests_fresh, lot_strips, approved_strips. rewrite Hr.
    split; [split; [exact Hnd|]|].
    + eapply Forall_impl; [|exact Hlt]. simpl. intros r Hr'. lia.
    + intros dealer product.
      rewrite (same_lots_strips dealer product _ _ Hlots).
      apply Hagree.
  - (* the catalog routes *)
    apply Hsame; simpl; (reflexivity || lia).
Qed.

(** X27.  The two ledgers agree.  In every store the core can reach, for
    every dealer and product the sizes of the dealer's lots of the product
    add up to the strips of the dealer's approved requests for it: approval
    is the only way strips reach a dealer, and nothing an allocation, a
    cancellation or a payment step does moves that balance. *)
Theorem lots_match_approved_requests :
  forall db : DB,
    reachable db ->
    forall dealer product,
      lot_strips db dealer product == approved_strips db dealer product.
Proof.
  intros db (db0 & ops & (Hr & Hs & Ha) & <-).
  assert (Hwf0 : wf_db db0) by (apply empty_ledger_wf; repeat split; assumption).
  assert (Hfresh0 : requests_fresh db0)
    by (unfold requests_fresh; rewrite Hr; split; constructor).
  assert (Hagree0 : forall dealer product,
             lot_strips db0 dealer product
             == approved_strips db0 dealer product).
  { intros dealer product. unfold lot_strips, approved_strips.
    rewrite Hr, Hs. reflexivity. }
  clear Hr Hs Ha. revert db0 Hwf0 Hfresh0 Hagree0. unfold exec.
  induction ops as [|o ops IH]; intros db0 Hwf0 Hfresh0 Hagree0; simpl.
  - exact Hagree0.
  - destruct (step_ledgers_agree db0 o Hwf0 Hfresh0 Hagree0) as (Hf & Hag).
    apply IH; [apply step_wf, Hwf0 | exact Hf | exact Hag].
Qed.

Lemma lots_match_approved_requests_witness :
  lot_strips two_lots_db 2%nat 10%nat == approved_strips two_lots_db 2%nat 10%nat.
Proof.
  apply lots_match_approved_requests.
  unfold two_lots_db. apply scenario_reachable.
Defined.

(** ** The salesmen a dealer may allocate to *)

Lemma findSalesman_none (db : DB) (sid dealer : oid) :
  findSalesman db sid dealer = None
  <-> forall u, In u (users db) -> u_createdBy u = Some dealer ->
                u_role u = Salesman -> u_id u <> sid.
Proof.
  unfold findSalesman. split.
  - intros H u Hin Hby Hrole Hid.
    apply (find_none _ _ H) in Hin.
    rewrite Hid, Hby, Hrole, !Nat.eqb_refl in Hin. discriminate.
  - intro H. destruct (find _ (users db)) as [u|] eqn:E; [|reflexivity].
    exfalso. fold (findSalesman db sid dealer) in E.
    destruct (findSalesman_spec _ _ _ _ E) as (Hin & Hid & Hby & Hrole).
    exact (H u Hin Hby Hrole Hid).
Qed.

(** X28.  The salesmen [GET /dealer/salesmen] shows a dealer are the stored
    users with the salesman role whom that dealer created, and they are
    exactly the salesmen the dealer may allocate to: for a quantity of at
    least one strip, [POST /allocate] answers 404 "salesman not found"
    exactly when the salesman id is not among those listed. *)
Theorem listed_salesmen_are_the_allocatable :
  forall (by_name : list User -> list User) (db : DB) (caller : User),
    (forall l, Permutation (by_name l) l) ->
    verifyDealer caller = true ->
    exists listed,
      dealerSalesmen by_name db (Some caller) = (200%nat, Some listed)
      /\ (forall u, In u listed
                    <-> In u (users db)
                        /\ u_createdBy u = Some (u_id caller)
                        /\ u_role u = Salesman)
      /\ forall sid pid q notes,
           1 <= q ->
           (snd (allocate db (Some caller) (IdValid sid) (IdValid pid)
                          (JNum q) notes)
            = reply 404 MsgSalesmanNotFound
            <-> ~ In sid (map u_id listed)).
Proof.
  intros by_name db caller Hperm Hdealer.
  eexists. split; [unfold dealerSalesmen, guarded_read; rewrite Hdealer;
                   reflexivity|].
  assert (Hlist : forall u,
             In u (by_name
                     (filter (fun s => match u_createdBy s with
                                       | Some c => Nat.eqb c (u_id caller)
                                       | None => false
                                       end
                                       && Role_eqb (u_role s) Salesman)
                             (users db)))
             <-> In u (users db) /\ u_createdBy u = Some (u_id caller)
                 /\ u_role u = Salesman).
  { intro u. split.
    - intro H. apply (Permutation_in _ (Hperm _)) in H.
      apply filter_In in H. destruct H as (Hin & Hb).
      apply andb_true_iff in Hb. destruct Hb as (Hby & Hrole).
      destruct (u_createdBy u) as [c|]; [|discriminate].
      apply Nat.eqb_eq in Hby. subst c.
      destruct (u_role u); try discriminate. auto.
    - intros (Hin & Hby & Hrole).
      apply (Permutation_in _ (Permutation_sym (Hperm _))).
      apply filter_In. split; [exact Hin|].
      rewrite Hby, Hrole, Nat.eqb_refl. reflexivity. }
  split; [exact Hlist|].
  intros sid pid q notes Hq.
  destruct (truthy_strips q Hq) as (Ht & Hn).
  assert (Hnone : findSalesman db sid (u_id caller) = None
                  <-> ~ In sid (map u_id
                          (by_name
                             (filter (fun s => match u_createdBy s with
                                               | Some c =>
                                                   Nat.eqb c (u_id caller)
                                               | None => false
                                               end
                                               && Role_eqb (u_role s) Salesman)
                                     (users db))))).
  { rewrite findSalesman_none. split.
    - intros H Hin. apply in_map_iff in Hin. destruct Hin as (u & Hid & Hin).
      apply Hlist in Hin. destruct Hin as (Hu & Hby & Hrole).
      exact (H u Hu Hby Hrole Hid).
    - intros H u Hu Hby Hrole Hid. apply H. apply in_map_iff.
      exists u. split; [exact Hid|]. apply Hlist. auto. }
  rewrite <- Hnone.
  unfold allocate, guarded. rewrite Hdealer. unfold allocate_handler.
  rewrite Ht, Hn.
  destruct (findSalesman db sid (u_id caller)) as [salesman|].
  - split; [|discriminate].
    destruct (findProduct db pid); [|discriminate].
    destruct (walk _ _ _ _ _ _) as [st|]; [|discriminate].
    destruct (Qltb 0 (remainingToAllocate st)).
    + destruct (rollback _ _ _); discriminate.
    + destruct (w_allocations st); discriminate.
  - split; reflexivity.
Qed.

Lemma listed_salesmen_are_the_allocatable_witness :
  exists listed,
    dealerSalesmen (fun l => l) two_lots_db (Some the_dealer)
    = (200%nat, Some listed)
    /\ (snd (allocate two_lots_db (Some the_dealer) (IdValid 4%nat)
                      (IdValid 10%nat) (JNum 5) NotesFalsy)
        = reply 404 MsgSalesmanNotFound
        <-> ~ In 4%nat (map u_id listed)).
Proof.
  destruct (listed_salesmen_are_the_allocatable
              (fun l => l) two_lots_db the_dealer
              (fun l => Permutation_refl l) eq_refl)
    as (listed & Hlist & _ & Halloc).
  exists listed. split; [exact Hlist|].
  apply Halloc. lra.
Defined.
